(** * Flux backend: the budget-tracking and aggregation engine

    A shallow embedding of the Mongoose models and Express controllers of the
    Flux backend (models Income, Goal, Budget, Expense; controllers
    incomeController, goalController, budgetController, expenseController),
    and the properties of the aggregation engine proved about them.

    Modelling conventions.
    - A JavaScript [Number] that holds money or a percentage is an exact
      rational ([Q]); results are compared with [==].  Where the source
      divides, the quotient is a [JSNum.t], which keeps the IEEE outcomes of a
      zero divisor ([Infinity], [-Infinity], [NaN]).
    - A [Date] is its epoch time in milliseconds ([Z]); [new Date()] reads the
      clock of the database state.
    - A Mongoose collection is the list of its documents in insertion order
      (the order in which [find] without [sort] returns them); a document
      carries its [_id].
    - An [async] function is a computation in the monad [M]: it threads the
      database and either returns a value or throws.
    - [document.save()] validates before the [pre('save')] middleware runs,
      and it validates every path of a document that is new or was loaded
      from the store, modified or not.
    - Where a handler computes with a key of the request body, the body gives
      a JSON number there; strings and other JSON values in such a place are
      outside the model. *)

From Stdlib Require Import QArith Qminmax Qround ZArith List String Ascii Bool Lia Lqa.
Import ListNotations.
Open Scope string_scope.
Open Scope list_scope.
Open Scope Q_scope.

Set Implicit Arguments.

(** ** Numbers *)

(** [$sum] and [Array.prototype.reduce((a, b) => a + b, 0)]: accumulation
  from the left, starting at 0. *)
Definition Qsum (l : list Q) : Q := fold_left Qplus l 0.

(** [x < y] and [x > y] on rationals, as booleans. *)
Definition Qlt_bool (x y : Q) : bool := negb (Qle_bool y x).

(** The outcome of a JavaScript division or of arithmetic on one: a finite
  number, an infinity or [NaN]. *)
Module JSNum.

Inductive t : Type :=
| Fin (q : Q)
| PInf
| NInf
| NaN.

(** [x / y] for finite [x] and [y]. *)
Definition div (x y : Q) : t :=
  if Qeq_bool y 0 then
    if Qlt_bool 0 x then PInf
    else if Qlt_bool x 0 then NInf
    else NaN
  else Fin (x / y).

(** [n * k] for a finite positive constant [k] (the sources multiply a
    quotient by 100). *)
Definition mulPos (n : t) (k : Q) : t :=
  match n with
  | Fin q => Fin (q * k)
  | other => other
  end.

(** [Math.min(k, n)] for a finite [k]. *)
Definition minWith (k : Q) (n : t) : t :=
  match n with
  | Fin q => Fin (Qmin k q)
  | PInf => Fin k
  | NInf => NInf
  | NaN => NaN
  end.

(** [n >= p] for a finite [p]. *)
Definition geb (n : t) (p : Q) : bool :=
  match n with
  | Fin q => Qle_bool p q
  | PInf => true
  | NInf => false
  | NaN => false
  end.

(** [n < p] for a finite [p]. *)
Definition ltb (n : t) (p : Q) : bool :=
  match n with
  | Fin q => Qlt_bool q p
  | PInf => false
  | NInf => true
  | NaN => false
  end.

End JSNum.

(** ** models/Income.js *)

Module Income.

Inductive Frequency : Type :=
| OneTime | Weekly | BiWeekly | Monthly | Quarterly | Yearly.

Inductive IncomeType : Type :=
| Salary | Freelance | Business | Investment | Rental | Bonus | Gift | OtherType.

Record t : Type := mk {
  _id : nat;
  user : nat;
  source : string;
  type : IncomeType;
  amount : Q;
  frequency : Frequency;
  startDate : Z;
  endDate : option Z;          (* null means ongoing *)
  isActive : bool;
  isRecurring : bool
}.

(** The [multipliers] table of the [annualAmount] virtual. *)
Definition multipliers (f : Frequency) : Q :=
  match f with
  | OneTime => 0
  | Weekly => 52
  | BiWeekly => 26
  | Monthly => 12
  | Quarterly => 4
  | Yearly => 1
  end.

(** Virtual [annualAmount]. *)
Definition annualAmount (i : t) : Q :=
  if negb (isActive i) then 0
  else amount i * multipliers (frequency i).

(** Virtual [monthlyAmount]. *)
Definition monthlyAmount (i : t) : Q := annualAmount i / 12.

(** The [$switch] of the [$addFields] stage of [getTotalAnnualIncome]. *)
Definition switchAnnualAmount (i : t) : Q :=
  match frequency i with
  | Weekly => amount i * 52
  | BiWeekly => amount i * 26
  | Monthly => amount i * 12
  | Quarterly => amount i * 4
  | Yearly => amount i
  | OneTime => 0
  end.

Record BreakdownEntry : Type := mkEntry {
  b_source : string;
  b_type : IncomeType;
  b_annualAmount : Q;
  b_frequency : Frequency
}.

Record Summary : Type := mkSummary {
  totalAnnual : Q;
  totalMonthly : Q;
  sourceCount : nat;
  breakdown : list BreakdownEntry
}.

(** The [$match] stage of [getTotalAnnualIncome]. *)
Definition matchActive (userId : nat) (now : Z) (i : t) : bool :=
  Nat.eqb (user i) userId
  && isActive i
  && match endDate i with
     | None => true
     | Some e => (now <=? e)%Z
     end.

(** Static [getTotalAnnualIncome]: an aggregation whose [$group] stage has
    [_id: null], so it yields no document when nothing matches and one
    document otherwise. *)
Definition getTotalAnnualIncome (coll : list t) (now : Z) (userId : nat)
  : list Summary :=
  let matched := filter (matchActive userId now) coll in
  match matched with
  | [] => []
  | _ :: _ =>
      [ {| totalAnnual := Qsum (map switchAnnualAmount matched);
           totalMonthly := Qsum (map (fun i => switchAnnualAmount i / 12) matched);
           sourceCount := List.length matched;
           breakdown :=
             map (fun i => {| b_source := source i;
                              b_type := type i;
                              b_annualAmount := switchAnnualAmount i;
                              b_frequency := frequency i |}) matched |} ]
  end.

End Income.

(** ** controllers/incomeController.js (roll-up part) *)

Module incomeController.

(** [incomeData[0] || { totalAnnual: 0, totalMonthly: 0 }], as
    [updateUserTotalIncome] and [getIncomeVsExpenseAnalysis] read the
    roll-up, and the empty answer of [getIncomeSummary]. *)
Definition totalIncome (incomeData : list Income.Summary) : Income.Summary :=
  match incomeData with
  | s :: _ => s
  | [] => {| Income.totalAnnual := 0; Income.totalMonthly := 0;
             Income.sourceCount := 0; Income.breakdown := [] |}
  end.

Definition getIncomeSummary (coll : list Income.t) (now : Z) (userId : nat)
  : Income.Summary :=
  totalIncome (Income.getTotalAnnualIncome coll now userId).

End incomeController.

(** ** Strings *)

(** The white space that [String.prototype.trim] and the [trim: true] setter
    of a schema strip (the ASCII part of it). *)
Definition isSpace (c : ascii) : bool :=
  match nat_of_ascii c with
  | 9%nat | 10%nat | 11%nat | 12%nat | 13%nat | 32%nat => true
  | _ => false
  end.

Fixpoint trimStart (s : string) : string :=
  match s with
  | EmptyString => EmptyString
  | String c rest => if isSpace c then trimStart rest else s
  end.

Fixpoint rev_string (s acc : string) : string :=
  match s with
  | EmptyString => acc
  | String c rest => rev_string rest (String c acc)
  end.

Definition trim (s : string) : string :=
  rev_string (trimStart (rev_string (trimStart s) EmptyString)) EmptyString.

(** [!s] for a string that may be absent: absent or empty. *)
Definition isBlank (s : string) : bool :=
  match s with
  | EmptyString => true
  | _ => false
  end.

(** ** The schemas

    Each schema is the record of the fields that some operation of the engine
    reads or writes.  Fields that are only stored and returned ([currency],
    [tags], [description] of a goal or budget, [subcategory], [location],
    [metadata], [employer], ...) are left out; an [enum] of strings is an
    inductive type. *)

Module UserSchema.

Record t : Type := mk {
  _id : nat;
  premiumSubscription : bool;        (* subscription === 'premium' *)
  subscriptionExpiry : option Z;
  totalExpenses : Z;                 (* stats.totalExpenses *)
  monthlyLimit : Z                   (* stats.monthlyLimit *)
}.

Definition set_totalExpenses (n : Z) (u : t) : t :=
  {| _id := _id u; premiumSubscription := premiumSubscription u;
     subscriptionExpiry := subscriptionExpiry u;
     totalExpenses := n; monthlyLimit := monthlyLimit u |}.

End UserSchema.

Module ExpenseSchema.

Inductive Category : Type :=
| food | transport | entertainment | shopping | bills | healthcare | education
| travel | groceries | business | personal | recharge | investment | other.

Inductive Status : Type := pending | completed | cancelled.

Record t : Type := mk {
  _id : nat;
  user : nat;
  amount : Q;
  description : string;
  category : Category;
  date : Z;
  status : Status
}.

Definition Category_eqb (a b : Category) : bool :=
  match a, b with
  | food, food | transport, transport | entertainment, entertainment
  | shopping, shopping | bills, bills | healthcare, healthcare
  | education, education | travel, travel | groceries, groceries
  | business, business | personal, personal | recharge, recharge
  | investment, investment | other, other => true
  | _, _ => false
  end.

Definition Status_eqb (a b : Status) : bool :=
  match a, b with
  | pending, pending | completed, completed | cancelled, cancelled => true
  | _, _ => false
  end.

Definition set_user (x : nat) (e : t) : t :=
  {| _id := _id e; user := x; amount := amount e; description := description e;
     category := category e; date := date e; status := status e |}.

Definition set_amount (x : Q) (e : t) : t :=
  {| _id := _id e; user := user e; amount := x; description := description e;
     category := category e; date := date e; status := status e |}.

Definition set_description (x : string) (e : t) : t :=
  {| _id := _id e; user := user e; amount := amount e; description := x;
     category := category e; date := date e; status := status e |}.

Definition set_category (x : Category) (e : t) : t :=
  {| _id := _id e; user := user e; amount := amount e;
     description := description e; category := x; date := date e;
     status := status e |}.

Definition set_date (x : Z) (e : t) : t :=
  {| _id := _id e; user := user e; amount := amount e;
     description := description e; category := category e; date := x;
     status := status e |}.

Definition set_status (x : Status) (e : t) : t :=
  {| _id := _id e; user := user e; amount := amount e;
     description := description e; category := category e; date := date e;
     status := x |}.

End ExpenseSchema.

Module BudgetSchema.

(** The [category] of a budget: an expense category or ['total']. *)
Inductive Category : Type :=
| Cat (c : ExpenseSchema.Category)
| total.

Definition Category_eqb (a b : Category) : bool :=
  match a, b with
  | Cat x, Cat y => ExpenseSchema.Category_eqb x y
  | total, total => true
  | _, _ => false
  end.

Record Threshold : Type := mkThreshold {
  percentage : Q;
  triggered : bool;
  triggeredAt : option Z
}.

Record t : Type := mk {
  _id : nat;
  user : nat;
  name : string;
  category : Category;
  amount : Q;
  startDate : Z;
  endDate : Z;
  spent : Q;
  alertsEnabled : option bool;       (* alerts.enabled; [None]: not stored *)
  thresholds : list Threshold;       (* alerts.thresholds *)
  defaultThresholds : list Q;        (* alerts.defaultThresholds *)
  isActive : bool;
  autoRenew : bool
}.

Definition set_spent (x : Q) (b : t) : t :=
  {| _id := _id b; user := user b; name := name b; category := category b;
     amount := amount b; startDate := startDate b; endDate := endDate b;
     spent := x; alertsEnabled := alertsEnabled b; thresholds := thresholds b;
     defaultThresholds := defaultThresholds b; isActive := isActive b;
     autoRenew := autoRenew b |}.

Definition set_thresholds (x : list Threshold) (b : t) : t :=
  {| _id := _id b; user := user b; name := name b; category := category b;
     amount := amount b; startDate := startDate b; endDate := endDate b;
     spent := spent b; alertsEnabled := alertsEnabled b; thresholds := x;
     defaultThresholds := defaultThresholds b; isActive := isActive b;
     autoRenew := autoRenew b |}.

Definition set_name (x : string) (b : t) : t :=
  {| _id := _id b; user := user b; name := x; category := category b;
     amount := amount b; startDate := startDate b; endDate := endDate b;
     spent := spent b; alertsEnabled := alertsEnabled b;
     thresholds := thresholds b; defaultThresholds := defaultThresholds b;
     isActive := isActive b; autoRenew := autoRenew b |}.

Definition set_amount (x : Q) (b : t) : t :=
  {| _id := _id b; user := user b; name := name b; category := category b;
     amount := x; startDate := startDate b; endDate := endDate b;
     spent := spent b; alertsEnabled := alertsEnabled b;
     thresholds := thresholds b; defaultThresholds := defaultThresholds b;
     isActive := isActive b; autoRenew := autoRenew b |}.

Definition set_autoRenew (x : bool) (b : t) : t :=
  {| _id := _id b; user := user b; name := name b; category := category b;
     amount := amount b; startDate := startDate b; endDate := endDate b;
     spent := spent b; alertsEnabled := alertsEnabled b;
     thresholds := thresholds b; defaultThresholds := defaultThresholds b;
     isActive := isActive b; autoRenew := x |}.

(** Assignment of a whole [alerts] object. *)
Definition set_alerts (en : option bool) (ths : list Threshold) (defs : list Q)
  (b : t) : t :=
  {| _id := _id b; user := user b; name := name b; category := category b;
     amount := amount b; startDate := startDate b; endDate := endDate b;
     spent := spent b; alertsEnabled := en; thresholds := ths;
     defaultThresholds := defs; isActive := isActive b;
     autoRenew := autoRenew b |}.

End BudgetSchema.

Module GoalSchema.

Inductive Category : Type :=
| emergency | vacation | gadget | car | home | education | gift
| entertainment | health | other.

Inductive Frequency : Type := weekly | monthly | quarterly.

Inductive Source : Type := manual | auto_save | bonus.

Record AutoSave : Type := mkAutoSave {
  enabled : bool;
  as_amount : Q;                     (* autoSave.amount *)
  frequency : Frequency;
  nextContribution : option Z
}.

Record Contribution : Type := mkContribution {
  amount : Q;
  date : Z;
  description : string;
  source : Source
}.

Record t : Type := mk {
  _id : nat;
  user : nat;
  name : string;
  targetAmount : Q;
  currentAmount : Q;
  category : Category;
  deadline : Z;
  isCompleted : bool;
  completedAt : option Z;
  autoSave : AutoSave;
  contributions : list Contribution;
  isActive : bool
}.

Definition set_name (x : string) (g : t) : t :=
  {| _id := _id g; user := user g; name := x; targetAmount := targetAmount g;
     currentAmount := currentAmount g; category := category g;
     deadline := deadline g; isCompleted := isCompleted g;
     completedAt := completedAt g; autoSave := autoSave g;
     contributions := contributions g; isActive := isActive g |}.

Definition set_targetAmount (x : Q) (g : t) : t :=
  {| _id := _id g; user := user g; name := name g; targetAmount := x;
     currentAmount := currentAmount g; category := category g;
     deadline := deadline g; isCompleted := isCompleted g;
     completedAt := completedAt g; autoSave := autoSave g;
     contributions := contributions g; isActive := isActive g |}.

Definition set_currentAmount (x : Q) (g : t) : t :=
  {| _id := _id g; user := user g; name := name g;
     targetAmount := targetAmount g; currentAmount := x;
     category := category g; deadline := deadline g;
     isCompleted := isCompleted g; completedAt := completedAt g;
     autoSave := autoSave g; contributions := contributions g;
     isActive := isActive g |}.

Definition set_category (x : Category) (g : t) : t :=
  {| _id := _id g; user := user g; name := name g;
     targetAmount := targetAmount g; currentAmount := currentAmount g;
     category := x; deadline := deadline g; isCompleted := isCompleted g;
     completedAt := completedAt g; autoSave := autoSave g;
     contributions := contributions g; isActive := isActive g |}.

Definition set_deadline (x : Z) (g : t) : t :=
  {| _id := _id g; user := user g; name := name g;
     targetAmount := targetAmount g; currentAmount := currentAmount g;
     category := category g; deadline := x; isCompleted := isCompleted g;
     completedAt := completedAt g; autoSave := autoSave g;
     contributions := contributions g; isActive := isActive g |}.

(** [this.isCompleted = true; this.completedAt = when]. *)
Definition set_completed (when : Z) (g : t) : t :=
  {| _id := _id g; user := user g; name := name g;
     targetAmount := targetAmount g; currentAmount := currentAmount g;
     category := category g; deadline := deadline g; isCompleted := true;
     completedAt := Some when; autoSave := autoSave g;
     contributions := contributions g; isActive := isActive g |}.

Definition set_autoSave (x : AutoSave) (g : t) : t :=
  {| _id := _id g; user := user g; name := name g;
     targetAmount := targetAmount g; currentAmount := currentAmount g;
     category := category g; deadline := deadline g;
     isCompleted := isCompleted g; completedAt := completedAt g;
     autoSave := x; contributions := contributions g;
     isActive := isActive g |}.

Definition set_nextContribution (x : option Z) (g : t) : t :=
  set_autoSave
    {| enabled := enabled (autoSave g); as_amount := as_amount (autoSave g);
       frequency := frequency (autoSave g); nextContribution := x |} g.

Definition set_contributions (x : list Contribution) (g : t) : t :=
  {| _id := _id g; user := user g; name := name g;
     targetAmount := targetAmount g; currentAmount := currentAmount g;
     category := category g; deadline := deadline g;
     isCompleted := isCompleted g; completedAt := completedAt g;
     autoSave := autoSave g; contributions := x; isActive := isActive g |}.

Definition set_isActive (x : bool) (g : t) : t :=
  {| _id := _id g; user := user g; name := name g;
     targetAmount := targetAmount g; currentAmount := currentAmount g;
     category := category g; deadline := deadline g;
     isCompleted := isCompleted g; completedAt := completedAt g;
     autoSave := autoSave g; contributions := contributions g;
     isActive := x |}.

End GoalSchema.

(** ** Errors, the database and the request monad *)

Inductive Error : Type :=
| ApiError (statusCode : Z) (message : string)   (* new ApiError(code, message) *)
| ValidationError (message : string)             (* Mongoose schema validation *)
| PlainError (message : string)                  (* new Error(message), TypeError *)
| MongoError (message : string).                 (* a failed round trip to MongoDB *)

(** [error.message]. *)
Definition message (e : Error) : string :=
  match e with
  | ApiError _ m => m
  | ValidationError m => m
  | PlainError m => m
  | MongoError m => m
  end.

Inductive Result (A : Type) : Type :=
| Ok (a : A)
| Throw (e : Error).

Arguments Throw {A} e.

Inductive Coll : Type := Users | Expenses | Budgets | Goals.

(** The database: the four collections, the [ObjectId] generator, the clock,
    and for each collection the outcomes of its coming round trips ([true]: the
    round trip fails).  An empty schedule means that no round trip fails. *)
Record DB : Type := mkDB {
  users : list UserSchema.t;
  expenses : list ExpenseSchema.t;
  budgets : list BudgetSchema.t;
  goals : list GoalSchema.t;
  nextId : nat;
  clock : Z;
  faults : Coll -> list bool
}.

Definition set_users (x : list UserSchema.t) (db : DB) : DB :=
  {| users := x; expenses := expenses db; budgets := budgets db;
     goals := goals db; nextId := nextId db; clock := clock db;
     faults := faults db |}.

Definition set_expenses (x : list ExpenseSchema.t) (db : DB) : DB :=
  {| users := users db; expenses := x; budgets := budgets db;
     goals := goals db; nextId := nextId db; clock := clock db;
     faults := faults db |}.

Definition set_budgets (x : list BudgetSchema.t) (db : DB) : DB :=
  {| users := users db; expenses := expenses db; budgets := x;
     goals := goals db; nextId := nextId db; clock := clock db;
     faults := faults db |}.

Definition set_goals (x : list GoalSchema.t) (db : DB) : DB :=
  {| users := users db; expenses := expenses db; budgets := budgets db;
     goals := x; nextId := nextId db; clock := clock db;
     faults := faults db |}.

Definition set_nextId (x : nat) (db : DB) : DB :=
  {| users := users db; expenses := expenses db; budgets := budgets db;
     goals := goals db; nextId := x; clock := clock db;
     faults := faults db |}.

Definition set_clock (x : Z) (db : DB) : DB :=
  {| users := users db; expenses := expenses db; budgets := budgets db;
     goals := goals db; nextId := nextId db; clock := x;
     faults := faults db |}.

Definition set_faults (x : Coll -> list bool) (db : DB) : DB :=
  {| users := users db; expenses := expenses db; budgets := budgets db;
     goals := goals db; nextId := nextId db; clock := clock db;
     faults := x |}.

Definition Coll_eqb (a b : Coll) : bool :=
  match a, b with
  | Users, Users | Expenses, Expenses | Budgets, Budgets | Goals, Goals => true
  | _, _ => false
  end.

(** An [async] computation: it runs on a database and ends by returning or
    by throwing; the writes made before a throw stay. *)
Definition M (A : Type) : Type := DB -> Result A * DB.

Definition ret {A : Type} (a : A) : M A := fun db => (Ok a, db).

Definition throw {A : Type} (e : Error) : M A := fun db => (Throw e, db).

Definition bind {A B : Type} (c : M A) (k : A -> M B) : M B :=
  fun db =>
    match c db with
    | (Ok a, db') => k a db'
    | (Throw e, db') => (Throw e, db')
    end.

(** [try { body } catch (error) { handler }]. *)
Definition tryCatch {A : Type} (body : M A) (handler : Error -> M A) : M A :=
  fun db =>
    match body db with
    | (Ok a, db') => (Ok a, db')
    | (Throw e, db') => handler e db'
    end.

Definition get : M DB := fun db => (Ok db, db).

Definition modify (f : DB -> DB) : M unit := fun db => (Ok tt, f db).

Declare Scope async_scope.
Delimit Scope async_scope with async.
Notation "x <- c ;; k" := (bind c (fun x => k))
  (at level 61, c at next level, right associativity) : async_scope.
Notation "c ;; k" := (bind c (fun _ => k))
  (at level 61, right associativity) : async_scope.
Open Scope async_scope.

(** [new Date()]. *)
Definition new_Date : M Z := fun db => (Ok (clock db), db).

(** One round trip to collection [c]: it takes the next outcome of the
    schedule of [c]. *)
Definition roundTrip (c : Coll) : M unit :=
  fun db =>
    match faults db c with
    | [] => (Ok tt, db)
    | failed :: rest =>
        let db' :=
          set_faults (fun c' => if Coll_eqb c' c then rest else faults db c') db in
        if failed then (Throw (MongoError "connection error"), db')
        else (Ok tt, db')
    end.

(** A fresh [ObjectId]. *)
Definition freshId : M nat :=
  fun db => (Ok (nextId db), set_nextId (S (nextId db)) db).

(** [for (const x of xs) { ... results.push(...) }], with the pushed values
    collected in order. *)
Fixpoint forOf {A B : Type} (xs : list A) (body : A -> M B) : M (list B) :=
  match xs with
  | [] => ret []
  | x :: rest =>
      r <- body x ;;
      rs <- forOf rest body ;;
      ret (r :: rs)
  end.

(** [res.status(code).json(new ApiResponse(code, data, ...))]. *)
Record Response (A : Type) : Type := respond {
  statusCode : Z;
  data : A
}.

(** The JavaScript runtime's calendar arithmetic on local dates, which the
    models call and do not define. *)
Class Calendar : Type := {
  (** [d.setDate(d.getDate() + n)] *)
  plusDays : Z -> Z -> Z;
  (** [d.setMonth(d.getMonth() + n)] *)
  plusMonths : Z -> Z -> Z;
  (** [new Date(d.getFullYear(), d.getMonth() + 1, 0, 23, 59, 59)] *)
  endOfMonth : Z -> Z;
  (** [new Date(d.getFullYear() + 1, d.getMonth(), d.getDate())] *)
  sameDayNextYear : Z -> Z
}.

(** ** models/User.js (the part the expense and goal controllers use) *)

Module User.
Import UserSchema.

Definition isPremium (now : Z) (u : t) : bool :=
  premiumSubscription u
  && match subscriptionExpiry u with
     | None => true
     | Some expiry => (now <? expiry)%Z
     end.

Definition canAddExpense (now : Z) (u : t) : bool :=
  if isPremium now u then true
  else (totalExpenses u <? monthlyLimit u)%Z.

Definition findById (id : nat) : M (option t) :=
  roundTrip Users ;;
  db <- get ;;
  ret (find (fun u => Nat.eqb (_id u) id) (users db)).

(** [User.findByIdAndUpdate(id, { $inc: { 'stats.totalExpenses': n } })]. *)
Definition findByIdAndUpdate_incTotalExpenses (id : nat) (n : Z) : M unit :=
  roundTrip Users ;;
  modify (fun db =>
    set_users
      (map (fun u => if Nat.eqb (_id u) id
                     then set_totalExpenses (totalExpenses u + n)%Z u
                     else u)
           (users db)) db).

End User.

(** ** models/Goal.js *)

Module Goal.
Import GoalSchema.

(** Virtual [progressPercentage]. *)
Definition progressPercentage (g : t) : JSNum.t :=
  JSNum.minWith 100
    (JSNum.mulPos (JSNum.div (currentAmount g) (targetAmount g)) 100).

(** Virtual [remainingAmount]. *)
Definition remainingAmount (g : t) : Q :=
  Qmax 0 (targetAmount g - currentAmount g).

(** The schema paths that carry a validator.  When a document is saved,
    Mongoose validates every path of a new document and every path of a
    document that was loaded from the store, modified or not; so the
    validator of [deadline], which compares with the present instant, runs
    on every save of a stored goal.  (On a document that the request itself
    has saved before, Mongoose leaves out the paths that it validated then and
    that were not modified since; validating them again within the request
    gives the same verdict.) *)
Inductive Path : Type :=
| p_name | p_targetAmount | p_currentAmount | p_deadline
| p_autoSave_amount | p_contributions.

Definition allPaths : list Path :=
  [p_name; p_targetAmount; p_currentAmount; p_deadline;
   p_autoSave_amount; p_contributions].

Definition validatePath (now : Z) (g : t) (p : Path) : option string :=
  match p with
  | p_name =>
      match name g with
      | EmptyString => Some "Goal name is required"
      | _ => if (100 <? String.length (name g))%nat
             then Some "Goal name cannot exceed 100 characters"
             else None
      end
  | p_targetAmount =>
      if Qlt_bool (targetAmount g) (1 # 100)
      then Some "Target amount must be greater than 0" else None
  | p_currentAmount =>
      if Qlt_bool (currentAmount g) 0
      then Some "Current amount cannot be negative" else None
  | p_deadline =>
      if (now <? deadline g)%Z then None
      else Some "Deadline must be in the future"
  | p_autoSave_amount =>
      if Qlt_bool (as_amount (autoSave g)) 0
      then Some "Auto-save amount cannot be negative" else None
  | p_contributions =>
      if forallb (fun c => Qle_bool 0 (amount c)) (contributions g) then None
      else Some "Path `amount` is less than minimum allowed value (0)."
  end.

(** The first validation failure among the given paths. *)
Fixpoint validate (now : Z) (g : t) (paths : list Path) : option string :=
  match paths with
  | [] => None
  | p :: rest =>
      match validatePath now g p with
      | Some msg => Some msg
      | None => validate now g rest
      end
  end.

Section WithCalendar.
Context {calendar : Calendar}.

(** Instance method [calculateNextContribution]. *)
Definition calculateNextContribution (now : Z) (g : t) : option Z :=
  if negb (enabled (autoSave g)) then None
  else
    Some match frequency (autoSave g) with
         | weekly => plusDays now 7
         | monthly => plusMonths now 1
         | quarterly => plusMonths now 3
         end.

(** The [pre('save')] middleware. *)
Definition preSave (now : Z) (g : t) : t :=
  let g1 :=
    if Qle_bool (targetAmount g) (currentAmount g) && negb (isCompleted g)
    then set_completed now g
    else g in
  if enabled (autoSave g1)
     && match nextContribution (autoSave g1) with None => true | Some _ => false end
  then set_nextContribution (calculateNextContribution now g1) g1
  else g1.

(** The stored collection after [g] is written under its [_id]. *)
Fixpoint store (g : t) (coll : list t) : list t :=
  match coll with
  | [] => [g]
  | g0 :: rest =>
      if Nat.eqb (_id g0) (_id g) then g :: rest else g0 :: store g rest
  end.

(** [this.save()]: validation of the paths [validated], then the
    [pre('save')] middleware, then the write.  It resolves to the document. *)
Definition save (validated : list Path) (g : t) : M t :=
  now <- new_Date ;;
  match validate now g validated with
  | Some msg => throw (ValidationError msg)
  | None =>
      let g' := preSave now g in
      roundTrip Goals ;;
      modify (fun db => set_goals (store g' (goals db)) db) ;;
      ret g'
  end.

(** The fields given to [Goal.create] by the controller. *)
Record CreateFields : Type := mkCreate {
  c_user : nat;
  c_name : string;
  c_targetAmount : Q;
  c_currentAmount : Q;
  c_category : Category;
  c_deadline : Z;
  c_autoSave : AutoSave
}.

(** [Goal.create(fields)]: a new document with the schema defaults, saved. *)
Definition create (f : CreateFields) : M t :=
  id <- freshId ;;
  save allPaths
    {| _id := id; user := c_user f; name := c_name f;
       targetAmount := c_targetAmount f; currentAmount := c_currentAmount f;
       category := c_category f; deadline := c_deadline f;
       isCompleted := false; completedAt := None;
       autoSave := c_autoSave f; contributions := []; isActive := true |}.

(** Instance method [addContribution]. *)
Definition addContribution (g : t) (amt : Q) (descr : string) (src : Source)
  : M t :=
  if Qle_bool amt 0 then
    throw (PlainError "Contribution amount must be positive")
  else
    let previousAmount := currentAmount g in
    let g1 := set_currentAmount (Qmin (currentAmount g + amt) (targetAmount g)) g in
    now <- new_Date ;;
    let g2 :=
      set_contributions
        (contributions g1 ++
           [ {| amount := currentAmount g1 - previousAmount;
                description := descr;
                source := src;
                date := now |} ]) g1 in
    save allPaths g2.

End WithCalendar.

(** [Goal.findOne(query)]. *)
Definition findOne (query : t -> bool) : M (option t) :=
  roundTrip Goals ;;
  db <- get ;;
  ret (find query (goals db)).

(** Static [findAutoSaveDue]. *)
Definition findAutoSaveDue : M (list t) :=
  now <- new_Date ;;
  roundTrip Goals ;;
  db <- get ;;
  ret (filter
         (fun g =>
            enabled (autoSave g)
            && match nextContribution (autoSave g) with
               | Some next => (next <=? now)%Z
               | None => false
               end
            && negb (isCompleted g)
            && isActive g)
         (goals db)).

End Goal.

(** ** controllers/goalController.js

    A handler takes the authenticated user's id ([req.user._id]), the route
    parameter and the body; it returns the response it sends, or throws (the
    error then goes to the error middleware). *)

Module goalController.
Import GoalSchema.

Record CreateGoalBody : Type := mkCreateGoalBody {
  cg_name : string;                       (* absent: the empty string *)
  cg_targetAmount : option Q;
  cg_currentAmount : option Q;
  cg_category : option Category;
  cg_deadline : option Z;
  cg_autoSave : option AutoSave
}.

Record UpdateGoalBody : Type := mkUpdateGoalBody {
  ug_name : option string;
  ug_targetAmount : option Q;
  ug_category : option Category;
  ug_deadline : option Z;
  ug_autoSave : option AutoSave
}.

(** The body of a contribution whose [amount], when given, is a JSON
    number. *)
Record ContributeBody : Type := mkContributeBody {
  ct_amount : option Q;
  ct_description : string                 (* absent: the empty string *)
}.

Inductive ItemStatus : Type := success | failed.

(** An entry of the [results] of [processAutoSave]. *)
Record AutoSaveResult : Type := mkAutoSaveResult {
  goalId : nat;
  goalName : string;
  r_amount : Q;
  r_status : ItemStatus;
  r_error : option string
}.

(** [!x] for a number that may be absent: absent or zero. *)
Definition noNumber (x : option Q) : bool :=
  match x with
  | None => true
  | Some q => Qeq_bool q 0
  end.

Definition frequencyName (f : Frequency) : string :=
  match f with
  | weekly => "weekly"
  | monthly => "monthly"
  | quarterly => "quarterly"
  end.

Section WithCalendar.
Context {calendar : Calendar}.

Definition createGoal (userId : nat) (body : CreateGoalBody)
  : M (Response t) :=
  let currentAmount := match cg_currentAmount body with Some c => c | None => 0 end in
  match cg_targetAmount body, cg_category body, cg_deadline body with
  | Some targetAmount, Some category, Some deadline =>
      if isBlank (cg_name body) || Qeq_bool targetAmount 0 then
        throw (ApiError 400 "Name, target amount, category, and deadline are required")
      else if Qle_bool targetAmount 0 then
        throw (ApiError 400 "Target amount must be greater than 0")
      else if Qlt_bool currentAmount 0 then
        throw (ApiError 400 "Current amount cannot be negative")
      else
        now <- new_Date ;;
        if (deadline <=? now)%Z then
          throw (ApiError 400 "Deadline must be in the future")
        else
          user <- User.findById userId ;;
          match user with
          | None => throw (PlainError "Cannot read properties of null (reading 'preferences')")
          | Some _ =>
              goal <- Goal.create
                        {| Goal.c_user := userId;
                           Goal.c_name := trim (cg_name body);
                           Goal.c_targetAmount := targetAmount;
                           Goal.c_currentAmount := currentAmount;
                           Goal.c_category := category;
                           Goal.c_deadline := deadline;
                           Goal.c_autoSave :=
                             match cg_autoSave body with
                             | Some a => a
                             | None => {| enabled := false; as_amount := 0;
                                          frequency := monthly;
                                          nextContribution := None |}
                             end |} ;;
              (* Add initial contribution if currentAmount > 0 *)
              goal <- (if Qlt_bool 0 currentAmount
                       then Goal.addContribution goal currentAmount
                              "Initial contribution" manual
                       else ret goal) ;;
              roundTrip Users ;;           (* goal.populate('user', ...) *)
              ret (respond 201 goal)
          end
  | _, _, _ =>
      throw (ApiError 400 "Name, target amount, category, and deadline are required")
  end.

(** [allowedUpdates.forEach(field => ...)] on the modelled fields. *)
Definition applyUpdates (body : UpdateGoalBody) (g : t) : t :=
  let g := match ug_name body with Some x => set_name (trim x) g | None => g end in
  let g := match ug_targetAmount body with Some x => set_targetAmount x g | None => g end in
  let g := match ug_category body with Some x => set_category x g | None => g end in
  let g := match ug_deadline body with Some x => set_deadline x g | None => g end in
  match ug_autoSave body with Some x => set_autoSave x g | None => g end.

Definition updateGoal (userId id : nat) (body : UpdateGoalBody)
  : M (Response t) :=
  found <- Goal.findOne (fun g => Nat.eqb (_id g) id && Nat.eqb (user g) userId) ;;
  match found with
  | None => throw (ApiError 404 "Goal not found")
  | Some goal =>
      (* Don't allow updating completed goals *)
      if isCompleted goal then
        throw (ApiError 400 "Cannot update completed goal")
      else
        let goal := applyUpdates body goal in
        now <- new_Date ;;
        match ug_deadline body with
        | Some d =>
            if (d <=? now)%Z then
              throw (ApiError 400 "Deadline must be in the future")
            else
              goal <- Goal.save Goal.allPaths goal ;;
              ret (respond 200 goal)
        | None =>
            goal <- Goal.save Goal.allPaths goal ;;
            ret (respond 200 goal)
        end
  end.

Definition deleteGoal (userId id : nat) : M (Response unit) :=
  found <- Goal.findOne (fun g => Nat.eqb (_id g) id && Nat.eqb (user g) userId) ;;
  match found with
  | None => throw (ApiError 404 "Goal not found")
  | Some goal =>
      (* Soft delete by setting isActive to false *)
      _ <- Goal.save Goal.allPaths (set_isActive false goal) ;;
      ret (respond 200 tt)
  end.

Definition contributeToGoal (userId id : nat) (body : ContributeBody)
  : M (Response t) :=
  match ct_amount body with
  | None => throw (ApiError 400 "Valid contribution amount is required")
  | Some amount =>
      if Qeq_bool amount 0 || Qle_bool amount 0 then
        throw (ApiError 400 "Valid contribution amount is required")
      else
        found <- Goal.findOne
                   (fun g => Nat.eqb (_id g) id && Nat.eqb (user g) userId
                             && isActive g) ;;
        match found with
        | None => throw (ApiError 404 "Goal not found")
        | Some goal =>
            if isCompleted goal then
              throw (ApiError 400 "Goal is already completed")
            else
              let remainingAmount := targetAmount goal - currentAmount goal in
              if Qlt_bool remainingAmount amount then
                (* the source's message ends with "by" and the excess,
                   formatted with toFixed(2) *)
                throw (ApiError 400 "Contribution amount exceeds remaining target")
              else
                goal <- Goal.addContribution goal amount
                          (if isBlank (ct_description body)
                           then "Manual contribution"
                           else ct_description body)
                          manual ;;
                ret (respond 200 goal)
        end
  end.

(** The [try] block of the loop of [processAutoSave]: the contribution to one
    due goal, its next date, and the entry pushed on [results]. *)
Definition contributeAutoSave (goal : t) : M AutoSaveResult :=
  goal' <- Goal.addContribution goal (as_amount (autoSave goal))
             ("Auto-save contribution (" ++ frequencyName (frequency (autoSave goal)) ++ ")")
             auto_save ;;
  (* Set next contribution date *)
  now <- new_Date ;;
  _ <- Goal.save Goal.allPaths
         (set_nextContribution (Goal.calculateNextContribution now goal') goal') ;;
  ret {| goalId := _id goal; goalName := name goal;
         r_amount := as_amount (autoSave goal);
         r_status := success; r_error := None |}.

(** The body of the loop of [processAutoSave]: the [try] block and its
    [catch]. *)
Definition processAutoSaveGoal (goal : t) : M AutoSaveResult :=
  tryCatch
    (contributeAutoSave goal)
    (fun error =>
       ret {| goalId := _id goal; goalName := name goal;
              r_amount := as_amount (autoSave goal);
              r_status := failed; r_error := Some (message error) |}).

Definition processAutoSave : M (Response (list AutoSaveResult)) :=
  dueGoals <- Goal.findAutoSaveDue ;;
  results <- forOf dueGoals processAutoSaveGoal ;;
  ret (respond 200 results).

End WithCalendar.

End goalController.

(** ** models/Budget.js *)

Module Budget.
Import BudgetSchema.

(** Virtual [remaining]. *)
Definition remaining (b : t) : Q := Qmax 0 (amount b - spent b).

(** Virtual [percentageUsed]. *)
Definition percentageUsed (b : t) : JSNum.t :=
  JSNum.minWith 100 (JSNum.mulPos (JSNum.div (spent b) (amount b)) 100).

Inductive Status : Type := exceeded | critical | warning | moderate | good.

(** Virtual [status]. *)
Definition status (b : t) : Status :=
  let percentage := percentageUsed b in
  if JSNum.geb percentage 100 then exceeded
  else if JSNum.geb percentage 90 then critical
  else if JSNum.geb percentage 75 then warning
  else if JSNum.geb percentage 50 then moderate
  else good.

(** Instance method [isOverBudget]. *)
Definition isOverBudget (b : t) : bool := Qlt_bool (amount b) (spent b).

(** The schema paths that carry a validator (see [Goal.Path]). *)
Inductive Path : Type := p_name | p_amount | p_spent | p_thresholds.

Definition allPaths : list Path := [p_name; p_amount; p_spent; p_thresholds].

(** Where the document that is saved comes from: it was loaded from the
    store by this request, or created by it and saved before. *)
Inductive Origin : Type := loaded | created.

(** The paths that a save validates: every path of a loaded document; of a
    document that the request created, the required paths and those modified
    since its last save.  The thresholds that the [pre('save')] middleware
    writes are written after the validation of that save. *)
Definition pathsToValidate (origin : Origin) (modified : list Path) : list Path :=
  match origin with
  | loaded => allPaths
  | created => [p_name; p_amount] ++ modified
  end.

Definition validatePath (b : t) (p : Path) : option string :=
  match p with
  | p_name =>
      match name b with
      | EmptyString => Some "Path `name` is required."
      | _ => if (100 <? String.length (name b))%nat
             then Some "Path `name` is longer than the maximum allowed length (100)."
             else None
      end
  | p_amount =>
      if Qlt_bool (amount b) 0 then Some "Budget amount must be positive" else None
  | p_spent =>
      if Qlt_bool (spent b) 0
      then Some "Path `spent` is less than minimum allowed value (0)." else None
  | p_thresholds =>
      if forallb (fun th => Qle_bool 1 (percentage th) && Qle_bool (percentage th) 100)
           (thresholds b)
      then None
      else Some "Path `percentage` is outside the allowed range (1 to 100)."
  end.

Fixpoint validate (b : t) (paths : list Path) : option string :=
  match paths with
  | [] => None
  | p :: rest =>
      match validatePath b p with
      | Some msg => Some msg
      | None => validate b rest
      end
  end.

(** The [pre('save')] middleware: initialize alert thresholds if not set. *)
Definition preSave (b : t) : t :=
  match thresholds b with
  | [] =>
      set_thresholds
        (map (fun percentage =>
                {| percentage := percentage; triggered := false;
                   triggeredAt := None |})
             (defaultThresholds b)) b
  | _ :: _ => b
  end.

Fixpoint store (b : t) (coll : list t) : list t :=
  match coll with
  | [] => [b]
  | b0 :: rest =>
      if Nat.eqb (_id b0) (_id b) then b :: rest else b0 :: store b rest
  end.

(** [this.save()]: validation of the paths [validated], then the
    [pre('save')] middleware, then the write. *)
Definition save (validated : list Path) (b : t) : M t :=
  match validate b validated with
  | Some msg => throw (ValidationError msg)
  | None =>
      let b' := preSave b in
      roundTrip Budgets ;;
      modify (fun db => set_budgets (store b' (budgets db)) db) ;;
      ret b'
  end.

(** The threshold check of [updateSpent] on one threshold. *)
Definition checkThreshold (currentPercentage : JSNum.t) (now : Z) (th : Threshold)
  : Threshold :=
  if negb (triggered th) && JSNum.geb currentPercentage (percentage th)
  then {| percentage := percentage th; triggered := true; triggeredAt := Some now |}
  else th.

(** Instance method [updateSpent], on a loaded budget. *)
Definition updateSpent (b : t) (newExpenseAmount oldExpenseAmount : Q) : M t :=
  let difference := newExpenseAmount - oldExpenseAmount in
  let b1 := set_spent (Qmax 0 (spent b + difference)) b in
  (* Check alert thresholds *)
  let currentPercentage := percentageUsed b1 in
  now <- new_Date ;;
  save (pathsToValidate loaded [p_spent; p_thresholds])
    (set_thresholds (map (checkThreshold currentPercentage now) (thresholds b1)) b1).

(** [Budget.findOne(query)]. *)
Definition findOne (query : t -> bool) : M (option t) :=
  roundTrip Budgets ;;
  db <- get ;;
  ret (find query (budgets db)).

(** [Budget.create(fields)]: a new document, all of whose paths are
    validated. *)
Definition create (b : t) : M t := save allPaths b.

(** [budget.deleteOne()]. *)
Definition deleteOne (b : t) : M unit :=
  roundTrip Budgets ;;
  modify (fun db =>
    set_budgets (filter (fun b0 => negb (Nat.eqb (_id b0) (_id b))) (budgets db)) db).

End Budget.

(** ** models/Expense.js *)

Module Expense.
Import ExpenseSchema.

(** [String.prototype.toLowerCase] on the ASCII letters. *)
Definition lowerAscii (c : ascii) : ascii :=
  let n := nat_of_ascii c in
  if ((65 <=? n) && (n <=? 90))%nat then ascii_of_nat (n + 32) else c.

Fixpoint toLowerCase (s : string) : string :=
  match s with
  | EmptyString => EmptyString
  | String c rest => String (lowerAscii c) (toLowerCase rest)
  end.

(** [s.includes(keyword)]. *)
Fixpoint includes (s keyword : string) : bool :=
  String.prefix keyword s
  || match s with
     | EmptyString => false
     | String _ rest => includes rest keyword
     end.

(** The table [indianCategories] of [inferCategory], in the order of its
    keys. *)
Definition indianCategories : list (Category * list string) :=
  [ (food, ["zomato"; "swiggy"; "restaurant"; "cafe"; "dhaba"; "food"; "dining";
            "lunch"; "dinner"; "dominos"; "pizzahut"; "kfc"; "mcdonalds"]);
    (transport, ["uber"; "ola"; "auto"; "rickshaw"; "taxi"; "metro"; "bus";
                 "train"; "petrol"; "diesel"; "fuel"; "parking"; "toll"; "rapido"]);
    (groceries, ["grocery"; "vegetables"; "fruits"; "bigbasket"; "grofers";
                 "blinkit"; "dunzo"; "supermarket"; "kirana"; "dmart"]);
    (entertainment, ["movie"; "cinema"; "pvr"; "inox"; "bookmyshow"; "netflix";
                     "hotstar"; "prime"; "spotify"; "game"; "concert"]);
    (bills, ["electricity"; "bijli"; "water"; "internet"; "broadband"; "jio";
             "airtel"; "vi"; "bsnl"; "gas"; "cylinder"; "rent"; "emi"]);
    (healthcare, ["doctor"; "hospital"; "clinic"; "pharmacy"; "medical";
                  "medicine"; "apollo"; "fortis"; "max"; "dental"]);
    (shopping, ["amazon"; "flipkart"; "myntra"; "ajio"; "nykaa"; "reliance";
                "big bazaar"; "clothes"; "clothing"; "mall"; "shop"]);
    (recharge, ["recharge"; "mobile"; "phone"; "paytm"; "phonepe"; "googlepay";
                "prepaid"; "postpaid"; "dth"]);
    (investment, ["sip"; "mutual fund"; "stock"; "share"; "zerodha"; "groww";
                  "upstox"; "investment"; "fd"; "ppf"; "nps"]);
    (travel, ["flight"; "irctc"; "hotel"; "booking"; "makemytrip"; "goibibo";
              "vacation"; "holiday"; "trip"]) ].

Fixpoint firstCategory (desc : string) (table : list (Category * list string))
  : Category :=
  match table with
  | [] => other
  | (category, keywords) :: rest =>
      if existsb (fun keyword => includes desc keyword) keywords then category
      else firstCategory desc rest
  end.

(** Instance method [inferCategory]. *)
Definition inferCategory (e : t) : Category :=
  firstCategory (toLowerCase (description e)) indianCategories.

(** The [pre('save')] middleware (its part on [category]; tags are not
    modelled). *)
Definition preSave (e : t) : t :=
  match category e with
  | other => set_category (inferCategory e) e
  | _ => e
  end.

Inductive Path : Type := p_amount | p_description.

Definition allPaths : list Path := [p_amount; p_description].

Definition validatePath (e : t) (p : Path) : option string :=
  match p with
  | p_amount =>
      if Qlt_bool (amount e) (1 # 100)
      then Some "Amount must be greater than 0" else None
  | p_description =>
      match description e with
      | EmptyString => Some "Description is required"
      | _ => if (200 <? String.length (description e))%nat
             then Some "Description cannot exceed 200 characters"
             else None
      end
  end.

Fixpoint validate (e : t) (paths : list Path) : option string :=
  match paths with
  | [] => None
  | p :: rest =>
      match validatePath e p with
      | Some msg => Some msg
      | None => validate e rest
      end
  end.

Fixpoint store (e : t) (coll : list t) : list t :=
  match coll with
  | [] => [e]
  | e0 :: rest =>
      if Nat.eqb (_id e0) (_id e) then e :: rest else e0 :: store e rest
  end.

(** [this.save()]: validation of the paths [validated], then the
    [pre('save')] middleware, then the write.  Both paths are required, and
    Mongoose validates the required paths on every save. *)
Definition save (validated : list Path) (e : t) : M t :=
  match validate e validated with
  | Some msg => throw (ValidationError msg)
  | None =>
      let e' := preSave e in
      roundTrip Expenses ;;
      modify (fun db => set_expenses (store e' (expenses db)) db) ;;
      ret e'
  end.

(** [Expense.create(fields)]; [status] takes its default, ['completed']. *)
Definition create (userId : nat) (amt : Q) (descr : string) (cat : Category)
  (when : Z) : M t :=
  id <- freshId ;;
  save allPaths
    {| _id := id; user := userId; amount := amt; description := trim descr;
       category := cat; date := when; status := completed |}.

(** [Expense.findOne(query)]. *)
Definition findOne (query : t -> bool) : M (option t) :=
  roundTrip Expenses ;;
  db <- get ;;
  ret (find query (expenses db)).

(** [expense.deleteOne()]. *)
Definition deleteOne (e : t) : M unit :=
  roundTrip Expenses ;;
  modify (fun db =>
    set_expenses (filter (fun e0 => negb (Nat.eqb (_id e0) (_id e))) (expenses db)) db).

End Expense.

(** ** controllers/budgetController.js

    Modelled: [createBudget], [updateBudget], [deleteBudget],
    [recalculateBudget] and the helpers [getEndDateForPeriod] and
    [recalculateBudgetSpending]. *)

Module budgetController.
Import BudgetSchema.

Inductive Period : Type := weekly | monthly | yearly.

Record AlertsBody : Type := mkAlertsBody {
  a_enabled : option bool;
  a_thresholds : option (list Threshold);
  a_defaultThresholds : option (list Q)
}.

Record CreateBudgetBody : Type := mkCreateBudgetBody {
  cb_name : string;                       (* absent: the empty string *)
  cb_category : option Category;
  cb_amount : option Q;
  cb_period : option Period;
  cb_startDate : option Z;
  cb_endDate : option Z;
  cb_alerts : option AlertsBody
}.

Record UpdateBudgetBody : Type := mkUpdateBudgetBody {
  ub_name : option string;
  ub_amount : option Q;
  ub_alerts : option AlertsBody;
  ub_autoRenew : option bool
}.

Definition orElse {A : Type} (x : option A) (default : A) : A :=
  match x with
  | Some a => a
  | None => default
  end.

Definition isNone {A : Type} (x : option A) : bool :=
  match x with
  | None => true
  | Some _ => false
  end.

(** The [$match] stage of the aggregation of [recalculateBudgetSpending]. *)
Definition matchesBudget (budget : t) (e : ExpenseSchema.t) : bool :=
  Nat.eqb (ExpenseSchema.user e) (user budget)
  && match category budget with
     | total => true                      (* { $exists: true } *)
     | Cat c => ExpenseSchema.Category_eqb (ExpenseSchema.category e) c
     end
  && (startDate budget <=? ExpenseSchema.date e)%Z
  && (ExpenseSchema.date e <=? endDate budget)%Z
  && ExpenseSchema.Status_eqb (ExpenseSchema.status e) ExpenseSchema.completed.

(** [Expense.aggregate([{ $match }, { $group: { _id: null, total: { $sum:
    '$amount' } } }])]: the totals, none when nothing matches. *)
Definition aggregateTotal (budget : t) : M (list Q) :=
  roundTrip Expenses ;;
  db <- get ;;
  match filter (matchesBudget budget) (expenses db) with
  | [] => ret []
  | matched => ret [Qsum (map ExpenseSchema.amount matched)]
  end.

(** The reset of one threshold in [recalculateBudgetSpending]. *)
Definition resetThreshold (budget : t) (th : Threshold) : Threshold :=
  let currentPercentage :=
    JSNum.mulPos (JSNum.div (spent budget) (amount budget)) 100 in
  if JSNum.ltb currentPercentage (percentage th)
  then {| percentage := percentage th; triggered := false; triggeredAt := None |}
  else th.

(** The reset of [recalculateBudgetSpending] changes this threshold. *)
Definition resets (budget : t) (th : Threshold) : bool :=
  JSNum.ltb (JSNum.mulPos (JSNum.div (spent budget) (amount budget)) 100)
    (percentage th)
  && (triggered th || negb (isNone (triggeredAt th))).

(** Helper function to recalculate budget spending, on a budget of the
    given origin. *)
Definition recalculateBudgetSpending (origin : Budget.Origin) (budget : t) : M t :=
  totalSpent <- aggregateTotal budget ;;
  (* totalSpent[0]?.total || 0 *)
  let budget := set_spent (match totalSpent with
                           | sum :: _ => if Qeq_bool sum 0 then 0 else sum
                           | [] => 0
                           end) budget in
  (* Reset alert triggers if spending decreased *)
  let modified :=
    Budget.p_spent
    :: (if Qlt_bool (spent budget) (amount budget)
           && existsb (resets budget) (thresholds budget)
        then [Budget.p_thresholds] else []) in
  let budget :=
    if Qlt_bool (spent budget) (amount budget)
    then set_thresholds (map (resetThreshold budget) (thresholds budget)) budget
    else budget in
  Budget.save (Budget.pathsToValidate origin modified) budget.

Section WithCalendar.
Context {calendar : Calendar}.

(** Helper function to get end date based on period. *)
Definition getEndDateForPeriod (period : Period) (now : Z) : Z :=
  match period with
  | weekly => (now + 7 * 24 * 60 * 60 * 1000)%Z
  | yearly => sameDayNextYear now
  | monthly => endOfMonth now
  end.

Definition createBudget (userId : nat) (body : CreateBudgetBody)
  : M (Response t) :=
  match cb_category body, cb_amount body with
  | Some cat, Some amt =>
      if isBlank (cb_name body) || Qeq_bool amt 0 then
        throw (ApiError 400 "Name, category, and amount are required")
      else
        now <- new_Date ;;
        (* Check for existing active budget in the same category and period *)
        existingBudget <-
          Budget.findOne
            (fun b => Nat.eqb (user b) userId
                      && Category_eqb (category b) cat
                      && isActive b
                      && (startDate b <=? orElse (cb_endDate body) now)%Z
                      && (orElse (cb_startDate body) now <=? endDate b)%Z) ;;
        match existingBudget with
        | Some _ =>
            throw (ApiError 409 "Active budget already exists for this category in this period")
        | None =>
            id <- freshId ;;
            let alerts := orElse (cb_alerts body)
                            {| a_enabled := None; a_thresholds := None;
                               a_defaultThresholds := None |} in
            budget <-
              Budget.create
                {| _id := id; user := userId; name := trim (cb_name body);
                   category := cat; amount := amt;
                   startDate := orElse (cb_startDate body) now;
                   endDate := orElse (cb_endDate body)
                                (getEndDateForPeriod (orElse (cb_period body) monthly) now);
                   spent := 0;
                   alertsEnabled := Some (orElse (a_enabled alerts) true);
                   thresholds := orElse (a_thresholds alerts) [];
                   defaultThresholds :=
                     orElse (a_defaultThresholds alerts) [50; 75; 90; 100];
                   isActive := true; autoRenew := true |} ;;
            (* Calculate current spending for this budget *)
            budget <- recalculateBudgetSpending Budget.created budget ;;
            ret (respond 201 budget)
        end
  | _, _ => throw (ApiError 400 "Name, category, and amount are required")
  end.

End WithCalendar.

(** [allowedUpdates.forEach(field => ...)] on the modelled fields.  An
    [alerts] object of the body replaces the whole of [alerts]: the keys it
    lacks are not stored.  A document that is loaded later reads the schema
    defaults for them ([thresholds]: none; [defaultThresholds]: 50, 75, 90,
    100), while a query on the stored [alerts.enabled] does not find it. *)
Definition applyUpdates (body : UpdateBudgetBody) (b : t) : t :=
  let b := match ub_name body with Some x => set_name (trim x) b | None => b end in
  let b := match ub_amount body with Some x => set_amount x b | None => b end in
  let b := match ub_alerts body with
           | Some a =>
               set_alerts (a_enabled a)
                          (orElse (a_thresholds a) [])
                          (orElse (a_defaultThresholds a) [50; 75; 90; 100]) b
           | None => b
           end in
  match ub_autoRenew body with Some x => set_autoRenew x b | None => b end.

(** The [pre('save')] middleware of the budget reads
    [this.alerts.defaultThresholds.map] when the thresholds are missing or
    empty: on an [alerts] object that the body gave without
    [defaultThresholds], it throws a [TypeError]. *)
Definition hookThrows (body : UpdateBudgetBody) : bool :=
  match ub_alerts body with
  | Some a =>
      match a_thresholds a, a_defaultThresholds a with
      | None, None | Some [], None => true
      | _, _ => false
      end
  | None => false
  end.

Definition updateBudget (userId id : nat) (body : UpdateBudgetBody)
  : M (Response t) :=
  found <- Budget.findOne (fun b => Nat.eqb (_id b) id && Nat.eqb (user b) userId) ;;
  match found with
  | None => throw (ApiError 404 "Budget not found")
  | Some budget =>
      let budget := applyUpdates body budget in
      if hookThrows body then
        (* budget.save(): the validation, then the middleware, which throws *)
        match Budget.validate budget Budget.allPaths with
        | Some msg => throw (ValidationError msg)
        | None =>
            throw (PlainError "Cannot read properties of undefined (reading 'map')")
        end
      else
        budget <- Budget.save Budget.allPaths budget ;;
        ret (respond 200 budget)
  end.

Definition deleteBudget (userId id : nat) : M (Response unit) :=
  found <- Budget.findOne (fun b => Nat.eqb (_id b) id && Nat.eqb (user b) userId) ;;
  match found with
  | None => throw (ApiError 404 "Budget not found")
  | Some budget =>
      Budget.deleteOne budget ;;
      ret (respond 200 tt)
  end.

Definition recalculateBudget (userId id : nat) : M (Response t) :=
  found <- Budget.findOne (fun b => Nat.eqb (_id b) id && Nat.eqb (user b) userId) ;;
  match found with
  | None => throw (ApiError 404 "Budget not found")
  | Some budget =>
      budget <- recalculateBudgetSpending Budget.loaded budget ;;
      ret (respond 200 budget)
  end.

End budgetController.

(** ** controllers/expenseController.js

    Modelled: [createExpense], [updateExpense], [deleteExpense] and the
    helper [updateBudgetSpending]. *)

Module expenseController.
Import ExpenseSchema.

Record CreateExpenseBody : Type := mkCreateExpenseBody {
  ce_amount : option Q;
  ce_description : string;                (* absent: the empty string *)
  ce_category : option Category;
  ce_date : option Z;
  ce_isRecurring : bool                   (* recurring?.isRecurring *)
}.

(** The keys of the body of an update that the model follows: those of the
    fields of the schema that the model has, [_id] left out. *)
Record UpdateExpenseBody : Type := mkUpdateExpenseBody {
  ue_user : option nat;
  ue_amount : option Q;
  ue_description : option string;
  ue_category : option Category;
  ue_date : option Z;
  ue_status : option Status
}.

(** The query of [updateBudgetSpending]: the active budget of the user in
    the category whose window holds the present instant. *)
Definition currentBudget (userId : nat) (cat : BudgetSchema.Category) (now : Z)
  (b : BudgetSchema.t) : bool :=
  Nat.eqb (BudgetSchema.user b) userId
  && BudgetSchema.Category_eqb (BudgetSchema.category b) cat
  && BudgetSchema.isActive b
  && (BudgetSchema.startDate b <=? now)%Z
  && (now <=? BudgetSchema.endDate b)%Z.

(** Helper function to update budget spending. *)
Definition updateBudgetSpending (userId : nat) (cat : Category) (amt : Q)
  : M unit :=
  tryCatch
    ((* Update category-specific budget *)
     now <- new_Date ;;
     categoryBudget <- Budget.findOne (currentBudget userId (BudgetSchema.Cat cat) now) ;;
     match categoryBudget with
     | Some b => _ <- Budget.updateSpent b amt 0 ;; ret tt
     | None => ret tt
     end ;;
     (* Update total budget *)
     totalBudget <- Budget.findOne (currentBudget userId BudgetSchema.total now) ;;
     match totalBudget with
     | Some b => _ <- Budget.updateSpent b amt 0 ;; ret tt
     | None => ret tt
     end)
    (fun error => ret tt).                (* console.error(...) *)

Definition createExpense (userId : nat) (body : CreateExpenseBody)
  : M (Response t) :=
  match ce_amount body, ce_category body with
  | Some amt, Some cat =>
      if Qeq_bool amt 0 || isBlank (ce_description body) then
        throw (ApiError 400 "Amount, description, and category are required")
      else
        (* Check user's monthly limits for free tier *)
        user <- User.findById userId ;;
        now <- new_Date ;;
        match user with
        | None => throw (PlainError "Cannot read properties of null (reading 'canAddExpense')")
        | Some u =>
            if negb (User.canAddExpense now u) then
              throw (ApiError 403 "Monthly expense limit reached. Upgrade to premium for unlimited expenses.")
            else
              expense <- Expense.create userId amt (trim (ce_description body)) cat
                           (budgetController.orElse (ce_date body) now) ;;
              (* Update user's expense count *)
              User.findByIdAndUpdate_incTotalExpenses userId 1 ;;
              (* Update relevant budgets *)
              updateBudgetSpending userId (category expense) (amount expense) ;;
              (* Check for recurring pattern detection *)
              (if negb (ce_isRecurring body)
               then roundTrip Expenses      (* Expense.detectRecurring(...) *)
               else ret tt) ;;
              expense <- Expense.save Expense.allPaths expense ;;
              roundTrip Users ;;            (* expense.populate('user', ...) *)
              ret (respond 201 expense)
        end
  | _, _ => throw (ApiError 400 "Amount, description, and category are required")
  end.

(** [Object.keys(req.body).forEach(key => ...)] on the modelled keys. *)
Definition applyUpdates (body : UpdateExpenseBody) (e : t) : t :=
  let e := match ue_user body with Some x => set_user x e | None => e end in
  let e := match ue_amount body with Some x => set_amount x e | None => e end in
  let e := match ue_description body with Some x => set_description (trim x) e | None => e end in
  let e := match ue_category body with Some x => set_category x e | None => e end in
  let e := match ue_date body with Some x => set_date x e | None => e end in
  match ue_status body with Some x => set_status x e | None => e end.

Definition updateExpense (userId id : nat) (body : UpdateExpenseBody)
  : M (Response t) :=
  found <- Expense.findOne (fun e => Nat.eqb (_id e) id && Nat.eqb (user e) userId) ;;
  match found with
  | None => throw (ApiError 404 "Expense not found")
  | Some expense0 =>
      let oldAmount := amount expense0 in
      let oldCategory := category expense0 in
      (* Update fields *)
      expense <- Expense.save Expense.allPaths (applyUpdates body expense0) ;;
      (* Update budget if amount or category changed *)
      (if negb (Qeq_bool oldAmount (amount expense))
          || negb (Category_eqb oldCategory (category expense))
       then
         (* Reverse old budget impact *)
         updateBudgetSpending userId oldCategory (- oldAmount) ;;
         (* Apply new budget impact *)
         updateBudgetSpending userId (category expense) (amount expense)
       else ret tt) ;;
      ret (respond 200 expense)
  end.

Definition deleteExpense (userId id : nat) : M (Response unit) :=
  found <- Expense.findOne (fun e => Nat.eqb (_id e) id && Nat.eqb (user e) userId) ;;
  match found with
  | None => throw (ApiError 404 "Expense not found")
  | Some expense =>
      (* Update budget (reverse the spending) *)
      updateBudgetSpending userId (category expense) (- amount expense) ;;
      (* Update user's expense count *)
      User.findByIdAndUpdate_incTotalExpenses userId (-1) ;;
      Expense.deleteOne expense ;;
      ret (respond 200 tt)
  end.

End expenseController.

(** ** routes/goals.js

    The routes that write.  A request arrives at some time and meets some
    schedule of faults; the server answers it and is left in a new state. *)

Module goalRoutes.

Inductive Request : Type :=
| POST_goals (userId : nat) (body : goalController.CreateGoalBody)
| PUT_goals_id (userId id : nat) (body : goalController.UpdateGoalBody)
| DELETE_goals_id (userId id : nat)
| POST_goals_id_contribute (userId id : nat) (body : goalController.ContributeBody)
| POST_goals_process_auto_save.

Record Arrival : Type := mkArrival {
  arrivesAt : Z;
  meets : Coll -> list bool;
  request : Request
}.

Section WithCalendar.
Context {calendar : Calendar}.

(** The handler of a request, its response dropped. *)
Definition handle (r : Request) : M unit :=
  match r with
  | POST_goals userId body =>
      _ <- goalController.createGoal userId body ;; ret tt
  | PUT_goals_id userId id body =>
      _ <- goalController.updateGoal userId id body ;; ret tt
  | DELETE_goals_id userId id =>
      _ <- goalController.deleteGoal userId id ;; ret tt
  | POST_goals_id_contribute userId id body =>
      _ <- goalController.contributeToGoal userId id body ;; ret tt
  | POST_goals_process_auto_save =>
      _ <- goalController.processAutoSave ;; ret tt
  end.

(** The state in which the server is left by one request. *)
Definition serve (db : DB) (a : Arrival) : DB :=
  snd (handle (request a) (set_faults (meets a) (set_clock (arrivesAt a) db))).

(** The state in which the server is left by a sequence of requests. *)
Definition serveAll (arrivals : list Arrival) (db : DB) : DB :=
  fold_left serve arrivals db.

End WithCalendar.

End goalRoutes.

(** ** routes/expenses.js

    The routes that write, and the server on a sequence of their requests. *)

Module expenseRoutes.

Inductive Request : Type :=
| POST_expenses (userId : nat) (body : expenseController.CreateExpenseBody)
| PUT_expenses_id (userId id : nat) (body : expenseController.UpdateExpenseBody)
| DELETE_expenses_id (userId id : nat).

Record Arrival : Type := mkArrival {
  arrivesAt : Z;
  meets : Coll -> list bool;
  request : Request
}.

(** The handler of a request, its response dropped. *)
Definition handle (r : Request) : M unit :=
  match r with
  | POST_expenses userId body =>
      _ <- expenseController.createExpense userId body ;; ret tt
  | PUT_expenses_id userId id body =>
      _ <- expenseController.updateExpense userId id body ;; ret tt
  | DELETE_expenses_id userId id =>
      _ <- expenseController.deleteExpense userId id ;; ret tt
  end.

Definition serve (db : DB) (a : Arrival) : DB :=
  snd (handle (request a) (set_faults (meets a) (set_clock (arrivesAt a) db))).

Definition serveAll (arrivals : list Arrival) (db : DB) : DB :=
  fold_left serve arrivals db.

End expenseRoutes.

(** ** Specifications of computations *)

(** [triple P c Q]: run from a database that satisfies [P], the computation
    [c] ends (by returning or by throwing) with an outcome and a database that
    satisfy [Q]. *)
Definition triple {A : Type} (P : DB -> Prop) (c : M A)
  (Q : Result A -> DB -> Prop) : Prop :=
  forall db, P db -> Q (fst (c db)) (snd (c db)).

(** ** The vocabulary of the specification

    Definitions that follow the words of the specification, to compare the
    code with, and the concrete inputs of the examples. *)

Module Spec.

(** The frequency multiplier of the specification: one-time 0, weekly 52,
    bi-weekly 26, monthly 12, quarterly 4, yearly 1. *)
Definition frequencyMultiplier (f : Income.Frequency) : Q :=
  match f with
  | Income.OneTime => 0
  | Income.Weekly => 52
  | Income.BiWeekly => 26
  | Income.Monthly => 12
  | Income.Quarterly => 4
  | Income.Yearly => 1
  end.

(** A source counts toward the roll-ups at [now]: it is active and its end
    date is null or not before [now]. *)
Definition countsTowardRollups (now : Z) (i : Income.t) : bool :=
  Income.isActive i
  && match Income.endDate i with
     | None => true
     | Some e => (now <=? e)%Z
     end.

(** The sources of a user that count toward the roll-ups. *)
Definition rollupSources (coll : list Income.t) (now : Z) (userId : nat)
  : list Income.t :=
  filter (fun i => Nat.eqb (Income.user i) userId && countsTowardRollups now i) coll.

(** The stored version of the goal with the given [_id]. *)
Definition storedGoal (id : nat) (db : DB) : option GoalSchema.t :=
  find (fun g => Nat.eqb (GoalSchema._id g) id) (goals db).

(** The clamp invariant of a goal: [0 <= currentAmount <= targetAmount], and
    the amounts recorded in the contribution log sum to [currentAmount]. *)
Definition clampInvariant (g : GoalSchema.t) : Prop :=
  0 <= GoalSchema.currentAmount g
  /\ GoalSchema.currentAmount g <= GoalSchema.targetAmount g
  /\ Qsum (map GoalSchema.amount (GoalSchema.contributions g))
     == GoalSchema.currentAmount g.

(** The goal passes the validation of its schema at the instant [now]: a
    name of 1 to 100 characters, a target of at least 0.01, amounts that are
    not negative, and a deadline after [now]. *)
Definition validGoal (now : Z) (g : GoalSchema.t) : Prop :=
  GoalSchema.name g <> EmptyString
  /\ (String.length (GoalSchema.name g) <= 100)%nat
  /\ 1 # 100 <= GoalSchema.targetAmount g
  /\ 0 <= GoalSchema.currentAmount g
  /\ (now < GoalSchema.deadline g)%Z
  /\ 0 <= GoalSchema.as_amount (GoalSchema.autoSave g)
  /\ Forall (fun c => 0 <= GoalSchema.amount c) (GoalSchema.contributions g).

(** The budget passes the validation of its schema: a name of 1 to 100
    characters, an amount and a [spent] that are not negative, and
    thresholds from 1 to 100 percent. *)
Definition validBudget (b : BudgetSchema.t) : Prop :=
  BudgetSchema.name b <> EmptyString
  /\ (String.length (BudgetSchema.name b) <= 100)%nat
  /\ 0 <= BudgetSchema.amount b
  /\ 0 <= BudgetSchema.spent b
  /\ Forall (fun th => 1 <= BudgetSchema.percentage th
                       /\ BudgetSchema.percentage th <= 100)
       (BudgetSchema.thresholds b).

(** The budget passes the validation of its schema, also with the
    thresholds that the [pre('save')] middleware writes when it has none: it
    can be saved, and saved again. *)
Definition savableBudget (b : BudgetSchema.t) : Prop :=
  validBudget (Budget.preSave b).


(** [ObjectId]s are unique: no two stored goals share an [_id], and the
    generator is ahead of all of them. *)
Definition uniqueGoalIds (db : DB) : Prop :=
  NoDup (map GoalSchema._id (goals db))
  /\ forall g, In g (goals db) -> (GoalSchema._id g < nextId db)%nat.

(** A later version [g'] of the goal [g] keeps its completion: if [g] is
    completed, so is [g'], with the same [completedAt]; and [completedAt] has
    not changed as long as [g'] is not completed. *)
Definition completionKept (g g' : GoalSchema.t) : Prop :=
  GoalSchema._id g' = GoalSchema._id g
  /\ (GoalSchema.isCompleted g = true ->
      GoalSchema.isCompleted g' = true
      /\ GoalSchema.completedAt g' = GoalSchema.completedAt g)
  /\ (GoalSchema.isCompleted g' = false ->
      GoalSchema.completedAt g' = GoalSchema.completedAt g).

(** Every goal stored in [db] is still stored in [db'], its completion
    kept. *)
Definition completionsKept (db db' : DB) : Prop :=
  forall id g,
    storedGoal id db = Some g ->
    exists g', storedGoal id db' = Some g' /\ completionKept g g'.

(** The document [g] held by a handler descends from the stored goal of the
    same [_id]. *)
Definition tracked (db : DB) (g : GoalSchema.t) : Prop :=
  exists g0, storedGoal (GoalSchema._id g) db = Some g0 /\ completionKept g0 g.

(** The invariant of the goal handlers, relative to an earlier state [db0]:
    the completions of [db0] are kept, ids are unique, and the documents
    [held] by the running handler are distinct and tracked. *)
Definition goalInvariant (db0 : DB) (held : list GoalSchema.t) (db : DB) : Prop :=
  completionsKept db0 db
  /\ uniqueGoalIds db
  /\ Forall (tracked db) held
  /\ NoDup (map GoalSchema._id held).

(** The stored version of the budget with the given [_id]. *)
Definition storedBudget (id : nat) (db : DB) : option BudgetSchema.t :=
  find (fun b => Nat.eqb (BudgetSchema._id b) id) (budgets db).

(** An expense counts toward a budget: it belongs to the owner of the
    budget, it is completed, its date lies in the window [[startDate,
    endDate]], and its category is that of the budget, or the budget is the
    ['total'] budget. *)
Definition countsToward (budget : BudgetSchema.t) (e : ExpenseSchema.t) : bool :=
  Nat.eqb (ExpenseSchema.user e) (BudgetSchema.user budget)
  && ExpenseSchema.Status_eqb (ExpenseSchema.status e) ExpenseSchema.completed
  && ((BudgetSchema.startDate budget <=? ExpenseSchema.date e)%Z
      && (ExpenseSchema.date e <=? BudgetSchema.endDate budget)%Z)
  && match BudgetSchema.category budget with
     | BudgetSchema.total => true
     | BudgetSchema.Cat c => ExpenseSchema.Category_eqb (ExpenseSchema.category e) c
     end.

(** What the ledger says a budget has spent. *)
Definition ledgerSpent (budget : BudgetSchema.t) (db : DB) : Q :=
  Qsum (map ExpenseSchema.amount (filter (countsToward budget) (expenses db))).

(** The percentage of a threshold strictly exceeds the [percentageUsed] of a
    budget (in the sense of JavaScript's [<]). *)
Definition exceeds (th : BudgetSchema.Threshold) (b : BudgetSchema.t) : Prop :=
  JSNum.ltb (Budget.percentageUsed b) (BudgetSchema.percentage th) = true.

(** Two databases hold the same ledger: they agree on everything but the
    budgets and the faults that the budget collection will meet. *)
Definition sameLedger (db1 db2 : DB) : Prop :=
  users db1 = users db2
  /\ expenses db1 = expenses db2
  /\ goals db1 = goals db2
  /\ nextId db1 = nextId db2
  /\ clock db1 = clock db2
  /\ forall c, c <> Budgets -> faults db1 c = faults db2 c.

(** The outcome of a computation and the ledger it leaves depend on the
    ledger only: not on the budgets, and not on the faults of their
    collection. *)
Definition ledgerOnly {A : Type} (c : M A) : Prop :=
  forall db1 db2,
    sameLedger db1 db2 ->
    fst (c db1) = fst (c db2) /\ sameLedger (snd (c db1)) (snd (c db2)).

(** The database in which the budget collection meets the faults [f]. *)
Definition withBudgetFaults (f : list bool) (db : DB) : DB :=
  set_faults (fun c => if Coll_eqb c Budgets then f else faults db c) db.

(** No round trip to the database fails. *)
Definition quiet (db : DB) : Prop := forall c, faults db c = [].

(** [b] is a later version of the budget [b0]: same [_id], owner, category
    and window, and active. *)
Definition sameBudget (b0 b : BudgetSchema.t) : Prop :=
  BudgetSchema._id b = BudgetSchema._id b0
  /\ BudgetSchema.user b = BudgetSchema.user b0
  /\ BudgetSchema.category b = BudgetSchema.category b0
  /\ BudgetSchema.startDate b = BudgetSchema.startDate b0
  /\ BudgetSchema.endDate b = BudgetSchema.endDate b0
  /\ BudgetSchema.isActive b = true.

(** The instant [t] lies in the window of the budget. *)
Definition inWindow (b0 : BudgetSchema.t) (t : Z) : Prop :=
  (BudgetSchema.startDate b0 <= t <= BudgetSchema.endDate b0)%Z.

(** The ledger lies within the window of the budget: every expense is
    completed, dated in the window and of a non-negative amount, and ids are
    unique. *)
Definition ledgerInScope (b0 : BudgetSchema.t) (db : DB) : Prop :=
  NoDup (map ExpenseSchema._id (expenses db))
  /\ forall e, In e (expenses db) ->
       (ExpenseSchema._id e < nextId db)%nat
       /\ 0 <= ExpenseSchema.amount e
       /\ inWindow b0 (ExpenseSchema.date e)
       /\ ExpenseSchema.status e = ExpenseSchema.completed.

(** The budget [b0] is the only budget, it can be saved, the present
    instant lies in its window, the ledger lies within it, and its stored
    [spent] lags the ledger by [delta]. *)
Definition pending (b0 : BudgetSchema.t) (delta : Q) (db : DB) : Prop :=
  quiet db
  /\ inWindow b0 (clock db)
  /\ ledgerInScope b0 db
  /\ exists b,
       budgets db = [b] /\ sameBudget b0 b /\ savableBudget b
       /\ BudgetSchema.spent b + delta == ledgerSpent b0 db.






Section WithCalendar.
Context {calendar : Calendar}.

(** [batchProcessed due db results db']: from [db], the goals [due] are
    taken one after the other; the contribution to a goal either succeeds and
    gives a [success] entry, or throws and gives a [failed] entry with the
    message of the error, and in both cases the remaining goals are taken
    next; [results] holds one entry for each goal, in order. *)
Inductive batchProcessed
  : list GoalSchema.t -> DB -> list goalController.AutoSaveResult -> DB -> Prop :=
| batch_done (db : DB) : batchProcessed [] db [] db
| batch_success (goal : GoalSchema.t) (rest : list GoalSchema.t) (db db1 db2 : DB)
    (r : goalController.AutoSaveResult)
    (results : list goalController.AutoSaveResult) :
    goalController.contributeAutoSave goal db = (Ok r, db1) ->
    batchProcessed rest db1 results db2 ->
    batchProcessed (goal :: rest) db
      ({| goalController.goalId := GoalSchema._id goal;
          goalController.goalName := GoalSchema.name goal;
          goalController.r_amount := GoalSchema.as_amount (GoalSchema.autoSave goal);
          goalController.r_status := goalController.success;
          goalController.r_error := None |} :: results) db2
| batch_failed (goal : GoalSchema.t) (rest : list GoalSchema.t) (db db1 db2 : DB)
    (e : Error) (results : list goalController.AutoSaveResult) :
    goalController.contributeAutoSave goal db = (Throw e, db1) ->
    batchProcessed rest db1 results db2 ->
    batchProcessed (goal :: rest) db
      ({| goalController.goalId := GoalSchema._id goal;
          goalController.goalName := GoalSchema.name goal;
          goalController.r_amount := GoalSchema.as_amount (GoalSchema.autoSave goal);
          goalController.r_status := goalController.failed;
          goalController.r_error := Some (message e) |} :: results) db2.

End WithCalendar.

End Spec.

Module Examples.

(** A calendar of 30-day months and 365-day years, for the examples. *)
Definition thirtyDayMonths : Calendar :=
  {| plusDays := fun t n => (t + n * 86400000)%Z;
     plusMonths := fun t n => (t + n * 30 * 86400000)%Z;
     endOfMonth := fun t => (t + 30 * 86400000)%Z;
     sameDayNextYear := fun t => (t + 365 * 86400000)%Z |}.

Definition salary (active : bool) : Income.t :=
  {| Income._id := 1; Income.user := 1; Income.source := "Acme";
     Income.type := Income.Salary; Income.amount := 5000;
     Income.frequency := Income.Monthly; Income.startDate := 0;
     Income.endDate := None; Income.isActive := active;
     Income.isRecurring := true |}.

Definition tutoring : Income.t :=
  {| Income._id := 2; Income.user := 1; Income.source := "Tutoring";
     Income.type := Income.Freelance; Income.amount := 1000;
     Income.frequency := Income.Weekly; Income.startDate := 0;
     Income.endDate := Some 9000%Z; Income.isActive := true;
     Income.isRecurring := true |}.

Definition alice : UserSchema.t :=
  {| UserSchema._id := 1; UserSchema.premiumSubscription := false;
     UserSchema.subscriptionExpiry := None;
     UserSchema.totalExpenses := 0; UserSchema.monthlyLimit := 50 |}.

(** A database with one user and nothing else, at time 1000. *)
Definition db0 : DB :=
  {| users := [alice]; expenses := []; budgets := []; goals := [];
     nextId := 100%nat; clock := 1000; faults := fun _ => [] |}.

(** A goal of user 1 with target 1000 and the given amount already saved
    through one contribution. *)
Definition savings (id : nat) (saved : Q) (auto : GoalSchema.AutoSave)
  : GoalSchema.t :=
  {| GoalSchema._id := id; GoalSchema.user := 1; GoalSchema.name := "Laptop";
     GoalSchema.targetAmount := 1000; GoalSchema.currentAmount := saved;
     GoalSchema.category := GoalSchema.gadget; GoalSchema.deadline := 900000;
     GoalSchema.isCompleted := false; GoalSchema.completedAt := None;
     GoalSchema.autoSave := auto;
     GoalSchema.contributions :=
       [ {| GoalSchema.amount := saved; GoalSchema.date := 500;
            GoalSchema.description := "Manual contribution";
            GoalSchema.source := GoalSchema.manual |} ];
     GoalSchema.isActive := true |}.

Definition noAutoSave : GoalSchema.AutoSave :=
  {| GoalSchema.enabled := false; GoalSchema.as_amount := 0;
     GoalSchema.frequency := GoalSchema.monthly;
     GoalSchema.nextContribution := None |}.

(** Auto-save of the given amount, due since time 800. *)
Definition dueAutoSave (amt : Q) : GoalSchema.AutoSave :=
  {| GoalSchema.enabled := true; GoalSchema.as_amount := amt;
     GoalSchema.frequency := GoalSchema.weekly;
     GoalSchema.nextContribution := Some 800%Z |}.

(** [POST /api/goals] with target 1000 and an initial amount. *)
Definition newGoalBody (initial : Q) : goalController.CreateGoalBody :=
  {| goalController.cg_name := "Laptop";
     goalController.cg_targetAmount := Some 1000;
     goalController.cg_currentAmount := Some initial;
     goalController.cg_category := Some GoalSchema.gadget;
     goalController.cg_deadline := Some 900000%Z;
     goalController.cg_autoSave := None |}.

Definition threshold (percentage : Q) (triggered : bool) : BudgetSchema.Threshold :=
  {| BudgetSchema.percentage := percentage;
     BudgetSchema.triggered := triggered;
     BudgetSchema.triggeredAt := if triggered then Some 700%Z else None |}.

(** The food budget of user 1: limit 1000, window [[0, 100000]], thresholds
    50, 90 and 100, with the given amount spent and the given triggers. *)
Definition foodBudget (spent : Q) (t50 t90 t100 : bool) : BudgetSchema.t :=
  {| BudgetSchema._id := 20; BudgetSchema.user := 1;
     BudgetSchema.name := "Food";
     BudgetSchema.category := BudgetSchema.Cat ExpenseSchema.food;
     BudgetSchema.amount := 1000;
     BudgetSchema.startDate := 0; BudgetSchema.endDate := 100000;
     BudgetSchema.spent := spent; BudgetSchema.alertsEnabled := Some true;
     BudgetSchema.thresholds :=
       [threshold 50 t50; threshold 90 t90; threshold 100 t100];
     BudgetSchema.defaultThresholds := [50; 75; 90; 100];
     BudgetSchema.isActive := true; BudgetSchema.autoRenew := true |}.

(** A completed food expense of user 1 at time 900. *)
Definition lunch (id : nat) (amt : Q) : ExpenseSchema.t :=
  {| ExpenseSchema._id := id; ExpenseSchema.user := 1;
     ExpenseSchema.amount := amt; ExpenseSchema.description := "lunch";
     ExpenseSchema.category := ExpenseSchema.food; ExpenseSchema.date := 900;
     ExpenseSchema.status := ExpenseSchema.completed |}.

(** The state of the scenario of the specification after the expense of 600
    was deleted: 350 left in the ledger and in [spent], thresholds 50 and 90
    still triggered. *)
Definition dbBudget : DB :=
  set_budgets [foodBudget 350 true true false]
    (set_expenses [lunch 31 350] db0).

(** [POST /api/budgets]: a food budget of 1000 over the window [[0, 100000]]. *)
Definition foodBudgetBody : budgetController.CreateBudgetBody :=
  {| budgetController.cb_name := "Food";
     budgetController.cb_category := Some (BudgetSchema.Cat ExpenseSchema.food);
     budgetController.cb_amount := Some 1000;
     budgetController.cb_period := None;
     budgetController.cb_startDate := Some 0%Z;
     budgetController.cb_endDate := Some 100000%Z;
     budgetController.cb_alerts := None |}.

(** [POST /api/expenses]: a food expense dated now. *)
Definition lunchBody (amt : Q) : expenseController.CreateExpenseBody :=
  {| expenseController.ce_amount := Some amt;
     expenseController.ce_description := "lunch";
     expenseController.ce_category := Some ExpenseSchema.food;
     expenseController.ce_date := None;
     expenseController.ce_isRecurring := false |}.

(** [PUT /api/expenses/:id] with the body [{ status: 'cancelled' }]. *)
Definition cancelBody : expenseController.UpdateExpenseBody :=
  {| expenseController.ue_user := None;
     expenseController.ue_amount := None;
     expenseController.ue_description := None;
     expenseController.ue_category := None;
     expenseController.ue_date := None;
     expenseController.ue_status := Some ExpenseSchema.cancelled |}.


(** A goal completed at time 600. *)
Definition completedGoal : GoalSchema.t :=
  GoalSchema.set_completed 600 (savings 7 1000 noAutoSave).

(** A database with the completed goal 7, and two goals whose auto-save is
    due: goal 8 with an auto-save amount of 0, goal 9 with 50. *)
Definition dbGoals : DB :=
  set_goals [completedGoal;
             savings 8 100 (dueAutoSave 0);
             savings 9 100 (dueAutoSave 50)] db0.

(** A sequence of requests on goal 7 and a sweep. *)
Definition arrivals : list goalRoutes.Arrival :=
  [ {| goalRoutes.arrivesAt := 2000; goalRoutes.meets := fun _ => [];
       goalRoutes.request :=
         goalRoutes.POST_goals_id_contribute 1 7
           {| goalController.ct_amount := Some 100;
              goalController.ct_description := "more" |} |};
    {| goalRoutes.arrivesAt := 3000; goalRoutes.meets := fun _ => [false; true];
       goalRoutes.request :=
         goalRoutes.PUT_goals_id 1 7
           {| goalController.ug_name := None;
              goalController.ug_targetAmount := Some 5000;
              goalController.ug_category := None;
              goalController.ug_deadline := None;
              goalController.ug_autoSave := None |} |};
    {| goalRoutes.arrivesAt := 4000; goalRoutes.meets := fun _ => [];
       goalRoutes.request := goalRoutes.DELETE_goals_id 1 7 |};
    {| goalRoutes.arrivesAt := 5000; goalRoutes.meets := fun _ => [];
       goalRoutes.request := goalRoutes.POST_goals_process_auto_save |} ].

End Examples.

(** ** Dates and arrays of the reports *)

(** [Math.ceil(ms / (1000 * 60 * 60 * 24))] for a difference of two dates. *)
Definition ceilDays (ms : Z) : Z := (- ((- ms) / 86400000))%Z.

Fixpoint insertSorted {A : Type} (le : A -> A -> bool) (x : A) (l : list A)
  : list A :=
  match l with
  | [] => [x]
  | y :: rest => if le x y then x :: l else y :: insertSorted le x rest
  end.

(** A stable sort ([Array.prototype.sort], [.sort(...)] on a query): the
    elements in the order [le], elements that compare equal in the order
    in which they were. *)
Definition sorted {A : Type} (le : A -> A -> bool) (l : list A) : list A :=
  fold_right (insertSorted le) [] l.

(** ** models/Income.js, continued *)

Module IncomeVirtuals.

Inductive Status : Type := inactive | ended | future | active.

(** Virtual [status]. *)
Definition status (now : Z) (i : Income.t) : Status :=
  if negb (Income.isActive i) then inactive
  else if match Income.endDate i with
          | Some e => (e <? now)%Z
          | None => false
          end then ended
  else if (now <? Income.startDate i)%Z then future
  else active.

End IncomeVirtuals.

(** ** utils/queryHelpers.js *)

Module queryHelpers.

(** The options of a paginated query.  [skip] and [limit] are the results of
    arithmetic on [parseInt(page)] and [parseInt(limit)]: an integer, or
    [NaN] ([None]) when an argument is no numeral. *)
Record QueryOptions (K : Type) : Type := mkQueryOptions {
  skip : option Z;
  limit : option Z;
  sortKey : K;                       (* sort: { [sortBy]: direction } *)
  sortDirection : Z
}.

Definition getQueryOptions {K : Type} (page limit : option Z) (sortBy : K)
  (sortOrder : string) : QueryOptions K :=
  let skip := match page, limit with
              | Some p, Some l => Some ((p - 1) * l)%Z
              | _, _ => None
              end in
  {| skip := option_map (Z.max 0) skip;
     limit := option_map (Z.min 100) limit;   (* Max 100 items per page *)
     sortKey := sortBy;
     sortDirection := if String.eqb sortOrder "desc" then (-1)%Z else 1%Z |}.

End queryHelpers.

(** ** controllers/expenseController.js, continued: [getExpenses] *)

(** The collection of the expenses, under a name that the fields of the
    answer do not shadow. *)
Definition storedExpenses (db : DB) : list ExpenseSchema.t := expenses db.

Module expenseQueries.
Import ExpenseSchema.

(** The fields of an expense that the model can sort by. *)
Inductive SortKey : Type := by_date | by_amount.

(** [req.query]: [page] and [limit] are numerals; [category] is absent,
    ['all'] ([None]) or a category; there is no [search]. *)
Record Query : Type := mkQuery {
  q_page : Z;
  q_limit : Z;
  q_category : option Category;
  q_startDate : option Z;
  q_endDate : option Z;
  q_sortBy : SortKey;
  q_sortOrder : string
}.

Record Pagination : Type := mkPagination {
  currentPage : Z;
  totalPages : JSNum.t;
  totalExpenses : nat;
  hasNext : bool;
  hasPrev : bool
}.

Record Page : Type := mkPage {
  expenses : list t;
  pagination : Pagination
}.

(** The query that [getExpenses] builds. *)
Definition matchesQuery (userId : nat) (q : Query) (e : t) : bool :=
  Nat.eqb (user e) userId
  && Status_eqb (status e) completed
  && match q_category q with
     | Some c => Category_eqb (category e) c
     | None => true
     end
  && match q_startDate q with
     | Some d => (d <=? date e)%Z
     | None => true
     end
  && match q_endDate q with
     | Some d => (date e <=? d)%Z
     | None => true
     end.

(** [a] comes no later than [b] in the order [{ [key]: direction }]. *)
Definition precedes (key : SortKey) (direction : Z) (a b : t) : bool :=
  match key with
  | by_date =>
      if (direction <? 0)%Z then (date b <=? date a)%Z else (date a <=? date b)%Z
  | by_amount =>
      if (direction <? 0)%Z then Qle_bool (amount b) (amount a)
      else Qle_bool (amount a) (amount b)
  end.

(** [.limit(n)] on a cursor: at most [n] documents; [0] means no limit, and
    a negative number is taken by its absolute value. *)
Definition cursorLimit {A : Type} (n : Z) (l : list A) : list A :=
  if (n =? 0)%Z then l else firstn (Z.abs_nat n) l.

(** [.skip(n)] on a cursor, for [n >= 0]. *)
Definition cursorSkip {A : Type} (n : Z) (l : list A) : list A :=
  skipn (Z.to_nat n) l.

(** [Math.ceil] of a quotient. *)
Definition ceil (n : JSNum.t) : JSNum.t :=
  match n with
  | JSNum.Fin q => JSNum.Fin (inject_Z (Qceiling q))
  | JSNum.PInf => JSNum.PInf
  | JSNum.NInf => JSNum.NInf
  | JSNum.NaN => JSNum.NaN
  end.

Definition getExpenses (userId : nat) (q : Query) : M (Response Page) :=
  (* Pagination options *)
  let options :=
    queryHelpers.getQueryOptions (Some (q_page q)) (Some (q_limit q))
      (q_sortBy q) (q_sortOrder q) in
  match queryHelpers.skip options, queryHelpers.limit options with
  | Some skip, Some limit =>
      roundTrip Expenses ;;
      db <- get ;;
      let found :=
        sorted (precedes (queryHelpers.sortKey options)
                  (queryHelpers.sortDirection options))
          (filter (matchesQuery userId q) (storedExpenses db)) in
      let expenses := cursorLimit limit (cursorSkip skip found) in
      roundTrip Users ;;               (* .populate('user', ...) *)
      roundTrip Expenses ;;            (* Expense.countDocuments(query) *)
      db <- get ;;
      let total := List.length (filter (matchesQuery userId q) (storedExpenses db)) in
      ret (respond 200
             {| expenses := expenses;
                pagination :=
                  {| currentPage := q_page q;
                     totalPages :=
                       ceil (JSNum.div (inject_Z (Z.of_nat total))
                               (inject_Z (q_limit q)));
                     totalExpenses := total;
                     hasNext := (q_page q * q_limit q <? Z.of_nat total)%Z;
                     hasPrev := (1 <? q_page q)%Z |} |})
  | _, _ =>
      (* not reached: the [parseInt] of a numeral is a number *)
      throw (PlainError "Failed to parse number")
  end.

(** The query [q] for the page [p]. *)
Definition withPage (p : Z) (q : Query) : Query :=
  {| q_page := p; q_limit := q_limit q; q_category := q_category q;
     q_startDate := q_startDate q; q_endDate := q_endDate q;
     q_sortBy := q_sortBy q; q_sortOrder := q_sortOrder q |}.

(** The expenses that [getExpenses] answers with ([[]] when it throws). *)
Definition expensesOf (answer : Result (Response Page) * DB) : list t :=
  match fst answer with
  | Ok response => expenses (data response)
  | Throw _ => []
  end.

(** All the documents of the query, in its order. *)
Definition allFound (userId : nat) (q : Query) (db : DB) : list t :=
  sorted (precedes (q_sortBy q)
            (if String.eqb (q_sortOrder q) "desc" then (-1)%Z else 1%Z))
    (filter (matchesQuery userId q) (storedExpenses db)).

End expenseQueries.

(** ** models/Goal.js, continued *)

Module GoalVirtuals.
Import GoalSchema.

(** Virtual [daysRemaining]. *)
Definition daysRemaining (now : Z) (g : t) : Z :=
  Z.max 0 (ceilDays (deadline g - now)).

Inductive Status : Type := completed | overdue | urgent | on_track | active.

(** Virtual [status]. *)
Definition status (now : Z) (g : t) : Status :=
  if isCompleted g then completed
  else
    let daysLeft := daysRemaining now g in
    if (daysLeft =? 0)%Z then overdue
    else if (daysLeft <=? 30)%Z then urgent
    else if JSNum.geb (Goal.progressPercentage g) 75 then on_track
    else active.

(** Virtual [monthlySavingsNeeded]. *)
Definition monthlySavingsNeeded (now : Z) (g : t) : Q :=
  let remaining := Goal.remainingAmount g in
  let daysLeft := daysRemaining now g in
  let monthsLeft := Qmax 1 (inject_Z daysLeft / (3044 # 100)) in
  remaining / monthsLeft.

End GoalVirtuals.

(** ** controllers/goalController.js, continued: [getGoalInsights] *)

Module goalReports.
Import GoalSchema.







End goalReports.

(** ** models/Budget.js, continued

    The virtuals and methods on the period of a budget, and the statics. *)

Module BudgetPeriod.
Import BudgetSchema.

(** Virtual [daysRemaining]. *)
Definition daysRemaining (now : Z) (b : t) : Z :=
  Z.max 0 (ceilDays (endDate b - now)).

(** Virtual [dailySpendingRate]. *)
Definition dailySpendingRate (now : Z) (b : t) : Q :=
  let daysPassed := Z.max 1 (ceilDays (now - startDate b)) in
  spent b / inject_Z daysPassed.

(** Instance method [getDaysInPeriod]. *)
Definition getDaysInPeriod (b : t) : Z := ceilDays (endDate b - startDate b).

(** Instance method [getProjectedSpending]. *)
Definition getProjectedSpending (now : Z) (b : t) : Q :=
  dailySpendingRate now b * inject_Z (getDaysInPeriod b).

(** The query of [findActiveForUser], of the [$match] stage of
    [getBudgetSummary] and of [getBudgets] with [active = 'true']. *)
Definition activeFor (userId : nat) (now : Z) (b : t) : bool :=
  Nat.eqb (user b) userId
  && isActive b
  && (startDate b <=? now)%Z
  && (now <=? endDate b)%Z.

(** Static [findActiveForUser]. *)
Definition findActiveForUser (userId : nat) : M (list t) :=
  now <- new_Date ;;
  roundTrip Budgets ;;
  db <- get ;;
  ret (filter (activeFor userId now) (budgets db)).

(** Static [findExpiredAutoRenew]. *)
Definition findExpiredAutoRenew : M (list t) :=
  now <- new_Date ;;
  roundTrip Budgets ;;
  db <- get ;;
  ret (filter (fun b => isActive b && autoRenew b && (endDate b <? now)%Z)
         (budgets db)).

Record Summary : Type := mkSummary {
  totalBudget : Q;
  totalSpent : Q;
  totalRemaining : Q;
  budgetCount : nat;
  overBudgetCount : nat;
  overallPercentage : Q
}.

(** Static [getBudgetSummary]: an aggregation whose [$group] stage has
    [_id: null], so it yields no document when nothing matches and one
    document otherwise.  The [$divide] of the [$project] stage fails on a
    zero divisor. *)
Definition getBudgetSummary (userId : nat) : M (list Summary) :=
  now <- new_Date ;;
  roundTrip Budgets ;;
  db <- get ;;
  match filter (activeFor userId now) (budgets db) with
  | [] => ret []
  | matched =>
      let totalBudget := Qsum (map amount matched) in
      let totalSpent := Qsum (map spent matched) in
      if Qeq_bool totalBudget 0 then
        throw (MongoError "can't $divide by zero")
      else
        ret [ {| totalBudget := totalBudget;
                 totalSpent := totalSpent;
                 totalRemaining := totalBudget - totalSpent;
                 budgetCount := List.length matched;
                 overBudgetCount :=
                   List.length (filter (fun b => Qlt_bool (amount b) (spent b)) matched);
                 overallPercentage := totalSpent / totalBudget * 100 |} ]
  end.

End BudgetPeriod.

(** ** controllers/budgetController.js, continued: [getBudgetSummary] and
    [getBudgetAlerts] *)

Module budgetReports.
Import BudgetSchema.

Definition getBudgetSummary (userId : nat) : M (Response BudgetPeriod.Summary) :=
  summary <- BudgetPeriod.getBudgetSummary userId ;;
  match summary with
  | [] =>
      ret (respond 200
             {| BudgetPeriod.totalBudget := 0; BudgetPeriod.totalSpent := 0;
                BudgetPeriod.totalRemaining := 0; BudgetPeriod.budgetCount := 0;
                BudgetPeriod.overBudgetCount := 0;
                BudgetPeriod.overallPercentage := 0 |})
  | first :: _ => ret (respond 200 first)
  end.

Inductive Severity : Type := critical | high | medium | warning.

Inductive Alert : Type :=
| thresholdAlert (budgetId : nat) (budgetName : string) (category : Category)
    (threshold : Q) (currentPercentage : JSNum.t) (amount spent remaining : Q)
    (triggeredAt : option Z) (severity : Severity)
| projectionAlert (budgetId : nat) (budgetName : string) (category : Category)
    (projectedSpending budgetAmount : Q) (daysRemaining : Z)
    (severity : Severity).

(** Check for threshold breaches. *)
Definition thresholdAlerts (budget : t) : list Alert :=
  let percentage := Budget.percentageUsed budget in
  flat_map
    (fun threshold =>
       if JSNum.geb percentage (BudgetSchema.percentage threshold)
          && triggered threshold
       then [ thresholdAlert (_id budget) (name budget) (category budget)
                (BudgetSchema.percentage threshold) percentage
                (amount budget) (spent budget) (Budget.remaining budget)
                (triggeredAt threshold)
                (if JSNum.geb percentage 100 then critical
                 else if JSNum.geb percentage 90 then high
                 else medium) ]
       else [])
    (thresholds budget).

(** Check for projected overspending. *)
Definition projectionAlerts (now : Z) (budget : t) : list Alert :=
  let projected := BudgetPeriod.getProjectedSpending now budget in
  if Qlt_bool (amount budget) projected
     && (0 <? BudgetPeriod.daysRemaining now budget)%Z
  then [ projectionAlert (_id budget) (name budget) (category budget)
           projected (amount budget) (BudgetPeriod.daysRemaining now budget)
           warning ]
  else [].

Definition getBudgetAlerts (userId : nat) : M (Response (list Alert)) :=
  now <- new_Date ;;
  roundTrip Budgets ;;
  db <- get ;;
  let budgets :=
    filter (fun b => BudgetPeriod.activeFor userId now b
                     && match alertsEnabled b with
                        | Some enabled => enabled
                        | None => false
                        end)
      (budgets db) in
  ret (respond 200
         (flat_map (fun budget => thresholdAlerts budget ++ projectionAlerts now budget)
            budgets)).

End budgetReports.

(** ** controllers/budgetController.js: the routes that write *)

Module budgetRoutes.
Import BudgetSchema.

Record DuplicateBody : Type := mkDuplicateBody {
  dup_startDate : option Z;
  dup_endDate : option Z
}.

(** Duplicate budget for next period.  The new document takes [spent] and
    [isActive] from the schema defaults and its [alerts] from the source. *)
Definition duplicateBudget (userId id : nat) (body : DuplicateBody)
  : M (Response t) :=
  found <- Budget.findOne (fun b => Nat.eqb (_id b) id && Nat.eqb (user b) userId) ;;
  match found with
  | None => throw (ApiError 404 "Budget not found")
  | Some sourceBudget =>
      match dup_startDate body, dup_endDate body with
      | Some start, Some stop =>
          (* Check for overlapping budget *)
          existingBudget <-
            Budget.findOne
              (fun b => Nat.eqb (user b) userId
                        && Category_eqb (category b) (category sourceBudget)
                        && isActive b
                        && (startDate b <=? stop)%Z
                        && (start <=? endDate b)%Z) ;;
          match existingBudget with
          | Some _ => throw (ApiError 409 "Budget already exists for this period")
          | None =>
              id' <- freshId ;;
              newBudget <-
                Budget.create
                  {| _id := id'; user := userId; name := name sourceBudget;
                     category := category sourceBudget;
                     amount := amount sourceBudget;
                     startDate := start; endDate := stop;
                     spent := 0;
                     alertsEnabled :=
                       Some (budgetController.orElse (alertsEnabled sourceBudget) true);
                     thresholds := thresholds sourceBudget;
                     defaultThresholds := defaultThresholds sourceBudget;
                     isActive := true;
                     autoRenew := autoRenew sourceBudget |} ;;
              ret (respond 201 newBudget)
          end
      | _, _ => throw (ApiError 400 "Start date and end date are required")
      end
  end.

Inductive Request : Type :=
| POST_budgets (userId : nat) (body : budgetController.CreateBudgetBody)
| PUT_budgets_id (userId id : nat) (body : budgetController.UpdateBudgetBody)
| DELETE_budgets_id (userId id : nat)
| POST_budgets_id_recalculate (userId id : nat)
| POST_budgets_id_duplicate (userId id : nat) (body : DuplicateBody).

Section WithCalendar.
Context {calendar : Calendar}.

(** The handler of a request, its response dropped. *)
Definition handle (r : Request) : M unit :=
  match r with
  | POST_budgets userId body =>
      _ <- budgetController.createBudget userId body ;; ret tt
  | PUT_budgets_id userId id body =>
      _ <- budgetController.updateBudget userId id body ;; ret tt
  | DELETE_budgets_id userId id =>
      _ <- budgetController.deleteBudget userId id ;; ret tt
  | POST_budgets_id_recalculate userId id =>
      _ <- budgetController.recalculateBudget userId id ;; ret tt
  | POST_budgets_id_duplicate userId id body =>
      _ <- duplicateBudget userId id body ;; ret tt
  end.

End WithCalendar.

End budgetRoutes.

(** ** The vocabulary of the further properties *)

Module Behaviour.

(** The two states hold the same documents. *)
Definition sameDocuments (db db' : DB) : Prop :=
  users db' = users db
  /\ expenses db' = expenses db
  /\ budgets db' = budgets db
  /\ goals db' = goals db.

(** The computation writes no document. *)
Definition readOnly {A : Type} (c : M A) : Prop :=
  forall db, sameDocuments db (snd (c db)).

(** The computation never throws an [ApiError]. *)
Definition noApiError {A : Type} (c : M A) : Prop :=
  forall db code msg, fst (c db) <> Throw (ApiError code msg).

(** When the computation throws an [ApiError], it has written no
    document. *)
Definition rejectsCleanly {A : Type} (c : M A) : Prop :=
  forall db code msg,
    fst (c db) = Throw (ApiError code msg) -> sameDocuments db (snd (c db)).

(** The calendar moves forward: a week, a month and a quarter after an
    instant lie after it. *)
Definition advancing (calendar : Calendar) : Prop :=
  forall t : Z,
    (t < @plusDays calendar t 7)%Z
    /\ (t < @plusMonths calendar t 1)%Z
    /\ (t < @plusMonths calendar t 3)%Z.

(** The number of expenses of the user in a collection, and the number
    that the user holds. *)
Definition heldIn (userId : nat) (l : list ExpenseSchema.t) : nat :=
  List.length (filter (fun e => Nat.eqb (ExpenseSchema.user e) userId) l).

Definition expensesHeld (userId : nat) (db : DB) : nat :=
  heldIn userId (expenses db).








End Behaviour.

(** * Properties *)

(** ** Sums *)

Lemma fold_left_Qplus_acc (l : list Q) (a : Q) :
  fold_left Qplus l a == a + fold_left Qplus l 0.
Proof.
  revert a; induction l as [|x l IH]; intros a; cbn [fold_left].
  - lra.
  - rewrite (IH (a + x)), (IH (0 + x)). lra.
Qed.

Lemma Qsum_nil : Qsum [] == 0.
Proof. reflexivity. Qed.

Lemma Qsum_cons (x : Q) (l : list Q) : Qsum (x :: l) == x + Qsum l.
Proof.
  unfold Qsum; cbn [fold_left]. rewrite fold_left_Qplus_acc. lra.
Qed.

Lemma Qsum_app (l1 l2 : list Q) : Qsum (l1 ++ l2) == Qsum l1 + Qsum l2.
Proof.
  induction l1 as [|x l1 IH]; cbn [app].
  - rewrite Qsum_nil. lra.
  - rewrite !Qsum_cons, IH. lra.
Qed.

Lemma Qsum_map_ext {A : Type} (f g : A -> Q) (l : list A) :
  (forall a, In a l -> f a == g a) -> Qsum (map f l) == Qsum (map g l).
Proof.
  induction l as [|x l IH]; intros H; cbn [map].
  - reflexivity.
  - rewrite !Qsum_cons, (H x (or_introl eq_refl)), IH.
    + reflexivity.
    + intros a Ha. apply H. now right.
Qed.

Lemma Qsum_nonneg (l : list Q) : Forall (fun x => 0 <= x) l -> 0 <= Qsum l.
Proof.
  induction 1 as [|x l Hx _ IH].
  - rewrite Qsum_nil. lra.
  - rewrite Qsum_cons. lra.
Qed.

Lemma Qlt_bool_iff (x y : Q) : Qlt_bool x y = true <-> x < y.
Proof.
  unfold Qlt_bool. rewrite negb_true_iff.
  destruct (Qle_bool y x) eqn:E.
  - apply Qle_bool_iff in E. split; [discriminate | lra].
  - split; [intros _ | reflexivity].
    apply Qnot_le_lt. intros H. apply Qle_bool_iff in H. congruence.
Qed.

Lemma Qlt_bool_false_iff (x y : Q) : Qlt_bool x y = false <-> y <= x.
Proof.
  unfold Qlt_bool. rewrite negb_false_iff. apply Qle_bool_iff.
Qed.

Lemma Qle_bool_false_iff (x y : Q) : Qle_bool x y = false <-> y < x.
Proof.
  rewrite <- Qlt_bool_iff. unfold Qlt_bool.
  destruct (Qle_bool x y); simpl; split; congruence.
Qed.

(** ** Income roll-up *)

Module IncomeFacts.
Import Income.

Lemma multipliers_spec (f : Frequency) : multipliers f = Spec.frequencyMultiplier f.
Proof. destruct f; reflexivity. Qed.

Lemma switchAnnualAmount_spec (i : t) :
  switchAnnualAmount i == amount i * Spec.frequencyMultiplier (frequency i).
Proof.
  unfold switchAnnualAmount. destruct (frequency i); simpl; lra.
Qed.

Lemma matchActive_spec (userId : nat) (now : Z) (i : t) :
  matchActive userId now i
  = (Nat.eqb (user i) userId && Spec.countsTowardRollups now i).
Proof.
  unfold matchActive, Spec.countsTowardRollups. now rewrite andb_assoc.
Qed.

Lemma matched_spec (coll : list t) (now : Z) (userId : nat) :
  filter (matchActive userId now) coll = Spec.rollupSources coll now userId.
Proof.
  unfold Spec.rollupSources. apply filter_ext. intros i. apply matchActive_spec.
Qed.

(** C7, as amended.  The annualized value of an ACTIVE income source is its
    amount times the frequency multiplier (one-time 0, weekly 52, bi-weekly
    26, monthly 12, quarterly 4, yearly 1), and that of an inactive source is
    0; the total-annual-income roll-up of a user sums amount times multiplier
    over exactly the user's sources with [isActive = true] and ([endDate]
    null or [endDate >= now]), and counts them. *)
Theorem income_annualization (coll : list t) (now : Z) (userId : nat) :
  (forall i, isActive i = true ->
     annualAmount i == amount i * Spec.frequencyMultiplier (frequency i))
  /\ (forall i, isActive i = false -> annualAmount i == 0)
  /\ totalAnnual (incomeController.getIncomeSummary coll now userId)
     == Qsum (map (fun i => amount i * Spec.frequencyMultiplier (frequency i))
                  (Spec.rollupSources coll now userId))
  /\ sourceCount (incomeController.getIncomeSummary coll now userId)
     = List.length (Spec.rollupSources coll now userId).
Proof.
  split; [|split; [|split]].
  - intros i Hact. unfold annualAmount. rewrite Hact; simpl.
    now rewrite multipliers_spec.
  - intros i Hact. unfold annualAmount. rewrite Hact; simpl. reflexivity.
  - unfold incomeController.getIncomeSummary, getTotalAnnualIncome.
    rewrite matched_spec.
    destruct (Spec.rollupSources coll now userId) as [|i l] eqn:E.
    + reflexivity.
    + cbn [incomeController.totalIncome totalAnnual].
      apply Qsum_map_ext. intros a _. apply switchAnnualAmount_spec.
  - unfold incomeController.getIncomeSummary, getTotalAnnualIncome.
    rewrite matched_spec.
    now destruct (Spec.rollupSources coll now userId).
Qed.

(** The two scenarios of the specification, read through the theorem:
    5000 monthly is 60000 a year, and with 1000 weekly the roll-up is
    112000. *)
Lemma income_annualization_witness :
  annualAmount (Examples.salary true) == 60000
  /\ totalAnnual
       (incomeController.getIncomeSummary
          [Examples.salary true; Examples.tutoring; Examples.salary false] 100 1)
     == 112000.
Proof.
  destruct (income_annualization
              [Examples.salary true; Examples.tutoring; Examples.salary false]
              100 1) as (Hactive & _ & Hsum & _).
  split.
  - rewrite (Hactive (Examples.salary true) eq_refl). reflexivity.
  - rewrite Hsum. reflexivity.
Defined.

(** The claim as it was stated fails on an inactive source: its annualized
    value is 0, not amount times multiplier. *)
Lemma inactive_source_is_not_annualized :
  ~ (annualAmount (Examples.salary false)
     == amount (Examples.salary false)
        * Spec.frequencyMultiplier (frequency (Examples.salary false))).
Proof.
  vm_compute. discriminate.
Qed.

Example scenario_monthly_5000 :
  annualAmount (Examples.salary true) == 60000
  /\ monthlyAmount (Examples.salary true) == 5000.
Proof. split; reflexivity. Qed.

Example scenario_weekly_1000 : annualAmount Examples.tutoring == 52000.
Proof. reflexivity. Qed.

End IncomeFacts.

(** ** The request monad *)

Lemma roundTrip_quiet (c : Coll) (db : DB) :
  faults db c = [] -> roundTrip c db = (Ok tt, db).
Proof. intros H. unfold roundTrip. now rewrite H. Qed.

(** A round trip changes nothing but the schedule of faults. *)
Lemma roundTrip_data (c : Coll) (db : DB) :
  users (snd (roundTrip c db)) = users db
  /\ expenses (snd (roundTrip c db)) = expenses db
  /\ budgets (snd (roundTrip c db)) = budgets db
  /\ goals (snd (roundTrip c db)) = goals db
  /\ nextId (snd (roundTrip c db)) = nextId db
  /\ clock (snd (roundTrip c db)) = clock db.
Proof.
  unfold roundTrip. destruct (faults db c) as [|[|] rest]; cbn; repeat split.
Qed.

Lemma roundTrip_result (c : Coll) (db : DB) :
  fst (roundTrip c db) = Ok tt
  \/ fst (roundTrip c db) = Throw (MongoError "connection error").
Proof.
  unfold roundTrip. destruct (faults db c) as [|[|] rest]; cbn; auto.
Qed.

(** ** Validation *)

Module Validation.

Lemma name_valid (name : string) (required long : string) (n : nat) :
  match name with
  | EmptyString => Some required
  | _ => if (n <? String.length name)%nat then Some long else None
  end = None
  <-> name <> EmptyString /\ (String.length name <= n)%nat.
Proof.
  destruct name as [|c rest].
  - split; [discriminate | intros [H _]; now elim H].
  - destruct (Nat.ltb_spec n (String.length (String c rest))) as [Hlt|Hle].
    + split; [discriminate | intros [_ H]; lia].
    + split; [intros _; split; [discriminate | exact Hle] | reflexivity].
Qed.

Lemma goal_validate_spec (now : Z) (g : GoalSchema.t) :
  Goal.validate now g Goal.allPaths = None <-> Spec.validGoal now g.
Proof.
  unfold Spec.validGoal, Goal.allPaths.
  cbn [Goal.validate Goal.validatePath].
  rewrite <- and_assoc.
  rewrite <- (name_valid (GoalSchema.name g) "Goal name is required"
                "Goal name cannot exceed 100 characters" 100).
  destruct (match GoalSchema.name g with
            | EmptyString => _
            | _ => _
            end) as [msg|]; [split; [discriminate | intros [H _]; discriminate H]|].
  destruct (Qlt_bool (GoalSchema.targetAmount g) (1 # 100)) eqn:Et;
    [apply Qlt_bool_iff in Et; split; [discriminate | intros (_ & H & _); lra]|].
  apply Qlt_bool_false_iff in Et.
  destruct (Qlt_bool (GoalSchema.currentAmount g) 0) eqn:Ec;
    [apply Qlt_bool_iff in Ec; split; [discriminate | intros (_ & _ & H & _); lra]|].
  apply Qlt_bool_false_iff in Ec.
  destruct (Z.ltb_spec now (GoalSchema.deadline g)) as [Hd|Hd];
    [|split; [discriminate | intros (_ & _ & _ & H & _); lia]].
  destruct (Qlt_bool (GoalSchema.as_amount (GoalSchema.autoSave g)) 0) eqn:Ea;
    [apply Qlt_bool_iff in Ea;
     split; [discriminate | intros (_ & _ & _ & _ & H & _); lra]|].
  apply Qlt_bool_false_iff in Ea.
  destruct (forallb _ (GoalSchema.contributions g)) eqn:El.
  - split; [intros _ | reflexivity].
    repeat (split; [assumption || reflexivity|]).
    apply Forall_forall. intros c Hc.
    rewrite forallb_forall in El. apply Qle_bool_iff. now apply El.
  - split; [discriminate|]. intros (_ & _ & _ & _ & _ & H).
    assert (Hall : forallb (fun c => Qle_bool 0 (GoalSchema.amount c))
                     (GoalSchema.contributions g) = true).
    { apply forallb_forall. intros c Hc. apply Qle_bool_iff.
      rewrite Forall_forall in H. now apply H. }
    congruence.
Qed.

Lemma budget_validate_spec (b : BudgetSchema.t) :
  Budget.validate b Budget.allPaths = None <-> Spec.validBudget b.
Proof.
  unfold Spec.validBudget, Budget.allPaths.
  cbn [Budget.validate Budget.validatePath].
  rewrite <- and_assoc.
  rewrite <- (name_valid (BudgetSchema.name b) "Path `name` is required."
                "Path `name` is longer than the maximum allowed length (100)." 100).
  destruct (match BudgetSchema.name b with
            | EmptyString => _
            | _ => _
            end) as [msg|]; [split; [discriminate | intros [H _]; discriminate H]|].
  destruct (Qlt_bool (BudgetSchema.amount b) 0) eqn:Ea;
    [apply Qlt_bool_iff in Ea; split; [discriminate | intros (_ & H & _); lra]|].
  apply Qlt_bool_false_iff in Ea.
  destruct (Qlt_bool (BudgetSchema.spent b) 0) eqn:Es;
    [apply Qlt_bool_iff in Es; split; [discriminate | intros (_ & _ & H & _); lra]|].
  apply Qlt_bool_false_iff in Es.
  destruct (forallb _ (BudgetSchema.thresholds b)) eqn:El.
  - split; [intros _ | reflexivity].
    repeat (split; [assumption || reflexivity|]).
    apply Forall_forall. intros th Hth.
    rewrite forallb_forall in El. specialize (El th Hth).
    apply andb_true_iff in El as [H1 H2].
    now rewrite !Qle_bool_iff in *.
  - split; [discriminate|]. intros (_ & _ & _ & H).
    assert (Hall : forallb (fun th => Qle_bool 1 (BudgetSchema.percentage th)
                                      && Qle_bool (BudgetSchema.percentage th) 100)
                     (BudgetSchema.thresholds b) = true).
    { apply forallb_forall. intros th Hth.
      rewrite Forall_forall in H. destruct (H th Hth) as [H1 H2].
      apply andb_true_iff. now rewrite !Qle_bool_iff. }
    congruence.
Qed.


End Validation.

(** ** Goals: contributions *)

Module GoalFacts.
Import GoalSchema.

Lemma Qmin_gt (x y : Q) : y < x -> Qmin x y = y.
Proof.
  intros H. unfold Qmin, GenericMinMax.gmin.
  apply Qgt_alt in H. now rewrite H.
Qed.

Lemma Qmin_cases (x y : Q) : (Qmin x y = x /\ x <= y) \/ (Qmin x y = y /\ y < x).
Proof.
  unfold Qmin, GenericMinMax.gmin.
  destruct (Qcompare x y) eqn:E.
  - left. split; [reflexivity|]. apply Qeq_alt in E. lra.
  - left. split; [reflexivity|]. apply Qlt_alt in E. lra.
  - right. split; [reflexivity|]. now apply Qgt_alt in E.
Qed.

Lemma goal_store_stored (g : t) (coll : list t) :
  find (fun x => Nat.eqb (_id x) (_id g)) (Goal.store g coll) = Some g.
Proof.
  induction coll as [|g0 rest IH]; cbn [Goal.store find].
  - now rewrite Nat.eqb_refl.
  - destruct (Nat.eqb (_id g0) (_id g)) eqn:E; cbn [find].
    + now rewrite Nat.eqb_refl.
    + now rewrite E.
Qed.

Lemma goal_store_other (g : t) (coll : list t) (id : nat) :
  id <> _id g ->
  find (fun x => Nat.eqb (_id x) id) (Goal.store g coll)
  = find (fun x => Nat.eqb (_id x) id) coll.
Proof.
  intros Hne. induction coll as [|g0 rest IH]; cbn [Goal.store find].
  - destruct (Nat.eqb (_id g) id) eqn:E; [|reflexivity].
    apply Nat.eqb_eq in E. congruence.
  - destruct (Nat.eqb (_id g0) (_id g)) eqn:E; cbn [find].
    + apply Nat.eqb_eq in E. rewrite E.
      destruct (Nat.eqb (_id g) id) eqn:E'; [|reflexivity].
      apply Nat.eqb_eq in E'. congruence.
    + now rewrite IH.
Qed.

Section WithCalendar.
Context {calendar : Calendar}.

Lemma goal_preSave_fields (now : Z) (g : t) :
  _id (Goal.preSave now g) = _id g
  /\ currentAmount (Goal.preSave now g) = currentAmount g
  /\ targetAmount (Goal.preSave now g) = targetAmount g
  /\ contributions (Goal.preSave now g) = contributions g
  /\ name (Goal.preSave now g) = name g
  /\ isActive (Goal.preSave now g) = isActive g.
Proof.
  unfold Goal.preSave.
  destruct (Qle_bool _ _ && negb _); destruct (enabled _ && _); repeat split.
Qed.

(** What the [pre('save')] middleware does to the completion fields. *)
Lemma goal_preSave_completion (now : Z) (g : t) :
  (isCompleted g = true ->
     isCompleted (Goal.preSave now g) = true
     /\ completedAt (Goal.preSave now g) = completedAt g)
  /\ (isCompleted g = false -> targetAmount g <= currentAmount g ->
        isCompleted (Goal.preSave now g) = true
        /\ completedAt (Goal.preSave now g) = Some now)
  /\ (isCompleted g = false -> currentAmount g < targetAmount g ->
        isCompleted (Goal.preSave now g) = false
        /\ completedAt (Goal.preSave now g) = completedAt g).
Proof.
  unfold Goal.preSave.
  destruct (Qle_bool (targetAmount g) (currentAmount g)) eqn:Hle;
    destruct (isCompleted g) eqn:Hc; cbn [andb negb];
    (split; [|split]); intros; try discriminate;
    try (apply Qle_bool_iff in Hle);
    try (apply Qle_bool_false_iff in Hle);
    try lra;
    match goal with
    | |- context [if ?c then _ else _] => destruct c
    end; cbn; auto.
Qed.

Lemma goal_save_quiet (paths : list Goal.Path) (g : t) (db : DB) :
  Goal.validate (clock db) g paths = None ->
  faults db Goals = [] ->
  Goal.save paths g db
  = (Ok (Goal.preSave (clock db) g),
     set_goals (Goal.store (Goal.preSave (clock db) g) (goals db)) db).
Proof.
  intros Hv Hf. unfold Goal.save, bind, new_Date. rewrite Hv.
  now rewrite (roundTrip_quiet _ _ Hf).
Qed.

(** A save that resolves has validated the document, run the middleware and
    written the result; a save that rejects has written nothing. *)
Lemma goal_save_inv (paths : list Goal.Path) (g : t) (db : DB) :
  match Goal.save paths g db with
  | (Ok g', db') =>
      g' = Goal.preSave (clock db) g
      /\ Goal.validate (clock db) g paths = None
      /\ goals db' = Goal.store g' (goals db)
      /\ clock db' = clock db /\ nextId db' = nextId db
  | (Throw _, db') =>
      goals db' = goals db /\ clock db' = clock db /\ nextId db' = nextId db
  end.
Proof.
  unfold Goal.save, bind, new_Date.
  destruct (Goal.validate (clock db) g paths) as [msg|]; [now cbn|].
  pose proof (roundTrip_data Goals db) as (_ & _ & _ & Hg & Hn & Hc).
  destruct (roundTrip Goals db) as [[[]|e] db1]; cbn in *; auto.
  repeat split; auto. now rewrite Hg.
Qed.

Lemma addContribution_inv (g : t) (amt : Q) (descr : string) (src : Source)
  (db : DB) :
  match Goal.addContribution g amt descr src db with
  | (Ok g', db') =>
      0 < amt
      /\ g' = Goal.preSave (clock db)
                (set_contributions
                   (contributions g ++
                      [ {| amount := Qmin (currentAmount g + amt) (targetAmount g)
                                     - currentAmount g;
                           date := clock db; description := descr;
                           source := src |} ])
                   (set_currentAmount
                      (Qmin (currentAmount g + amt) (targetAmount g)) g))
      /\ 0 <= Qmin (currentAmount g + amt) (targetAmount g)
      /\ currentAmount g <= Qmin (currentAmount g + amt) (targetAmount g)
      /\ goals db' = Goal.store g' (goals db)
      /\ clock db' = clock db /\ nextId db' = nextId db
  | (Throw _, db') =>
      goals db' = goals db /\ clock db' = clock db /\ nextId db' = nextId db
  end.
Proof.
  unfold Goal.addContribution.
  destruct (Qle_bool amt 0) eqn:Hamt; [now cbn|].
  apply Qle_bool_false_iff in Hamt.
  unfold bind at 1, new_Date at 1.
  match goal with
  | |- context [Goal.save ?ps ?g2 db] =>
      pose proof (goal_save_inv ps g2 db) as Hs;
      destruct (Goal.save ps g2 db) as [[g'|e] db']
  end; [|exact Hs].
  destruct Hs as (-> & Hv & Hst & Hc & Hn).
  apply Validation.goal_validate_spec in Hv.
  destruct Hv as (_ & _ & _ & Hcur & _ & _ & Hlog).
  cbn [currentAmount contributions set_contributions set_currentAmount]
    in Hcur, Hlog.
  apply Forall_app in Hlog as [_ Hlast].
  inversion Hlast as [|c l Hentry _]; subst. cbn [amount] in Hentry.
  repeat split; auto. lra.
Qed.


(** X1.  A contribution that resolves keeps the clamp invariant of the
    goal: [currentAmount] stays between 0 and the target, and the amounts of
    the contribution log still sum to it. *)
Lemma addContribution_keeps_clampInvariant (g : t) (amt : Q) (descr : string)
  (src : Source) (db : DB) (g' : t) (db' : DB) :
  Spec.clampInvariant g ->
  Goal.addContribution g amt descr src db = (Ok g', db') ->
  Spec.clampInvariant g'.
Proof.
  intros (H0 & Hle & Hsum) Hrun.
  pose proof (addContribution_inv g amt descr src db) as Hinv.
  rewrite Hrun in Hinv. destruct Hinv as (Hamt & -> & Hmin0 & Hminc & _).
  match goal with
  | |- Spec.clampInvariant (Goal.preSave ?n ?g2) =>
      pose proof (goal_preSave_fields n g2) as (_ & Hc & Ht & Hl & _)
  end.
  unfold Spec.clampInvariant. rewrite Hc, Ht, Hl.
  cbn [currentAmount targetAmount contributions set_contributions
       set_currentAmount].
  split; [assumption|]. split; [apply Q.le_min_r|].
  rewrite map_app, Qsum_app. cbn [map amount].
  rewrite Qsum_cons, Qsum_nil, Hsum. lra.
Qed.

(** C2, on the code.  [createGoal] with target 1000 and an initial
    [currentAmount] of 300 first stores the goal with 300 and then contributes
    the same 300 again: the goal ends with [currentAmount] 600 while its log
    sums to 300.  With an initial amount of 1500 the goal is stored with
    [currentAmount] 1500, above its target, and the handler then throws. *)
Theorem createGoal_counts_initial_amount_twice :
  (exists g db',
     goalController.createGoal 1 (Examples.newGoalBody 300) Examples.db0
     = (Ok (respond 201 g), db')
     /\ Spec.storedGoal 100 db' = Some g
     /\ targetAmount g == 1000
     /\ currentAmount g == 600
     /\ Qsum (map amount (contributions g)) == 300
     /\ ~ Spec.clampInvariant g)
  /\ (exists e g db',
        goalController.createGoal 1 (Examples.newGoalBody 1500) Examples.db0
        = (Throw e, db')
        /\ Spec.storedGoal 100 db' = Some g
        /\ targetAmount g == 1000
        /\ currentAmount g == 1500
        /\ ~ Spec.clampInvariant g).
Proof.
  split.
  - eexists _, _. split; [vm_compute; reflexivity|].
    repeat split; try (vm_compute; reflexivity).
    intros (_ & _ & H). vm_compute in H. discriminate.
  - eexists _, _, _. split; [vm_compute; reflexivity|].
    repeat split; try (vm_compute; reflexivity).
    intros (_ & H & _). vm_compute in H. now apply H.
Qed.

End WithCalendar.


(** The two callers of [addContribution] on the same goal (700 of 1000 saved,
    500 offered).  The route POST /api/goals/:id/contribute refuses the
    amount before the method is reached; the sweep hands the amount over
    and the method clamps it. *)
Example contributeToGoal_rejects_excess :
  fst (@goalController.contributeToGoal Examples.thirtyDayMonths 1 7
         {| goalController.ct_amount := Some 500;
            goalController.ct_description := EmptyString |}
         (set_goals [Examples.savings 7 700 Examples.noAutoSave] Examples.db0))
  = Throw (ApiError 400 "Contribution amount exceeds remaining target").
Proof. vm_compute. reflexivity. Qed.

Example processAutoSave_clamps_excess :
  map (fun g => (currentAmount g, isCompleted g, map amount (contributions g)))
      (goals (snd (@goalController.processAutoSave Examples.thirtyDayMonths
                     (set_goals [Examples.savings 7 700 (Examples.dueAutoSave 500)]
                        Examples.db0))))
  = [ (1000, true, [700; 300]) ].
Proof. vm_compute. reflexivity. Qed.

End GoalFacts.

(** ** Rules for triples *)

Lemma triple_ret {A : Type} (P : DB -> Prop) (a : A) (Q : Result A -> DB -> Prop) :
  (forall db, P db -> Q (Ok a) db) -> triple P (ret a) Q.
Proof. intros H db HP. now apply H. Qed.

Lemma triple_throw {A : Type} (P : DB -> Prop) (e : Error)
  (Q : Result A -> DB -> Prop) :
  (forall db, P db -> Q (Throw e) db) -> triple P (throw e) Q.
Proof. intros H db HP. now apply H. Qed.

Lemma triple_bind {A B : Type} (P : DB -> Prop) (c : M A) (k : A -> M B)
  (Qc : Result A -> DB -> Prop) (Q : Result B -> DB -> Prop) :
  triple P c Qc ->
  (forall e db, Qc (Throw e) db -> Q (Throw e) db) ->
  (forall a, triple (Qc (Ok a)) (k a) Q) ->
  triple P (bind c k) Q.
Proof.
  intros Hc He Hk db HP. unfold bind.
  specialize (Hc db HP). destruct (c db) as [[a|e] db1]; cbn in Hc.
  - now apply Hk.
  - now apply He.
Qed.

Lemma triple_pre {A : Type} (P P' : DB -> Prop) (c : M A)
  (Q : Result A -> DB -> Prop) :
  (forall db, P db -> P' db) -> triple P' c Q -> triple P c Q.
Proof. intros HP Hc db H. apply Hc, HP, H. Qed.

Lemma triple_post {A : Type} (P : DB -> Prop) (c : M A)
  (Q Q' : Result A -> DB -> Prop) :
  triple P c Q' -> (forall r db, Q' r db -> Q r db) -> triple P c Q.
Proof. intros Hc HQ db H. apply HQ, Hc, H. Qed.

Lemma triple_tryCatch {A : Type} (P : DB -> Prop) (body : M A)
  (handler : Error -> M A) (Qb Q : Result A -> DB -> Prop) :
  triple P body Qb ->
  (forall a db, Qb (Ok a) db -> Q (Ok a) db) ->
  (forall e, triple (Qb (Throw e)) (handler e) Q) ->
  triple P (tryCatch body handler) Q.
Proof.
  intros Hb Hok Hh db HP. unfold tryCatch.
  specialize (Hb db HP). destruct (body db) as [[a|e] db1]; cbn in Hb.
  - now apply Hok.
  - now apply Hh.
Qed.

(** A loop whose body establishes, from the invariant at [x :: rest], the
    invariant at [rest], whether it returns or throws. *)
Lemma triple_forOf {A B : Type} (I : list A -> DB -> Prop) (body : A -> M B)
  (xs : list A) :
  (forall x rest, triple (I (x :: rest)) (body x) (fun _ db => I rest db)) ->
  triple (I xs) (forOf xs body) (fun _ db => exists rest, I rest db).
Proof.
  intros Hbody. induction xs as [|x rest IH]; cbn [forOf].
  - apply triple_ret. intros db H. now exists [].
  - eapply triple_bind; [apply Hbody| |].
    + intros e db H. now exists rest.
    + intros b. cbn beta.
      eapply triple_bind; [apply IH| |].
      * intros e db H. exact H.
      * intros bs. apply triple_ret. intros db H. exact H.
Qed.

(** A fact that follows from the precondition may be used in the proof. *)
Lemma triple_pure {A : Type} (fact : Prop) (P : DB -> Prop) (c : M A)
  (Q : Result A -> DB -> Prop) :
  (forall db, P db -> fact) -> (fact -> triple P c Q) -> triple P c Q.
Proof. intros H1 H2 db HP. exact (H2 (H1 db HP) db HP). Qed.

Module GoalCompletion.
Import GoalSchema.

Lemma completionKept_refl (g : t) : Spec.completionKept g g.
Proof. repeat split; auto. Qed.

Lemma completionKept_trans (g1 g2 g3 : t) :
  Spec.completionKept g1 g2 -> Spec.completionKept g2 g3 ->
  Spec.completionKept g1 g3.
Proof.
  intros (Hid1 & Hc1 & Hn1) (Hid2 & Hc2 & Hn2). split; [congruence|]. split.
  - intros H. destruct (Hc1 H) as [H2 E2]. destruct (Hc2 H2) as [H3 E3].
    split; congruence.
  - intros H3. destruct (isCompleted g2) eqn:E2.
    + destruct (Hc2 eq_refl). congruence.
    + rewrite (Hn2 H3). now apply Hn1.
Qed.

(** A document that differs from a tracked one outside [_id], [isCompleted]
    and [completedAt] is tracked. *)
Lemma completionKept_same (g0 g g2 : t) :
  _id g2 = _id g -> isCompleted g2 = isCompleted g ->
  completedAt g2 = completedAt g ->
  Spec.completionKept g0 g -> Spec.completionKept g0 g2.
Proof.
  intros Hid Hc Ha (H1 & H2 & H3). unfold Spec.completionKept.
  rewrite Hid, Hc, Ha. auto.
Qed.

Lemma tracked_same (db : DB) (g g2 : t) :
  _id g2 = _id g -> isCompleted g2 = isCompleted g ->
  completedAt g2 = completedAt g ->
  Spec.tracked db g -> Spec.tracked db g2.
Proof.
  intros Hid Hc Ha (g0 & Hst & Hk). exists g0. rewrite Hid.
  split; [assumption|]. eapply completionKept_same; eassumption.
Qed.

Lemma completionsKept_refl (db : DB) : Spec.completionsKept db db.
Proof. intros id g H. exists g. split; [assumption|apply completionKept_refl]. Qed.

Lemma find_by_id (l : list t) (g : t) :
  NoDup (map _id l) -> In g l ->
  find (fun x => Nat.eqb (_id x) (_id g)) l = Some g.
Proof.
  induction l as [|g0 rest IH]; intros Hnd Hin; [contradiction|].
  cbn [map] in Hnd. inversion Hnd as [|? ? Hnotin Hnd']; subst.
  cbn [find]. destruct Hin as [->|Hin].
  - now rewrite Nat.eqb_refl.
  - destruct (Nat.eqb (_id g0) (_id g)) eqn:E.
    + apply Nat.eqb_eq in E. exfalso. apply Hnotin. rewrite E.
      now apply in_map.
    + now apply IH.
Qed.

Lemma stored_in (id : nat) (db : DB) (g : t) :
  Spec.storedGoal id db = Some g -> In g (goals db) /\ _id g = id.
Proof.
  intros H. apply find_some in H. destruct H as [Hin E].
  apply Nat.eqb_eq in E. auto.
Qed.

Lemma store_ids_present (g : t) (l : list t) :
  In (_id g) (map _id l) -> map _id (Goal.store g l) = map _id l.
Proof.
  induction l as [|g0 rest IH]; cbn [map Goal.store]; intros Hin; [contradiction|].
  destruct (Nat.eqb (_id g0) (_id g)) eqn:E; cbn [map].
  - apply Nat.eqb_eq in E. now rewrite E.
  - f_equal. apply IH. destruct Hin as [Hin|Hin]; [|assumption].
    apply Nat.eqb_neq in E. congruence.
Qed.

Lemma store_ids_absent (g : t) (l : list t) :
  ~ In (_id g) (map _id l) -> Goal.store g l = l ++ [g].
Proof.
  induction l as [|g0 rest IH]; cbn [map Goal.store]; intros Hnot; [reflexivity|].
  destruct (Nat.eqb (_id g0) (_id g)) eqn:E.
  - apply Nat.eqb_eq in E. exfalso. apply Hnot. now left.
  - cbn [app]. f_equal. apply IH. intros H. apply Hnot. now right.
Qed.

Lemma store_In (g x : t) (l : list t) :
  In x (Goal.store g l) -> x = g \/ In x l.
Proof.
  induction l as [|g0 rest IH]; cbn [Goal.store].
  - intros [<-|[]]. now left.
  - destruct (Nat.eqb (_id g0) (_id g)); intros [<-|H]; auto.
    + now (right; right).
    + now (right; left).
    + destruct (IH H); auto. now (right; right).
Qed.

Lemma stored_None (id : nat) (db : DB) :
  Spec.storedGoal id db = None -> ~ In id (map _id (goals db)).
Proof.
  intros H Hin. apply in_map_iff in Hin. destruct Hin as (g & E & Hin).
  unfold Spec.storedGoal in H.
  apply (find_none _ _ H) in Hin. cbn in Hin. rewrite E, Nat.eqb_refl in Hin.
  discriminate.
Qed.

(** Writing a tracked or a fresh document keeps the invariant. *)
Lemma store_keeps_invariant (db0 db db' : DB) (held : list t) (g : t) :
  Spec.goalInvariant db0 held db ->
  Spec.tracked db g
  \/ (Spec.storedGoal (_id g) db = None /\ (_id g < nextId db)%nat) ->
  ~ In (_id g) (map _id held) ->
  goals db' = Goal.store g (goals db) ->
  nextId db' = nextId db ->
  Spec.goalInvariant db0 held db' /\ Spec.storedGoal (_id g) db' = Some g.
Proof.
  intros (Hkept & (Hnd & Hbound) & Hheld & Hndh) Hg Hnotheld Hgoals Hnext.
  assert (Hsame : Spec.storedGoal (_id g) db' = Some g).
  { unfold Spec.storedGoal. rewrite Hgoals. apply GoalFacts.goal_store_stored. }
  assert (Hother : forall id, id <> _id g ->
                     Spec.storedGoal id db' = Spec.storedGoal id db).
  { intros id Hne. unfold Spec.storedGoal. rewrite Hgoals.
    now apply GoalFacts.goal_store_other. }
  split; [|assumption]. repeat split.
  - intros id g1 H1. destruct (Hkept id g1 H1) as (g2 & H2 & K12).
    destruct (Nat.eq_dec id (_id g)) as [->|Hne].
    + exists g. split; [assumption|].
      destruct Hg as [(g0 & Hst & K)|[Hnone _]]; [|congruence].
      rewrite Hst in H2. injection H2 as ->.
      eapply completionKept_trans; eassumption.
    + exists g2. split; [|assumption]. now rewrite Hother.
  - rewrite Hgoals. destruct Hg as [(g0 & Hst & K)|[Hnone _]].
    + rewrite store_ids_present; [assumption|].
      apply stored_in in Hst. destruct Hst as [Hin E]. rewrite <- E.
      now apply in_map.
    + apply stored_None in Hnone. rewrite (store_ids_absent _ _ Hnone).
      rewrite map_app. cbn [map].
      apply NoDup_app; [assumption|repeat constructor; intros []|].
      intros a Ha [<-|[]]. contradiction.
  - intros x Hx. rewrite Hgoals in Hx. rewrite Hnext.
    destruct (store_In _ _ _ Hx) as [->|Hin]; [|now apply Hbound].
    destruct Hg as [(g0 & Hst & (Hid & _))|[_ Hlt]]; [|assumption].
    apply stored_in in Hst. destruct Hst as [Hin E]. rewrite <- E.
    now apply Hbound.
  - rewrite Forall_forall in *. intros h Hh.
    destruct (Hheld h Hh) as (h0 & Hst & K). exists h0. split; [|assumption].
    rewrite Hother; [assumption|].
    intros E. apply Hnotheld. rewrite <- E. now apply in_map.
  - assumption.
Qed.

Lemma invariant_frame (db0 db db' : DB) (held : list t) :
  goals db' = goals db -> nextId db' = nextId db ->
  Spec.goalInvariant db0 held db -> Spec.goalInvariant db0 held db'.
Proof.
  intros Hg Hn (Hkept & (Hnd & Hbound) & Hheld & Hndh).
  unfold Spec.goalInvariant, Spec.completionsKept, Spec.uniqueGoalIds,
    Spec.tracked, Spec.storedGoal in *.
  rewrite Hg, Hn. auto.
Qed.


Lemma NoDup_map_filter {A B : Type} (f : A -> B) (q : A -> bool) (l : list A) :
  NoDup (map f l) -> NoDup (map f (filter q l)).
Proof.
  induction l as [|a l IH]; cbn [map filter]; intros H; [constructor|].
  inversion H as [|? ? Hnotin Hnd]; subst.
  destruct (q a); cbn [map]; [|now apply IH].
  constructor; [|now apply IH].
  intros Hin. apply Hnotin. apply in_map_iff in Hin.
  destruct Hin as (x & E & Hx). apply filter_In in Hx. rewrite <- E.
  apply in_map. tauto.
Qed.

(** A computation that leaves the goals and the id generator as they are
    keeps the invariant. *)
Lemma readOnly_spec {A : Type} (c : M A) (db0 : DB) (held : list t) :
  (forall db, goals (snd (c db)) = goals db /\ nextId (snd (c db)) = nextId db) ->
  triple (Spec.goalInvariant db0 held) c (fun _ db => Spec.goalInvariant db0 held db).
Proof.
  intros H db HI. destruct (H db) as [Hg Hn].
  eapply invariant_frame; eassumption.
Qed.

Lemma roundTrip_spec (c : Coll) (db0 : DB) (held : list t) :
  triple (Spec.goalInvariant db0 held) (roundTrip c)
    (fun _ db => Spec.goalInvariant db0 held db).
Proof.
  apply readOnly_spec. intros db.
  pose proof (roundTrip_data c db). tauto.
Qed.

Lemma new_Date_spec (db0 : DB) (held : list t) :
  triple (Spec.goalInvariant db0 held) new_Date
    (fun _ db => Spec.goalInvariant db0 held db).
Proof. apply readOnly_spec. intros db. now cbn. Qed.

Lemma findById_spec (id : nat) (db0 : DB) (held : list t) :
  triple (Spec.goalInvariant db0 held) (User.findById id)
    (fun _ db => Spec.goalInvariant db0 held db).
Proof.
  apply readOnly_spec. intros db. unfold User.findById, bind, get, ret.
  pose proof (roundTrip_data Users db) as (_ & _ & _ & Hg & Hn & _).
  destruct (roundTrip Users db) as [[[]|e] db1]; cbn in *; auto.
Qed.

Lemma findOne_spec (q : t -> bool) (db0 : DB) (held : list t) :
  triple (Spec.goalInvariant db0 held) (Goal.findOne q)
    (fun r db =>
       Spec.goalInvariant db0 held db
       /\ match r with
          | Ok (Some g) => Spec.tracked db g /\ q g = true
          | _ => True
          end).
Proof.
  intros db HI. unfold Goal.findOne, bind, get, ret.
  pose proof (roundTrip_data Goals db) as (_ & _ & _ & Hg & Hn & _).
  destruct (roundTrip Goals db) as [[[]|e] db1]; cbn in *.
  - assert (HI1 : Spec.goalInvariant db0 held db1)
      by (eapply invariant_frame; eassumption).
    split; [assumption|].
    destruct (find q (goals db1)) as [g|] eqn:E; [|exact I].
    apply find_some in E. destruct E as [Hin Hq]. split; [|assumption].
    exists g. split; [|apply completionKept_refl].
    destruct HI1 as (_ & (Hnd & _) & _). now apply find_by_id.
  - split; [|exact I]. eapply invariant_frame; eassumption.
Qed.

Lemma findAutoSaveDue_spec (db0 : DB) :
  triple (Spec.goalInvariant db0 []) Goal.findAutoSaveDue
    (fun r db =>
       match r with
       | Ok due => Spec.goalInvariant db0 due db
       | Throw _ => Spec.goalInvariant db0 [] db
       end).
Proof.
  intros db HI. unfold Goal.findAutoSaveDue, bind, get, ret, new_Date.
  pose proof (roundTrip_data Goals db) as (_ & _ & _ & Hg & Hn & _).
  destruct (roundTrip Goals db) as [[[]|e] db1]; cbn in *;
    assert (HI1 : Spec.goalInvariant db0 [] db1)
      by (eapply invariant_frame; eassumption); [|assumption].
  destruct HI1 as (Hk & (Hnd & Hb) & _ & _). repeat split; auto.
  - apply Forall_forall. intros g Hin. apply filter_In in Hin.
    exists g. split; [|apply completionKept_refl].
    apply find_by_id; tauto.
  - now apply NoDup_map_filter.
Qed.

Lemma freshId_spec (db0 : DB) (held : list t) :
  triple (Spec.goalInvariant db0 held) freshId
    (fun r db =>
       Spec.goalInvariant db0 held db
       /\ match r with
          | Ok id => Spec.storedGoal id db = None /\ (id < nextId db)%nat
          | Throw _ => True
          end).
Proof.
  intros db (Hk & (Hnd & Hb) & Hheld & Hndh). cbn.
  repeat split; auto.
  - intros g Hin. specialize (Hb g Hin). cbn. lia.
  - unfold Spec.storedGoal. cbn.
    destruct (find _ (goals db)) as [g|] eqn:E; [|reflexivity].
    apply find_some in E. destruct E as [Hin E]. apply Nat.eqb_eq in E.
    specialize (Hb g Hin). lia.
Qed.

Section WithCalendar.
Context {calendar : Calendar}.

Lemma preSave_keeps (now : Z) (g : t) : Spec.completionKept g (Goal.preSave now g).
Proof.
  pose proof (GoalFacts.goal_preSave_fields now g) as (Hid & _).
  pose proof (GoalFacts.goal_preSave_completion now g) as (Hdone & Hnew & Hnot).
  split; [assumption|]. split; [assumption|].
  intros Hafter. destruct (isCompleted g) eqn:Hc.
  - destruct (Hdone eq_refl). congruence.
  - destruct (Qlt_le_dec (currentAmount g) (targetAmount g)) as [Hlt|Hle].
    + now apply Hnot.
    + destruct (Hnew eq_refl Hle). congruence.
Qed.

(** Saving a document that is tracked, or new, keeps the invariant, and the
    saved document is tracked. *)
Lemma save_spec (db0 : DB) (held : list t) (paths : list Goal.Path) (g : t) :
  triple
    (fun db =>
       Spec.goalInvariant db0 held db
       /\ (Spec.tracked db g
           \/ (Spec.storedGoal (_id g) db = None /\ (_id g < nextId db)%nat))
       /\ ~ In (_id g) (map _id held))
    (Goal.save paths g)
    (fun r db =>
       Spec.goalInvariant db0 held db
       /\ match r with
          | Ok g' => Spec.tracked db g' /\ _id g' = _id g
          | Throw _ => True
          end).
Proof.
  intros db (HI & Hg & Hnot).
  pose proof (GoalFacts.goal_save_inv paths g db) as Hs.
  destruct (Goal.save paths g db) as [[g'|e] db']; cbn [fst snd].
  - destruct Hs as (-> & _ & Hst & _ & Hn).
    pose proof (preSave_keeps (clock db) g) as Hkeep.
    assert (Hid : _id (Goal.preSave (clock db) g) = _id g) by apply Hkeep.
    destruct (@store_keeps_invariant db0 db db' held (Goal.preSave (clock db) g))
      as [HI' Hstored]; auto.
    + rewrite Hid. destruct Hg as [(g0 & H0 & K)|Hfresh]; [left|now right].
      exists g0. rewrite Hid. split; [assumption|].
      eapply completionKept_trans; eassumption.
    + now rewrite Hid.
    + split; [assumption|]. split; [|assumption].
      eexists. split; [eassumption|apply completionKept_refl].
  - destruct Hs as (Hg' & _ & Hn). split; [|exact I].
    eapply invariant_frame; eassumption.
Qed.

Lemma addContribution_spec (db0 : DB) (held : list t) (g : t) (amt : Q)
  (descr : string) (src : Source) :
  triple
    (fun db =>
       Spec.goalInvariant db0 held db
       /\ Spec.tracked db g
       /\ ~ In (_id g) (map _id held))
    (Goal.addContribution g amt descr src)
    (fun r db =>
       Spec.goalInvariant db0 held db
       /\ match r with
          | Ok g' => Spec.tracked db g' /\ _id g' = _id g
          | Throw _ => True
          end).
Proof.
  unfold Goal.addContribution. destruct (Qle_bool amt 0).
  - apply triple_throw. intros db (HI & _). now split.
  - intros db (HI & Hg & Hnot). unfold bind at 1, new_Date at 1.
    match goal with
    | |- context [Goal.save ?ps ?g2] =>
        apply (@save_spec db0 held ps g2)
    end.
    split; [assumption|]. split; [|assumption].
    left. eapply tracked_same; [| | |eassumption]; reflexivity.
Qed.


Lemma create_spec (db0 : DB) (f : Goal.CreateFields) :
  triple (Spec.goalInvariant db0 []) (Goal.create f)
    (fun r db =>
       Spec.goalInvariant db0 [] db
       /\ match r with
          | Ok g' => Spec.tracked db g'
          | Throw _ => True
          end).
Proof.
  unfold Goal.create.
  eapply triple_bind; [apply freshId_spec| |].
  - intros e db [HI _]. now split.
  - intros id. eapply triple_post; [eapply triple_pre; [|apply save_spec]|].
    + intros db (HI & Hnone & Hlt). split; [eassumption|].
      split; [right; now split|intros []].
    + intros [g'|e] db [HI Hg]; (split; [assumption|]); tauto.
Qed.

Ltac keeps_throw :=
  apply triple_throw; intros; cbn beta in *; tauto.

Lemma createGoal_keeps (db0 : DB) (userId : nat)
  (body : goalController.CreateGoalBody) :
  triple (Spec.goalInvariant db0 []) (goalController.createGoal userId body)
    (fun _ db => Spec.goalInvariant db0 [] db).
Proof.
  unfold goalController.createGoal.
  destruct (goalController.cg_targetAmount body) as [targetAmount|];
    [|keeps_throw].
  destruct (goalController.cg_category body) as [category|]; [|keeps_throw].
  destruct (goalController.cg_deadline body) as [deadline|]; [|keeps_throw].
  destruct (isBlank _ || _); [keeps_throw|].
  destruct (Qle_bool targetAmount 0); [keeps_throw|].
  destruct (Qlt_bool _ 0); [keeps_throw|].
  eapply triple_bind; [apply new_Date_spec|auto|]. intros now. cbn beta.
  destruct (deadline <=? now)%Z; [keeps_throw|].
  eapply triple_bind; [apply findById_spec|auto|]. intros [u|]; [|keeps_throw].
  eapply triple_bind; [apply create_spec|intros; cbn beta in *; tauto|].
  intros goal. cbn beta iota.
  eapply triple_bind with (Qc := fun _ db => Spec.goalInvariant db0 [] db);
    [|auto|].
  - destruct (Qlt_bool 0 _).
    + eapply triple_post; [eapply triple_pre; [|apply addContribution_spec]|].
      * intros db [HI Hg]. split; [eassumption|]. split; [assumption|intros []].
      * intros r db [HI _]. exact HI.
    + apply triple_ret. intros db [HI _]. exact HI.
  - intros goal'. cbn beta.
    eapply triple_bind; [apply roundTrip_spec|auto|].
    intros ?. apply triple_ret. auto.
Qed.

Lemma applyUpdates_same (body : goalController.UpdateGoalBody) (g : t) :
  _id (goalController.applyUpdates body g) = _id g
  /\ isCompleted (goalController.applyUpdates body g) = isCompleted g
  /\ completedAt (goalController.applyUpdates body g) = completedAt g.
Proof.
  unfold goalController.applyUpdates.
  destruct (goalController.ug_name body), (goalController.ug_targetAmount body),
    (goalController.ug_category body), (goalController.ug_deadline body),
    (goalController.ug_autoSave body); repeat split.
Qed.

Lemma save_held_keeps (db0 : DB) (paths : list Goal.Path) (g g2 : t) :
  _id g2 = _id g -> isCompleted g2 = isCompleted g ->
  completedAt g2 = completedAt g ->
  triple
    (fun db => Spec.goalInvariant db0 [] db /\ Spec.tracked db g)
    (Goal.save paths g2)
    (fun _ db => Spec.goalInvariant db0 [] db).
Proof.
  intros Hid Hc Ha.
  eapply triple_post; [eapply triple_pre; [|apply save_spec]|].
  - intros db [HI Hg]. split; [eassumption|]. split; [|intros []].
    left. eapply tracked_same; eassumption.
  - intros r db [HI _]. exact HI.
Qed.

Lemma updateGoal_keeps (db0 : DB) (userId id : nat)
  (body : goalController.UpdateGoalBody) :
  triple (Spec.goalInvariant db0 []) (goalController.updateGoal userId id body)
    (fun _ db => Spec.goalInvariant db0 [] db).
Proof.
  unfold goalController.updateGoal.
  eapply triple_bind; [apply findOne_spec|intros; cbn beta in *; tauto|].
  intros [goal|]; [|keeps_throw]. cbn beta iota.
  destruct (isCompleted goal); [keeps_throw|].
  destruct (applyUpdates_same body goal) as (Hid & Hc & Ha).
  eapply triple_bind with
    (Qc := fun _ db => Spec.goalInvariant db0 [] db /\ Spec.tracked db goal);
    [|intros; cbn beta in *; tauto|].
  { intros db [HI [Hg _]]. cbn. now split. }
  intros now. cbn beta.
  destruct (goalController.ug_deadline body) as [d|].
  - destruct (d <=? now)%Z; [keeps_throw|].
    eapply triple_bind; [apply (@save_held_keeps db0 _ goal _ Hid Hc Ha)|auto|].
    intros goal'. apply triple_ret. auto.
  - eapply triple_bind; [apply (@save_held_keeps db0 _ goal _ Hid Hc Ha)|auto|].
    intros goal'. apply triple_ret. auto.
Qed.

Lemma deleteGoal_keeps (db0 : DB) (userId id : nat) :
  triple (Spec.goalInvariant db0 []) (goalController.deleteGoal userId id)
    (fun _ db => Spec.goalInvariant db0 [] db).
Proof.
  unfold goalController.deleteGoal.
  eapply triple_bind; [apply findOne_spec|intros; cbn beta in *; tauto|].
  intros [goal|]; [|keeps_throw]. cbn beta iota.
  eapply triple_bind;
    [eapply triple_pre; [|apply (@save_held_keeps db0 _ goal (set_isActive false goal))]
    |auto|]; try reflexivity.
  - intros db [HI [Hg _]]. now split.
  - intros goal'. apply triple_ret. auto.
Qed.

Lemma contributeToGoal_keeps (db0 : DB) (userId id : nat)
  (body : goalController.ContributeBody) :
  triple (Spec.goalInvariant db0 [])
    (goalController.contributeToGoal userId id body)
    (fun _ db => Spec.goalInvariant db0 [] db).
Proof.
  unfold goalController.contributeToGoal.
  destruct (goalController.ct_amount body) as [amount|]; [|keeps_throw].
  destruct (Qeq_bool amount 0 || Qle_bool amount 0); [keeps_throw|].
  eapply triple_bind; [apply findOne_spec|intros; cbn beta in *; tauto|].
  intros [goal|]; [|keeps_throw]. cbn beta iota.
  destruct (isCompleted goal); [keeps_throw|].
  destruct (Qlt_bool _ amount); [keeps_throw|].
  eapply triple_bind;
    [eapply triple_pre; [|apply (@addContribution_spec db0 [])]
    |intros; cbn beta in *; tauto|].
  - intros db [HI [Hg _]]. split; [eassumption|]. split; [assumption|intros []].
  - intros goal'. apply triple_ret. intros db [HI _]. exact HI.
Qed.

Lemma invariant_tail (db0 db : DB) (x : t) (rest : list t) :
  Spec.goalInvariant db0 (x :: rest) db ->
  Spec.goalInvariant db0 rest db
  /\ Spec.tracked db x /\ ~ In (_id x) (map _id rest).
Proof.
  intros (Hk & Hu & Hheld & Hnd).
  inversion Hheld; subst. cbn [map] in Hnd. inversion Hnd; subst.
  split; [|split]; [|assumption|assumption].
  unfold Spec.goalInvariant. auto.
Qed.

Lemma processAutoSaveGoal_keeps (db0 : DB) (goal : t) (rest : list t) :
  triple (Spec.goalInvariant db0 (goal :: rest))
    (goalController.processAutoSaveGoal goal)
    (fun _ db => Spec.goalInvariant db0 rest db).
Proof.
  apply triple_pure with (fact := ~ In (_id goal) (map _id rest)).
  { intros db HI. now apply invariant_tail in HI. }
  intros Hnot.
  unfold goalController.processAutoSaveGoal, goalController.contributeAutoSave.
  eapply triple_tryCatch with (Qb := fun _ db => Spec.goalInvariant db0 rest db).
  - eapply triple_bind;
      [eapply triple_pre; [|apply (@addContribution_spec db0 rest)]
      |intros; cbn beta in *; tauto|].
    + intros db HI. apply invariant_tail in HI.
      destruct HI as (HI & Hg & _). split; [eassumption|]. now split.
    + intros goal'. cbn beta iota.
      eapply triple_bind with
        (Qc := fun _ db => Spec.goalInvariant db0 rest db
                           /\ Spec.tracked db goal' /\ _id goal' = _id goal);
        [|intros; cbn beta in *; tauto|].
      { intros db (HI & Hg & Hid). unfold new_Date. cbn [fst snd]. auto. }
      intros now. cbn beta.
      eapply triple_bind with
        (Qc := fun _ db => Spec.goalInvariant db0 rest db); [|auto|].
      * eapply triple_post;
          [eapply triple_pre; [|apply (@save_spec db0 rest)]|].
        -- intros db (HI & Hg & Hid). split; [eassumption|]. split.
           ++ left. eapply tracked_same; [| | |eassumption]; reflexivity.
           ++ cbn [_id set_nextContribution set_autoSave].
              rewrite Hid. exact Hnot.
        -- intros r db [HI _]. exact HI.
      * intros ?. apply triple_ret. auto.
  - auto.
  - intros e. apply triple_ret. auto.
Qed.


Lemma invariant_drop (db0 db : DB) (held : list t) :
  Spec.goalInvariant db0 held db -> Spec.goalInvariant db0 [] db.
Proof.
  intros (Hk & Hu & _ & _). repeat split; try apply Hu; auto; constructor.
Qed.

Lemma processAutoSave_keeps (db0 : DB) :
  triple (Spec.goalInvariant db0 []) goalController.processAutoSave
    (fun _ db => Spec.goalInvariant db0 [] db).
Proof.
  unfold goalController.processAutoSave.
  eapply triple_bind; [apply findAutoSaveDue_spec|auto|].
  intros due. cbn beta iota.
  eapply triple_bind;
    [apply (triple_forOf (fun held db => Spec.goalInvariant db0 held db))| |].
  - intros goal rest. apply processAutoSaveGoal_keeps.
  - intros e db [rest HI]. eapply invariant_drop; eassumption.
  - intros results. apply triple_ret. intros db [rest HI].
    eapply invariant_drop; eassumption.
Qed.

Lemma handle_keeps (db0 : DB) (r : goalRoutes.Request) :
  triple (Spec.goalInvariant db0 []) (goalRoutes.handle r)
    (fun _ db => Spec.goalInvariant db0 [] db).
Proof.
  destruct r; cbn [goalRoutes.handle];
    (eapply triple_bind with (Qc := fun _ db => Spec.goalInvariant db0 [] db);
     [|auto|intros ?; apply triple_ret; auto]).
  - apply createGoal_keeps.
  - apply updateGoal_keeps.
  - apply deleteGoal_keeps.
  - apply contributeToGoal_keeps.
  - apply processAutoSave_keeps.
Qed.

Lemma serveAll_keeps (db0 : DB) (arrivals : list goalRoutes.Arrival) (db : DB) :
  Spec.goalInvariant db0 [] db ->
  Spec.goalInvariant db0 [] (goalRoutes.serveAll arrivals db).
Proof.
  revert db. induction arrivals as [|a rest IH]; intros db HI; [exact HI|].
  unfold goalRoutes.serveAll. cbn [fold_left]. apply IH.
  unfold goalRoutes.serve. apply handle_keeps.
  eapply invariant_frame; [| |exact HI]; reflexivity.
Qed.

(** C6.  Completion is monotonic.  (1) A save of a goal that is completed
    leaves [isCompleted] and [completedAt] as they are; a save of a goal that
    is not completed sets [isCompleted] and stamps [completedAt] with the
    present time exactly when [currentAmount] has reached [targetAmount], and
    otherwise leaves both as they are.  (2) Over any sequence of goal
    requests (create, update, delete, contribute, auto-save sweep), arriving
    at any times and meeting any database faults, every stored goal stays
    stored; once it is completed it stays completed and keeps its
    [completedAt]; and its [completedAt] has not changed as long as it is not
    completed. *)
Theorem completion_is_monotonic :
  (forall (paths : list Goal.Path) (g g' : t) (db db' : DB),
     Goal.save paths g db = (Ok g', db') ->
     (isCompleted g = true ->
        isCompleted g' = true /\ completedAt g' = completedAt g)
     /\ (isCompleted g = false -> targetAmount g <= currentAmount g ->
           isCompleted g' = true /\ completedAt g' = Some (clock db))
     /\ (isCompleted g = false -> currentAmount g < targetAmount g ->
           isCompleted g' = false /\ completedAt g' = completedAt g))
  /\ (forall (arrivals : list goalRoutes.Arrival) (db : DB) (id : nat) (g : t),
        Spec.uniqueGoalIds db ->
        Spec.storedGoal id db = Some g ->
        exists g',
          Spec.storedGoal id (goalRoutes.serveAll arrivals db) = Some g'
          /\ (isCompleted g = true ->
                isCompleted g' = true /\ completedAt g' = completedAt g)
          /\ (isCompleted g' = false -> completedAt g' = completedAt g)).
Proof.
  split.
  - intros paths g g' db db' Hsave.
    pose proof (GoalFacts.goal_save_inv paths g db) as Hs.
    rewrite Hsave in Hs. destruct Hs as (-> & _).
    apply GoalFacts.goal_preSave_completion.
  - intros arrivals db id g Huniq Hst.
    assert (HI : Spec.goalInvariant db [] db).
    { repeat split; try apply Huniq; try constructor.
      apply completionsKept_refl. }
    apply (serveAll_keeps arrivals) in HI. destruct HI as (Hkept & _).
    destruct (Hkept id g Hst) as (g' & Hst' & (_ & Hc & Hn)).
    exists g'. auto.
Qed.

End WithCalendar.

(** The completed goal 7 through a contribution, an update that meets a
    database fault, a delete and a sweep: it stays completed, with the
    [completedAt] it had. *)
Lemma completion_is_monotonic_witness :
  exists g',
    Spec.storedGoal 7
      (@goalRoutes.serveAll Examples.thirtyDayMonths Examples.arrivals
         Examples.dbGoals) = Some g'
    /\ isCompleted g' = true /\ completedAt g' = Some 600%Z.
Proof.
  destruct (proj2 (@completion_is_monotonic Examples.thirtyDayMonths)
              Examples.arrivals Examples.dbGoals 7%nat Examples.completedGoal)
    as (g' & Hst & Hc & _).
  - split.
    + cbn. repeat constructor; cbn; intuition discriminate.
    + intros g [<-|[<-|[<-|[]]]]; cbn; lia.
  - reflexivity.
  - exists g'. split; [exact Hst|]. now apply Hc.
Defined.

End GoalCompletion.

(** ** Goals: the auto-save sweep *)

Module AutoSaveSweep.
Import GoalSchema.

Section WithCalendar.
Context {calendar : Calendar}.

Lemma contributeAutoSave_entry (goal : t) (db db' : DB)
  (r : goalController.AutoSaveResult) :
  goalController.contributeAutoSave goal db = (Ok r, db') ->
  r = {| goalController.goalId := _id goal;
         goalController.goalName := name goal;
         goalController.r_amount := as_amount (autoSave goal);
         goalController.r_status := goalController.success;
         goalController.r_error := None |}.
Proof.
  unfold goalController.contributeAutoSave, bind, new_Date, ret.
  destruct (Goal.addContribution _ _ _ _ db) as [[goal'|e] db1];
    [|discriminate].
  destruct (Goal.save _ _ db1) as [[goal''|e] db2]; [|discriminate].
  intros H. now injection H as <- _.
Qed.

(** The loop of [processAutoSave] never throws: it takes every due goal. *)
Lemma forOf_processes_all (due : list t) (db : DB) :
  exists results db',
    forOf due goalController.processAutoSaveGoal db = (Ok results, db')
    /\ Spec.batchProcessed due db results db'
    /\ map goalController.goalId results = map _id due.
Proof.
  revert db. induction due as [|goal rest IH]; intros db.
  - exists [], db. repeat split. constructor.
  - cbn [forOf]. unfold bind at 1.
    unfold goalController.processAutoSaveGoal at 1, tryCatch.
    destruct (goalController.contributeAutoSave goal db) as [[r|e] db1] eqn:E.
    + destruct (IH db1) as (results & db2 & Hrun & Hbatch & Hids).
      unfold bind, ret. rewrite Hrun.
      pose proof (contributeAutoSave_entry _ _ E) as ->.
      eexists _, _. split; [reflexivity|]. split.
      * eapply Spec.batch_success; eassumption.
      * cbn [map goalController.goalId]. now rewrite Hids.
    + unfold ret at 1.
      destruct (IH db1) as (results & db2 & Hrun & Hbatch & Hids).
      unfold bind, ret. rewrite Hrun.
      eexists _, _. split; [reflexivity|]. split.
      * eapply Spec.batch_failed; eassumption.
      * cbn [map goalController.goalId]. now rewrite Hids.
Qed.

(** C9.  Once the due goals are found, the auto-save sweep answers 200
    whatever happens to the single goals: every due goal is taken in turn,
    a goal whose contribution throws gets an entry with status [failed] and
    the message of the error, the goals after it are still taken, and
    [results] holds one entry for each due goal, in order. *)
Theorem processAutoSave_isolates_failures (db db1 : DB) (due : list t) :
  Goal.findAutoSaveDue db = (Ok due, db1) ->
  exists results db2,
    goalController.processAutoSave db = (Ok (respond 200 results), db2)
    /\ Spec.batchProcessed due db1 results db2
    /\ map goalController.goalId results = map _id due.
Proof.
  intros Hdue. unfold goalController.processAutoSave, bind. rewrite Hdue.
  destruct (forOf_processes_all due db1) as (results & db2 & Hrun & Hbatch & Hids).
  rewrite Hrun. exists results, db2. now repeat split.
Qed.

End WithCalendar.

(** Two goals are due; the contribution to goal 8 throws (its auto-save
    amount is 0); the sweep answers 200 with an entry for each. *)
Lemma processAutoSave_isolates_failures_witness :
  exists results db2,
    @goalController.processAutoSave Examples.thirtyDayMonths Examples.dbGoals
    = (Ok (respond 200 results), db2)
    /\ @Spec.batchProcessed Examples.thirtyDayMonths
         [Examples.savings 8 100 (Examples.dueAutoSave 0);
          Examples.savings 9 100 (Examples.dueAutoSave 50)]
         Examples.dbGoals results db2
    /\ map goalController.goalId results = [8%nat; 9%nat].
Proof.
  apply (@processAutoSave_isolates_failures Examples.thirtyDayMonths
           Examples.dbGoals Examples.dbGoals).
  reflexivity.
Defined.

Example sweep_results :
  map (fun r => (goalController.goalId r, goalController.r_status r,
                 goalController.r_error r))
      (match fst (@goalController.processAutoSave Examples.thirtyDayMonths
                    Examples.dbGoals) with
       | Ok response => data response
       | Throw _ => []
       end)
  = [ (8%nat, goalController.failed, Some "Contribution amount must be positive");
      (9%nat, goalController.success, None) ].
Proof. vm_compute. reflexivity. Qed.

End AutoSaveSweep.

(** ** Budgets: the two ways to maintain [spent] *)

Module BudgetFacts.
Import BudgetSchema.

Lemma budget_store_stored (b : t) (coll : list t) :
  find (fun x => Nat.eqb (_id x) (_id b)) (Budget.store b coll) = Some b.
Proof.
  induction coll as [|b0 rest IH]; cbn [Budget.store find].
  - now rewrite Nat.eqb_refl.
  - destruct (Nat.eqb (_id b0) (_id b)) eqn:E; cbn [find].
    + now rewrite Nat.eqb_refl.
    + now rewrite E.
Qed.

Lemma budget_preSave_fields (b : t) :
  _id (Budget.preSave b) = _id b
  /\ spent (Budget.preSave b) = spent b
  /\ amount (Budget.preSave b) = amount b
  /\ user (Budget.preSave b) = user b
  /\ category (Budget.preSave b) = category b
  /\ startDate (Budget.preSave b) = startDate b
  /\ endDate (Budget.preSave b) = endDate b
  /\ isActive (Budget.preSave b) = isActive b.
Proof. unfold Budget.preSave. destruct (thresholds b); repeat split. Qed.

Lemma budget_preSave_thresholds (b : t) :
  (thresholds b <> [] /\ thresholds (Budget.preSave b) = thresholds b)
  \/ (thresholds b = []
      /\ forall th, In th (thresholds (Budget.preSave b)) ->
                    triggered th = false /\ triggeredAt th = None).
Proof.
  unfold Budget.preSave. destruct (thresholds b) as [|th0 rest] eqn:E.
  - right. split; [reflexivity|]. cbn [thresholds set_thresholds].
    intros th Hin. apply in_map_iff in Hin. destruct Hin as (p & <- & _).
    now split.
  - left. split; [discriminate|]. now rewrite E.
Qed.

Lemma percentageUsed_preSave (b : t) :
  Budget.percentageUsed (Budget.preSave b) = Budget.percentageUsed b.
Proof.
  unfold Budget.percentageUsed.
  destruct (budget_preSave_fields b) as (_ & -> & -> & _). reflexivity.
Qed.

(** A save that resolves has validated the document, run the middleware and
    written the result; a save that rejects has written nothing. *)
Lemma budget_save_inv (paths : list Budget.Path) (b : t) (db : DB) :
  match Budget.save paths b db with
  | (Ok b', db') =>
      b' = Budget.preSave b
      /\ Budget.validate b paths = None
      /\ budgets db' = Budget.store b' (budgets db)
      /\ expenses db' = expenses db /\ users db' = users db
      /\ clock db' = clock db
  | (Throw _, db') =>
      budgets db' = budgets db
      /\ expenses db' = expenses db /\ users db' = users db
      /\ clock db' = clock db
  end.
Proof.
  unfold Budget.save, bind.
  destruct (Budget.validate b paths) as [msg|]; [now cbn|].
  pose proof (roundTrip_data Budgets db) as (Hu & He & Hb & _ & _ & Hc).
  destruct (roundTrip Budgets db) as [[[]|e] db1]; cbn in *; auto.
  repeat split; auto. now rewrite Hb.
Qed.

Lemma budget_save_quiet (paths : list Budget.Path) (b : t) (db : DB) :
  Budget.validate b paths = None ->
  faults db Budgets = [] ->
  Budget.save paths b db
  = (Ok (Budget.preSave b),
     set_budgets (Budget.store (Budget.preSave b) (budgets db)) db).
Proof.
  intros Hv Hf. unfold Budget.save, bind. rewrite Hv.
  now rewrite (roundTrip_quiet _ _ Hf).
Qed.

Lemma validate_paths (b : t) (paths : list Budget.Path) :
  Budget.validate b paths = None
  <-> forall p, In p paths -> Budget.validatePath b p = None.
Proof.
  induction paths as [|p rest IH]; cbn [Budget.validate].
  - split; [intros _ p [] | reflexivity].
  - destruct (Budget.validatePath b p) eqn:E.
    + split; [discriminate|]. intros H.
      specialize (H p (or_introl eq_refl)). congruence.
    + rewrite IH. split.
      * intros H q [<-|Hq]; auto.
      * intros H q Hq. apply H. now right.
Qed.

(** A budget that passes the validation of all its paths passes that of the
    paths of any save. *)
Lemma validate_subset (b : t) (origin : Budget.Origin)
  (modified : list Budget.Path) :
  Spec.validBudget b ->
  Budget.validate b (Budget.pathsToValidate origin modified) = None.
Proof.
  intros H. apply Validation.budget_validate_spec in H.
  rewrite validate_paths in *. intros p _. apply H.
  destruct p; cbn; tauto.
Qed.

(** Every save validates the amount. *)
Lemma validated_amount (b : t) (origin : Budget.Origin)
  (modified : list Budget.Path) :
  Budget.validate b (Budget.pathsToValidate origin modified) = None ->
  0 <= amount b.
Proof.
  rewrite validate_paths. intros H.
  specialize (H Budget.p_amount). cbn [Budget.validatePath] in H.
  destruct (Qlt_bool (amount b) 0) eqn:E.
  - assert (Some "Budget amount must be positive" = None) by
      (apply H; destruct origin; cbn; tauto).
    discriminate.
  - now apply Qlt_bool_false_iff in E.
Qed.

Lemma checkThreshold_cases (p : JSNum.t) (now : Z) (th : Threshold) :
  percentage (Budget.checkThreshold p now th) = percentage th
  /\ (triggered th = true -> Budget.checkThreshold p now th = th)
  /\ (triggered th = false ->
        triggered (Budget.checkThreshold p now th) = true ->
        triggeredAt (Budget.checkThreshold p now th) = Some now)
  /\ (triggered (Budget.checkThreshold p now th) = false ->
        Budget.checkThreshold p now th = th).
Proof.
  unfold Budget.checkThreshold.
  destruct (triggered th) eqn:Ht; cbn [negb andb].
  - repeat split; auto; congruence.
  - destruct (JSNum.geb p (percentage th)); cbn; repeat split; auto; congruence.
Qed.

(** C4.  [updateSpent] adds the signed difference to [spent] and clamps the
    result at 0; on a budget that passes the validation of its schema it
    resolves when the database does not fail.  When it resolves, the
    thresholds are the same in number, order and percentage; a threshold that
    was triggered is unchanged; a threshold that was not triggered and now is
    carries the present time as [triggeredAt]; and the document is the one
    stored.  When it rejects, the stored budgets are unchanged.  So no call
    turns a triggered flag from true to false, whatever the amounts. *)
Theorem updateSpent_only_triggers (b : t) (newExpenseAmount oldExpenseAmount : Q)
  (db : DB) :
  (Spec.validBudget b -> faults db Budgets = [] ->
   exists b' db',
     Budget.updateSpent b newExpenseAmount oldExpenseAmount db = (Ok b', db'))
  /\ (forall b' db',
        Budget.updateSpent b newExpenseAmount oldExpenseAmount db = (Ok b', db') ->
        spent b' == Qmax 0 (spent b + (newExpenseAmount - oldExpenseAmount))
        /\ 0 <= spent b'
        /\ (forall i th,
              nth_error (thresholds b) i = Some th ->
              exists th',
                nth_error (thresholds b') i = Some th'
                /\ percentage th' = percentage th
                /\ (triggered th = true -> th' = th)
                /\ (triggered th = false -> triggered th' = true ->
                      triggeredAt th' = Some (clock db))
                /\ (triggered th' = false -> th' = th))
        /\ Spec.storedBudget (_id b) db' = Some b')
  /\ (forall e db',
        Budget.updateSpent b newExpenseAmount oldExpenseAmount db = (Throw e, db') ->
        budgets db' = budgets db).
Proof.
  unfold Budget.updateSpent, bind, new_Date.
  set (delta := newExpenseAmount - oldExpenseAmount).
  set (b1 := set_spent (Qmax 0 (spent b + delta)) b).
  set (b2 := set_thresholds _ b1).
  assert (Hspent : 0 <= spent b2) by (cbn; apply Q.le_max_l).
  split; [|split].
  - intros Hvalid Hquiet.
    rewrite budget_save_quiet; [eauto| |assumption].
    apply validate_subset.
    destruct Hvalid as (Hname & Hlen & Hamount & _ & Hths).
    repeat (split; [assumption|]).
    cbn [thresholds b2 b1 set_thresholds set_spent].
    apply Forall_forall. intros th Hin. apply in_map_iff in Hin.
    destruct Hin as (th0 & <- & Hin0).
    rewrite Forall_forall in Hths.
    destruct (checkThreshold_cases (Budget.percentageUsed b1) (clock db) th0)
      as (-> & _).
    now apply Hths.
  - intros b' db' Hrun.
    pose proof (budget_save_inv
                  (Budget.pathsToValidate Budget.loaded
                     [Budget.p_spent; Budget.p_thresholds]) b2 db) as Hs.
    rewrite Hrun in Hs. destruct Hs as (-> & _ & Hst & _).
    destruct (budget_preSave_fields b2) as (Hid & Hsp & _).
    rewrite Hsp. split; [reflexivity|]. split; [assumption|]. split.
    + intros i th Hnth.
      destruct (budget_preSave_thresholds b2) as [[_ ->]|[Hempty _]].
      * cbn [thresholds b2 set_thresholds]. rewrite nth_error_map.
        cbn [thresholds b1 set_spent]. rewrite Hnth. cbn [option_map].
        eexists. split; [reflexivity|]. apply checkThreshold_cases.
      * cbn [thresholds b2 set_thresholds] in Hempty.
        apply map_eq_nil in Hempty. cbn [thresholds b1 set_spent] in Hempty.
        rewrite Hempty in Hnth. destruct i; discriminate.
    + unfold Spec.storedBudget. rewrite Hst.
      change (_id b) with (_id b2). rewrite <- Hid. apply budget_store_stored.
  - intros e db' Hrun.
    pose proof (budget_save_inv
                  (Budget.pathsToValidate Budget.loaded
                     [Budget.p_spent; Budget.p_thresholds]) b2 db) as Hs.
    rewrite Hrun in Hs. apply Hs.
Qed.

(** The scenario of the specification: limit 1000, 350 spent, thresholds 50
    and 90 triggered; an expense of 600 is deleted.  [spent] is clamped at 0
    and the two thresholds stay triggered. *)
Lemma updateSpent_only_triggers_witness :
  exists b' db',
    Budget.updateSpent (Examples.foodBudget 350 true true false) (- (600)) 0
      Examples.dbBudget = (Ok b', db')
    /\ spent b' == 0
    /\ map triggered (thresholds b') = [true; true; false].
Proof.
  destruct (updateSpent_only_triggers
              (Examples.foodBudget 350 true true false) (- (600)) 0
              Examples.dbBudget) as (Hruns & Hok & _).
  destruct (Hruns (proj1 (Validation.budget_validate_spec
                           (Examples.foodBudget 350 true true false)) eq_refl)
              eq_refl)
    as (b' & db' & Hrun).
  destruct (Hok b' db' Hrun) as (Hspent & _ & Hths & _).
  exists b', db'. split; [exact Hrun|]. split; [rewrite Hspent; reflexivity|].
  destruct (Hths 0%nat _ eq_refl) as (t0 & H0 & _ & K0 & _).
  destruct (Hths 1%nat _ eq_refl) as (t1 & H1 & _ & K1 & _).
  destruct (Hths 2%nat _ eq_refl) as (t2 & H2 & _ & _ & _ & _).
  rewrite (K0 eq_refl) in H0. rewrite (K1 eq_refl) in H1.
  revert Hrun H0 H1 H2. vm_compute. intros Hrun.
  injection Hrun as <- _. reflexivity.
Defined.


Lemma countsToward_matchesBudget (budget : t) (e : ExpenseSchema.t) :
  budgetController.matchesBudget budget e = Spec.countsToward budget e.
Proof.
  unfold budgetController.matchesBudget, Spec.countsToward.
  destruct (Nat.eqb _ _), (category budget) as [c|],
    (ExpenseSchema.Status_eqb _ _), (startDate budget <=? _)%Z,
    (_ <=? endDate budget)%Z;
    try destruct (ExpenseSchema.Category_eqb _ c); reflexivity.
Qed.

(** The [spent] that [recalculateBudgetSpending] assigns. *)
Lemma aggregateTotal_inv (budget : t) (db : DB) :
  match budgetController.aggregateTotal budget db with
  | (Ok totalSpent, db') =>
      match totalSpent with
      | sum :: _ => if Qeq_bool sum 0 then 0 else sum
      | [] => 0
      end == Spec.ledgerSpent budget db
      /\ budgets db' = budgets db /\ expenses db' = expenses db
      /\ clock db' = clock db /\ faults db' Budgets = faults db Budgets
  | (Throw _, db') => True
  end.
Proof.
  unfold budgetController.aggregateTotal, bind, get, Spec.ledgerSpent.
  pose proof (roundTrip_data Expenses db) as (_ & He & Hb & _ & _ & Hc).
  assert (Hf : faults (snd (roundTrip Expenses db)) Budgets = faults db Budgets).
  { unfold roundTrip. destruct (faults db Expenses) as [|[|] rest]; reflexivity. }
  destruct (roundTrip Expenses db) as [[[]|e] db1]; cbn [fst snd] in *; [|exact I].
  rewrite He. rewrite (filter_ext _ _ (countsToward_matchesBudget budget)).
  destruct (filter (Spec.countsToward budget) (expenses db)) as [|e0 l];
    cbn [ret fst snd]; repeat split; auto; try reflexivity.
  destruct (Qeq_bool _ 0) eqn:E; [|reflexivity].
  apply Qeq_bool_iff in E. now rewrite E.
Qed.

Lemma Qmin_le (x y : Q) : x <= y -> Qmin x y = x.
Proof.
  intros H. unfold Qmin, GenericMinMax.gmin.
  destruct (Qcompare x y) eqn:E; try reflexivity.
  apply Qgt_alt in E. lra.
Qed.

(** Below the limit, the percentage that the reset compares is
    [percentageUsed]. *)
Lemma percentage_below_limit (b : t) :
  0 <= amount b -> spent b < amount b ->
  JSNum.mulPos (JSNum.div (spent b) (amount b)) 100 = Budget.percentageUsed b.
Proof.
  intros Ha Hlt. unfold Budget.percentageUsed, JSNum.div.
  destruct (Qeq_bool (amount b) 0) eqn:E.
  - apply Qeq_bool_iff in E.
    assert (Qlt_bool 0 (spent b) = false) as -> by (apply Qlt_bool_false_iff; lra).
    assert (Qlt_bool (spent b) 0 = true) as -> by (apply Qlt_bool_iff; lra).
    reflexivity.
  - apply Qeq_bool_neq in E. cbn [JSNum.mulPos JSNum.minWith].
    f_equal. symmetry. apply GoalFacts.Qmin_gt.
    assert (Hpos : 0 < amount b) by lra.
    assert (spent b / amount b < 1).
    { apply Qlt_shift_div_r; [assumption|lra]. }
    lra.
Qed.

(** At or above the limit, a threshold exceeds [percentageUsed] only if its
    percentage is above 100. *)
Lemma exceeds_at_limit (b : t) (th : Threshold) :
  0 <= amount b -> amount b <= spent b ->
  Spec.exceeds th b -> 100 < percentage th.
Proof.
  intros Ha Hge. unfold Spec.exceeds, Budget.percentageUsed, JSNum.div.
  destruct (Qeq_bool (amount b) 0) eqn:E.
  - apply Qeq_bool_iff in E.
    destruct (Qlt_bool 0 (spent b)) eqn:E1; cbn.
    + now rewrite Qlt_bool_iff.
    + assert (Qlt_bool (spent b) 0 = false) as ->
        by (apply Qlt_bool_false_iff; lra).
      cbn. discriminate.
  - apply Qeq_bool_neq in E. cbn [JSNum.mulPos JSNum.minWith JSNum.ltb].
    assert (Hpos : 0 < amount b) by lra.
    assert (1 <= spent b / amount b).
    { apply Qle_shift_div_l; [assumption|lra]. }
    rewrite Qmin_le by lra. now rewrite Qlt_bool_iff.
Qed.

Lemma resetThreshold_cases (budget : t) (th : Threshold) :
  0 <= amount budget -> spent budget < amount budget ->
  (Spec.exceeds th budget ->
     triggered (budgetController.resetThreshold budget th) = false
     /\ triggeredAt (budgetController.resetThreshold budget th) = None)
  /\ (~ Spec.exceeds th budget ->
        budgetController.resetThreshold budget th = th)
  /\ percentage (budgetController.resetThreshold budget th) = percentage th.
Proof.
  intros Ha Hlt. unfold budgetController.resetThreshold, Spec.exceeds.
  rewrite (percentage_below_limit _ Ha Hlt).
  destruct (JSNum.ltb _ _); cbn; repeat split; auto; congruence.
Qed.

Lemma aggregateTotal_quiet (budget : t) (db : DB) :
  faults db Expenses = [] ->
  exists totalSpent, budgetController.aggregateTotal budget db = (Ok totalSpent, db).
Proof.
  intros Hf. unfold budgetController.aggregateTotal, bind, get.
  rewrite (roundTrip_quiet _ _ Hf).
  destruct (filter _ (expenses db)); eexists; reflexivity.
Qed.

(** On a valid budget the recalculation resolves, when the database does
    not fail and no expense is negative. *)
Lemma recalculate_resolves (origin : Budget.Origin) (budget : t) (db : DB) :
  Spec.validBudget budget ->
  faults db Expenses = [] -> faults db Budgets = [] ->
  (forall e, In e (expenses db) -> 0 <= ExpenseSchema.amount e) ->
  exists b' db',
    budgetController.recalculateBudgetSpending origin budget db = (Ok b', db').
Proof.
  intros Hvalid HqE HqB Hledger.
  unfold budgetController.recalculateBudgetSpending, bind.
  pose proof (aggregateTotal_inv budget db) as Hagg.
  destruct (@aggregateTotal_quiet budget db HqE) as (totalSpent & Hrun).
  rewrite Hrun in *. destruct Hagg as (Hsum & _).
  cbn zeta.
  rewrite budget_save_quiet; [eauto| |assumption].
  apply validate_subset.
  assert (Hnonneg : 0 <= Spec.ledgerSpent budget db).
  { apply Qsum_nonneg, Forall_forall. intros x Hx.
    apply in_map_iff in Hx. destruct Hx as (e & <- & He).
    apply Hledger. apply filter_In in He. tauto. }
  destruct Hvalid as (Hname & Hlen & Hamount & _ & Hths).
  destruct (Qlt_bool _ _) eqn:Hlt;
    repeat (split; [assumption || (cbn [spent set_thresholds set_spent];
                                   now rewrite Hsum)|]);
    cbn [thresholds set_thresholds set_spent]; [|exact Hths].
  apply Forall_forall. intros th Hin. apply in_map_iff in Hin.
  destruct Hin as (th0 & <- & Hin0).
  rewrite Forall_forall in Hths.
  replace (percentage (budgetController.resetThreshold _ th0))
    with (percentage th0)
    by (unfold budgetController.resetThreshold;
        now destruct (JSNum.ltb _ _)).
  now apply Hths.
Qed.







(** C5.  On a budget that passes the validation of its schema,
    [recalculateBudgetSpending] resolves when the database does not fail and
    no expense is negative.  When it resolves, [spent] is the sum of the
    completed expenses of the owner that match the category and lie in the
    window; every threshold whose percentage strictly exceeds the recomputed
    [percentageUsed] is untriggered with [triggeredAt] cleared; every other
    threshold is as it was; and the document is the one stored.  This covers
    the case in which the recomputed [spent] reaches the limit: a threshold
    then exceeds [percentageUsed] only above 100 percent, which the
    validation of a loaded budget excludes (for a budget that the request
    created, whose thresholds the save may leave unvalidated, such thresholds
    are taken to be untriggered). *)
Theorem recalculate_resets_thresholds (origin : Budget.Origin) (budget : t)
  (db : DB) :
  (origin = Budget.created ->
   forall th, In th (thresholds budget) -> 100 < percentage th ->
     triggered th = false /\ triggeredAt th = None) ->
  (Spec.validBudget budget ->
   faults db Expenses = [] -> faults db Budgets = [] ->
   (forall e, In e (expenses db) -> 0 <= ExpenseSchema.amount e) ->
   exists b' db',
     budgetController.recalculateBudgetSpending origin budget db = (Ok b', db'))
  /\ (forall b' db',
        budgetController.recalculateBudgetSpending origin budget db = (Ok b', db') ->
        spent b' == Spec.ledgerSpent budget db
        /\ (forall th', In th' (thresholds b') -> Spec.exceeds th' b' ->
              triggered th' = false /\ triggeredAt th' = None)
        /\ (forall i th, nth_error (thresholds budget) i = Some th ->
              ~ Spec.exceeds th b' ->
              nth_error (thresholds b') i = Some th)
        /\ Spec.storedBudget (_id budget) db' = Some b').
Proof.
  intros Habove.
  split; [apply recalculate_resolves|].
  unfold budgetController.recalculateBudgetSpending, bind.
  pose proof (aggregateTotal_inv budget db) as Hagg.
  - intros b' db'.
    destruct (budgetController.aggregateTotal budget db)
      as [[totalSpent|e] db1]; [|discriminate].
    destruct Hagg as (Hsum & Hb & _).
    set (s := match totalSpent with
              | sum :: _ => if Qeq_bool sum 0 then 0 else sum
              | [] => 0
              end) in *.
    set (b1 := set_spent s budget).
    intros Hrun.
    match type of Hrun with
    | Budget.save ?ps ?b2 db1 = _ =>
        pose proof (budget_save_inv ps b2 db1) as Hs; rewrite Hrun in Hs;
        set (saved := b2) in *
    end.
    destruct Hs as (-> & Hv & Hst & _).
    destruct (budget_preSave_fields saved) as (Hid & Hsp & Ham & _).
    assert (Hsaved : _id saved = _id budget /\ spent saved = s
                     /\ amount saved = amount budget).
    { subst saved. destruct (Qlt_bool _ _); repeat split. }
    destruct Hsaved as (Hid' & Hsp' & Ham').
    assert (Hamount : 0 <= amount budget).
    { rewrite <- Ham'. eapply validated_amount. exact Hv. }
    assert (Hvths : origin = Budget.loaded ->
                    Forall (fun th => 1 <= percentage th /\ percentage th <= 100)
                      (thresholds saved)).
    { intros ->. cbn [Budget.pathsToValidate] in Hv.
      apply Validation.budget_validate_spec in Hv. apply Hv. }
    clear Hv.
    assert (Hexc : forall th, Spec.exceeds th (Budget.preSave saved)
                              <-> Spec.exceeds th b1).
    { intros th. unfold Spec.exceeds. rewrite percentageUsed_preSave.
      unfold Budget.percentageUsed. rewrite Hsp', Ham'. reflexivity. }
    split; [rewrite Hsp, Hsp'; exact Hsum|].
    split; [|split].
    + intros th' Hin Hex. apply Hexc in Hex.
      destruct (budget_preSave_thresholds saved) as [[_ Hsame]|[_ Hnew]];
        [|now apply Hnew].
      rewrite Hsame in Hin. subst saved. revert Hvths.
      destruct (Qlt_bool (spent b1) (amount b1)) eqn:Hlt; intros Hvths.
      * apply Qlt_bool_iff in Hlt. cbn [thresholds set_thresholds] in Hin.
        apply in_map_iff in Hin. destruct Hin as (th & <- & Hin).
        destruct (@resetThreshold_cases b1 th Hamount Hlt) as (Hreset & Hkeep & Hp).
        destruct (JSNum.ltb (Budget.percentageUsed b1) (percentage th)) eqn:Ex.
        -- now apply Hreset.
        -- rewrite Hkeep in Hex by (unfold Spec.exceeds; congruence).
           unfold Spec.exceeds in Hex. congruence.
      * apply Qlt_bool_false_iff in Hlt.
        assert (Hbig : 100 < percentage th')
          by (eapply exceeds_at_limit; [| |exact Hex]; assumption).
        destruct origin.
        -- exfalso. specialize (Hvths eq_refl).
           rewrite Forall_forall in Hvths.
           destruct (Hvths th' Hin) as [_ Hle]. lra.
        -- now apply Habove.
    + intros i th Hnth Hnot.
      assert (Hnot1 : ~ Spec.exceeds th b1) by (intros H; apply Hnot, Hexc, H).
      destruct (budget_preSave_thresholds saved) as [[_ ->]|[Hempty _]].
      * subst saved. destruct (Qlt_bool (spent b1) (amount b1)) eqn:Hlt.
        -- apply Qlt_bool_iff in Hlt. cbn [thresholds set_thresholds].
           rewrite nth_error_map. cbn [thresholds b1 set_spent].
           rewrite Hnth. cbn [option_map]. f_equal.
           now apply resetThreshold_cases.
        -- exact Hnth.
      * exfalso. subst saved. destruct (Qlt_bool (spent b1) (amount b1)).
        -- cbn [thresholds set_thresholds] in Hempty.
           apply map_eq_nil in Hempty. cbn [thresholds b1 set_spent] in Hempty.
           rewrite Hempty in Hnth. destruct i; discriminate.
        -- cbn [thresholds b1 set_spent] in Hempty.
           rewrite Hempty in Hnth. destruct i; discriminate.
    + unfold Spec.storedBudget. rewrite Hst, <- Hid', <- Hid.
      apply budget_store_stored.
Qed.

(** The scenario of the specification: 350 left in the ledger, thresholds 50
    and 90 triggered; the recompute sets [spent] to 350 and clears both. *)
Lemma recalculate_resets_thresholds_witness :
  exists b' db',
    budgetController.recalculateBudgetSpending Budget.loaded
      (Examples.foodBudget 350 true true false) Examples.dbBudget = (Ok b', db')
    /\ spent b' == 350
    /\ forall th', In th' (thresholds b') -> triggered th' = false.
Proof.
  destruct (@recalculate_resets_thresholds Budget.loaded
              (Examples.foodBudget 350 true true false) Examples.dbBudget)
    as (Hruns & Hok).
  - discriminate.
  - destruct Hruns as (b' & db' & Hrun); try reflexivity.
    { apply (Validation.budget_validate_spec
               (Examples.foodBudget 350 true true false)). reflexivity. }
    { intros e [<-|[]]. discriminate. }
    destruct (Hok b' db' Hrun) as (Hspent & Hreset & Hkeep & _).
    exists b', db'. split; [exact Hrun|]. split; [rewrite Hspent; reflexivity|].
    intros th' Hin. apply Hreset; [exact Hin|].
    revert Hin. vm_compute in Hrun. injection Hrun as <- _.
    intros [<-|[<-|[<-|[]]]]; reflexivity.
Defined.

End BudgetFacts.

(** ** Budgets: deletion *)

Module BudgetDeletion.
Import BudgetSchema.

Lemma filter_removes (id : nat) (l : list t) :
  find (fun b => Nat.eqb (_id b) id)
       (filter (fun b0 => negb (Nat.eqb (_id b0) id)) l) = None.
Proof.
  induction l as [|b rest IH]; cbn [filter find]; [reflexivity|].
  destruct (Nat.eqb (_id b) id) eqn:E; cbn [negb find]; [assumption|].
  now rewrite E.
Qed.

Lemma filter_keeps_others (id id' : nat) (l : list t) :
  id' <> id ->
  find (fun b => Nat.eqb (_id b) id')
       (filter (fun b0 => negb (Nat.eqb (_id b0) id)) l)
  = find (fun b => Nat.eqb (_id b) id') l.
Proof.
  intros Hne. induction l as [|b rest IH]; cbn [filter find]; [reflexivity|].
  destruct (Nat.eqb (_id b) id) eqn:E; cbn [negb find].
  - apply Nat.eqb_eq in E.
    destruct (Nat.eqb (_id b) id') eqn:E'; [|assumption].
    apply Nat.eqb_eq in E'. congruence.
  - now rewrite IH.
Qed.

(** C8, as amended.  [deleteBudget] on a budget of the caller removes the
    document from the collection: the handler answers 200, no budget with
    that [_id] is stored afterwards, and the other budgets are as they
    were. *)
Theorem deleteBudget_removes_document (userId id : nat) (db : DB) (b : t) :
  faults db Budgets = [] ->
  find (fun b => Nat.eqb (_id b) id && Nat.eqb (user b) userId) (budgets db)
  = Some b ->
  exists db',
    budgetController.deleteBudget userId id db = (Ok (respond 200 tt), db')
    /\ budgets db' = filter (fun b0 => negb (Nat.eqb (_id b0) id)) (budgets db)
    /\ Spec.storedBudget id db' = None
    /\ forall id', id' <> id -> Spec.storedBudget id' db' = Spec.storedBudget id' db.
Proof.
  intros Hquiet Hfound.
  assert (Hid : _id b = id).
  { apply find_some in Hfound. destruct Hfound as [_ E].
    apply andb_prop in E. now apply Nat.eqb_eq. }
  unfold budgetController.deleteBudget, Budget.findOne, Budget.deleteOne,
    bind, get, ret, modify.
  rewrite (roundTrip_quiet _ _ Hquiet). rewrite Hfound.
  rewrite (roundTrip_quiet _ _ Hquiet). rewrite Hid.
  eexists. split; [reflexivity|]. unfold Spec.storedBudget. cbn [budgets set_budgets].
  split; [reflexivity|]. split.
  - apply filter_removes.
  - intros id' Hne. now apply filter_keeps_others.
Qed.

Lemma deleteBudget_removes_document_witness :
  exists db',
    budgetController.deleteBudget 1 20 Examples.dbBudget
    = (Ok (respond 200 tt), db')
    /\ budgets db' = []
    /\ Spec.storedBudget 20 db' = None
    /\ forall id', id' <> 20%nat ->
         Spec.storedBudget id' db' = Spec.storedBudget id' Examples.dbBudget.
Proof.
  apply (@deleteBudget_removes_document 1 20 Examples.dbBudget
           (Examples.foodBudget 350 true true false)); reflexivity.
Defined.

(** The claim as it was stated fails: after [deleteBudget] there is no
    stored budget 20, deactivated or not. *)
Lemma deleteBudget_keeps_no_record :
  ~ (exists b,
       Spec.storedBudget 20
         (snd (budgetController.deleteBudget 1 20 Examples.dbBudget)) = Some b
       /\ isActive b = false).
Proof.
  intros (b & Hst & _). vm_compute in Hst. discriminate.
Qed.

End BudgetDeletion.

(** ** Expenses: the budget update cannot fail the mutation *)

Module ExpenseMutations.
Import ExpenseSchema.

Lemma sameLedger_refl (db : DB) : Spec.sameLedger db db.
Proof. repeat split. Qed.

Lemma sameLedger_sym (db1 db2 : DB) :
  Spec.sameLedger db1 db2 -> Spec.sameLedger db2 db1.
Proof.
  intros (Hu & He & Hg & Hn & Hc & Hf). repeat split; auto.
  intros c Hne. symmetry. now apply Hf.
Qed.

Lemma sameLedger_trans (db1 db2 db3 : DB) :
  Spec.sameLedger db1 db2 -> Spec.sameLedger db2 db3 ->
  Spec.sameLedger db1 db3.
Proof.
  intros (Hu & He & Hg & Hn & Hc & Hf) (Hu' & He' & Hg' & Hn' & Hc' & Hf').
  repeat split; try congruence.
  intros c Hne. rewrite Hf, Hf'; auto.
Qed.

Lemma ledgerOnly_ret {A : Type} (a : A) : Spec.ledgerOnly (ret a).
Proof. intros db1 db2 H. now split. Qed.

Lemma ledgerOnly_throw {A : Type} (e : Error) : Spec.ledgerOnly (@throw A e).
Proof. intros db1 db2 H. now split. Qed.

Lemma ledgerOnly_bind {A B : Type} (c : M A) (k : A -> M B) :
  Spec.ledgerOnly c -> (forall a, Spec.ledgerOnly (k a)) ->
  Spec.ledgerOnly (bind c k).
Proof.
  intros Hc Hk db1 db2 H. destruct (Hc db1 db2 H) as [Hr Hs]. unfold bind.
  destruct (c db1) as [[a|e] d1], (c db2) as [[a'|e'] d2]; cbn in *;
    try discriminate.
  - injection Hr as <-. now apply Hk.
  - injection Hr as <-. now split.
Qed.

Lemma ledgerOnly_new_Date : Spec.ledgerOnly new_Date.
Proof.
  intros db1 db2 H. unfold new_Date. cbn. split; [|exact H].
  f_equal. apply H.
Qed.

Lemma ledgerOnly_freshId : Spec.ledgerOnly freshId.
Proof.
  intros db1 db2 (Hu & He & Hg & Hn & Hc & Hf). unfold freshId. cbn.
  rewrite Hn. repeat split; auto.
Qed.

Lemma ledgerOnly_roundTrip (c : Coll) : c <> Budgets -> Spec.ledgerOnly (roundTrip c).
Proof.
  intros Hne db1 db2 (Hu & He & Hg & Hn & Hc & Hf). unfold roundTrip.
  rewrite (Hf c Hne).
  destruct (faults db2 c) as [|[|] rest]; cbn [fst snd];
    (split; [reflexivity|]); repeat split; auto;
    intros c' Hne'; cbn; destruct (Coll_eqb c' c); auto.
Qed.

(** A read of the ledger. *)
Lemma ledgerOnly_read {A : Type} (h : DB -> A) :
  (forall db1 db2, Spec.sameLedger db1 db2 -> h db1 = h db2) ->
  Spec.ledgerOnly (bind get (fun db => ret (h db))).
Proof.
  intros Hh db1 db2 H. cbn. split; [|exact H]. f_equal. now apply Hh.
Qed.

(** A write to the ledger. *)
Lemma ledgerOnly_modify (f : DB -> DB) :
  (forall db1 db2, Spec.sameLedger db1 db2 -> Spec.sameLedger (f db1) (f db2)) ->
  Spec.ledgerOnly (modify f).
Proof. intros Hf db1 db2 H. cbn. split; [reflexivity|now apply Hf]. Qed.

Lemma ledgerOnly_findById (id : nat) : Spec.ledgerOnly (User.findById id).
Proof.
  unfold User.findById.
  apply ledgerOnly_bind; [apply ledgerOnly_roundTrip; discriminate|].
  intros _. apply (ledgerOnly_read (fun db => find _ (users db))).
  intros db1 db2 H. f_equal. apply H.
Qed.

Lemma ledgerOnly_incTotalExpenses (id : nat) (n : Z) :
  Spec.ledgerOnly (User.findByIdAndUpdate_incTotalExpenses id n).
Proof.
  unfold User.findByIdAndUpdate_incTotalExpenses.
  apply ledgerOnly_bind; [apply ledgerOnly_roundTrip; discriminate|].
  intros _. apply ledgerOnly_modify.
  intros db1 db2 (Hu & He & Hg & Hn & Hc & Hf). cbn. rewrite Hu.
  repeat split; auto.
Qed.

Lemma ledgerOnly_save (paths : list Expense.Path) (e : t) :
  Spec.ledgerOnly (Expense.save paths e).
Proof.
  unfold Expense.save. destruct (Expense.validate e paths).
  - apply ledgerOnly_throw.
  - apply ledgerOnly_bind; [apply ledgerOnly_roundTrip; discriminate|].
    intros _. apply ledgerOnly_bind; [|intros _; apply ledgerOnly_ret].
    apply ledgerOnly_modify.
    intros db1 db2 (Hu & He & Hg & Hn & Hc & Hf). cbn. rewrite He.
    repeat split; auto.
Qed.

Lemma ledgerOnly_create (userId : nat) (amt : Q) (descr : string)
  (cat : Category) (when : Z) :
  Spec.ledgerOnly (Expense.create userId amt descr cat when).
Proof.
  unfold Expense.create.
  apply ledgerOnly_bind; [apply ledgerOnly_freshId|].
  intros id. apply ledgerOnly_save.
Qed.

Lemma ledgerOnly_findOne (q : t -> bool) : Spec.ledgerOnly (Expense.findOne q).
Proof.
  unfold Expense.findOne.
  apply ledgerOnly_bind; [apply ledgerOnly_roundTrip; discriminate|].
  intros _. apply (ledgerOnly_read (fun db => find q (expenses db))).
  intros db1 db2 H. f_equal. apply H.
Qed.

Lemma ledgerOnly_deleteOne (e : t) : Spec.ledgerOnly (Expense.deleteOne e).
Proof.
  unfold Expense.deleteOne.
  apply ledgerOnly_bind; [apply ledgerOnly_roundTrip; discriminate|].
  intros _. apply ledgerOnly_modify.
  intros db1 db2 (Hu & He & Hg & Hn & Hc & Hf). cbn. rewrite He.
  repeat split; auto.
Qed.

(** The budget operations leave the ledger as it is. *)
Lemma roundTrip_Budgets_ledger (db : DB) :
  Spec.sameLedger db (snd (roundTrip Budgets db)).
Proof.
  unfold roundTrip. destruct (faults db Budgets) as [|[|] rest]; cbn;
    repeat split; auto; intros c Hne; destruct c; cbn; congruence.
Qed.

Lemma bind_ledger {A B : Type} (c : M A) (k : A -> M B) :
  (forall db, Spec.sameLedger db (snd (c db))) ->
  (forall a db, Spec.sameLedger db (snd (k a db))) ->
  forall db, Spec.sameLedger db (snd (bind c k db)).
Proof.
  intros Hc Hk db. unfold bind. specialize (Hc db).
  destruct (c db) as [[a|e] db1]; cbn in *; [|assumption].
  eapply sameLedger_trans; [eassumption|apply Hk].
Qed.

Lemma findOne_ledger (q : BudgetSchema.t -> bool) (db : DB) :
  Spec.sameLedger db (snd (Budget.findOne q db)).
Proof.
  unfold Budget.findOne. apply bind_ledger.
  - apply roundTrip_Budgets_ledger.
  - intros _ db1. cbn. apply sameLedger_refl.
Qed.

Lemma budget_save_ledger (paths : list Budget.Path) (b : BudgetSchema.t) (db : DB) :
  Spec.sameLedger db (snd (Budget.save paths b db)).
Proof.
  unfold Budget.save. destruct (Budget.validate b paths).
  - cbn. apply sameLedger_refl.
  - apply bind_ledger; [apply roundTrip_Budgets_ledger|].
    intros _ db1. cbn. repeat split.
Qed.

Lemma updateSpent_ledger (b : BudgetSchema.t) (x y : Q) (db : DB) :
  Spec.sameLedger db (snd (Budget.updateSpent b x y db)).
Proof.
  unfold Budget.updateSpent, bind at 1, new_Date. apply budget_save_ledger.
Qed.

Lemma updateOne_ledger (found : option BudgetSchema.t) (amt : Q) (db : DB) :
  Spec.sameLedger db
    (snd (match found with
          | Some b => bind (Budget.updateSpent b amt 0) (fun _ => ret tt)
          | None => ret tt
          end db)).
Proof.
  destruct found as [b|]; [|apply sameLedger_refl].
  apply bind_ledger; [apply updateSpent_ledger|].
  intros _ db1. apply sameLedger_refl.
Qed.

(** The helper never throws, and leaves the ledger as it is. *)
Lemma updateBudgetSpending_resolves (userId : nat) (cat : Category) (amt : Q)
  (db : DB) :
  exists db',
    expenseController.updateBudgetSpending userId cat amt db = (Ok tt, db')
    /\ Spec.sameLedger db db'.
Proof.
  unfold expenseController.updateBudgetSpending, tryCatch.
  match goal with
  | |- context [match ?body db with _ => _ end] =>
      assert (Hl : Spec.sameLedger db (snd (body db)));
      [|destruct (body db) as [[[]|e] db1]; cbn in Hl; eexists; split;
        try reflexivity; assumption]
  end.
  unfold bind at 1, new_Date at 1.
  apply bind_ledger; [apply findOne_ledger|]. intros categoryBudget.
  apply bind_ledger; [apply updateOne_ledger|]. intros _.
  apply bind_ledger; [apply findOne_ledger|]. intros totalBudget.
  apply updateOne_ledger.
Qed.

Lemma ledgerOnly_updateBudgetSpending (userId : nat) (cat : Category) (amt : Q) :
  Spec.ledgerOnly (expenseController.updateBudgetSpending userId cat amt).
Proof.
  intros db1 db2 H.
  destruct (updateBudgetSpending_resolves userId cat amt db1) as (d1 & -> & H1).
  destruct (updateBudgetSpending_resolves userId cat amt db2) as (d2 & -> & H2).
  split; [reflexivity|]. cbn [snd].
  apply (@sameLedger_trans d1 db1 d2); [now apply sameLedger_sym|].
  now apply (@sameLedger_trans db1 db2 d2).
Qed.

Ltac ledger :=
  repeat first
    [ apply ledgerOnly_ret
    | apply ledgerOnly_throw
    | apply ledgerOnly_new_Date
    | apply ledgerOnly_findById
    | apply ledgerOnly_incTotalExpenses
    | apply ledgerOnly_create
    | apply ledgerOnly_save
    | apply ledgerOnly_findOne
    | apply ledgerOnly_deleteOne
    | apply ledgerOnly_updateBudgetSpending
    | apply ledgerOnly_roundTrip; discriminate
    | apply ledgerOnly_bind; [|intros ?]
    | match goal with
      | |- Spec.ledgerOnly (if ?c then _ else _) => destruct c
      | |- Spec.ledgerOnly (match ?x with Some _ => _ | None => _ end) =>
          destruct x
      end ].

Lemma ledgerOnly_createExpense (userId : nat)
  (body : expenseController.CreateExpenseBody) :
  Spec.ledgerOnly (expenseController.createExpense userId body).
Proof.
  unfold expenseController.createExpense.
  destruct (expenseController.ce_amount body),
    (expenseController.ce_category body); ledger.
Qed.

Lemma ledgerOnly_updateExpense (userId id : nat)
  (body : expenseController.UpdateExpenseBody) :
  Spec.ledgerOnly (expenseController.updateExpense userId id body).
Proof. unfold expenseController.updateExpense. ledger. Qed.

Lemma ledgerOnly_deleteExpense (userId id : nat) :
  Spec.ledgerOnly (expenseController.deleteExpense userId id).
Proof. unfold expenseController.deleteExpense. ledger. Qed.

Lemma withBudgetFaults_ledger (f : list bool) (db : DB) :
  Spec.sameLedger (Spec.withBudgetFaults f db) db.
Proof.
  repeat split. intros c Hne. cbn. destruct c; cbn; congruence.
Qed.


(** When the first round trip of the helper fails, the budgets stay as they
    were. *)
Lemma updateBudgetSpending_stale (userId : nat) (cat : Category) (amt : Q)
  (db : DB) (rest : list bool) :
  faults db Budgets = true :: rest ->
  budgets (snd (expenseController.updateBudgetSpending userId cat amt db))
  = budgets db.
Proof.
  intros Hf.
  unfold expenseController.updateBudgetSpending, tryCatch, bind, new_Date,
    Budget.findOne, bind, roundTrip.
  rewrite Hf. reflexivity.
Qed.

Lemma ledgerOnly_budget_faults {A : Type} (c : M A) (f : list bool) (db : DB) :
  Spec.ledgerOnly c ->
  fst (c (Spec.withBudgetFaults f db)) = fst (c db)
  /\ expenses (snd (c (Spec.withBudgetFaults f db))) = expenses (snd (c db))
  /\ users (snd (c (Spec.withBudgetFaults f db))) = users (snd (c db)).
Proof.
  intros Hc.
  destruct (Hc _ _ (withBudgetFaults_ledger f db)) as (Hr & Hu & He & _).
  auto.
Qed.

(** C10.  The helper [updateBudgetSpending] never throws, whatever faults
    the budget collection meets, and it leaves the ledger as it is; when its
    first round trip fails, the budgets stay as they were (stale).  So for
    every expense create, update and delete, the response of the handler and
    the expenses and users it leaves are the same under any schedule of
    budget faults as under the schedule at hand: a failure while adjusting a
    budget never turns a successful expense mutation into a failed one. *)
Theorem budget_failures_are_swallowed :
  (forall userId cat amt db,
     exists db',
       expenseController.updateBudgetSpending userId cat amt db = (Ok tt, db')
       /\ Spec.sameLedger db db')
  /\ (forall userId cat amt db rest,
        faults db Budgets = true :: rest ->
        budgets (snd (expenseController.updateBudgetSpending userId cat amt db))
        = budgets db)
  /\ (forall userId body f db,
        fst (expenseController.createExpense userId body (Spec.withBudgetFaults f db))
        = fst (expenseController.createExpense userId body db)
        /\ expenses (snd (expenseController.createExpense userId body
                            (Spec.withBudgetFaults f db)))
           = expenses (snd (expenseController.createExpense userId body db))
        /\ users (snd (expenseController.createExpense userId body
                         (Spec.withBudgetFaults f db)))
           = users (snd (expenseController.createExpense userId body db)))
  /\ (forall userId id body f db,
        fst (expenseController.updateExpense userId id body (Spec.withBudgetFaults f db))
        = fst (expenseController.updateExpense userId id body db)
        /\ expenses (snd (expenseController.updateExpense userId id body
                            (Spec.withBudgetFaults f db)))
           = expenses (snd (expenseController.updateExpense userId id body db))
        /\ users (snd (expenseController.updateExpense userId id body
                         (Spec.withBudgetFaults f db)))
           = users (snd (expenseController.updateExpense userId id body db)))
  /\ (forall userId id f db,
        fst (expenseController.deleteExpense userId id (Spec.withBudgetFaults f db))
        = fst (expenseController.deleteExpense userId id db)
        /\ expenses (snd (expenseController.deleteExpense userId id
                            (Spec.withBudgetFaults f db)))
           = expenses (snd (expenseController.deleteExpense userId id db))
        /\ users (snd (expenseController.deleteExpense userId id
                         (Spec.withBudgetFaults f db)))
           = users (snd (expenseController.deleteExpense userId id db))).
Proof.
  split; [exact updateBudgetSpending_resolves|].
  split; [exact updateBudgetSpending_stale|].
  split; [|split].
  - intros userId body f db.
    apply ledgerOnly_budget_faults, ledgerOnly_createExpense.
  - intros userId id body f db.
    apply ledgerOnly_budget_faults, ledgerOnly_updateExpense.
  - intros userId id f db.
    apply ledgerOnly_budget_faults, ledgerOnly_deleteExpense.
Qed.

(** A lunch of 40 is recorded while the budget collection is down: the
    budget stays at 350, and the handler answers as it does when the
    collection is up. *)
Lemma budget_failures_are_swallowed_witness :
  budgets (snd (expenseController.updateBudgetSpending 1 food 40
                  (Spec.withBudgetFaults [true] Examples.dbBudget)))
  = budgets Examples.dbBudget
  /\ fst (expenseController.createExpense 1 (Examples.lunchBody 40)
            (Spec.withBudgetFaults [true] Examples.dbBudget))
     = fst (expenseController.createExpense 1 (Examples.lunchBody 40)
              Examples.dbBudget).
Proof.
  destruct budget_failures_are_swallowed as (_ & Hstale & Hcreate & _).
  split.
  - exact (Hstale 1%nat food 40
             (Spec.withBudgetFaults [true] Examples.dbBudget) [] eq_refl).
  - apply Hcreate.
Defined.

Example lunch_while_budgets_are_down :
  (exists e db',
     expenseController.createExpense 1 (Examples.lunchBody 40)
       (Spec.withBudgetFaults [true] Examples.dbBudget)
     = (Ok (respond 201 e), db')
     /\ expenses db' = [Examples.lunch 31 350; e]
     /\ map BudgetSchema.spent (budgets db') = [350])
  /\ (exists e db',
        expenseController.createExpense 1 (Examples.lunchBody 40)
          Examples.dbBudget
        = (Ok (respond 201 e), db')
        /\ expenses db' = [Examples.lunch 31 350; e]
        /\ map BudgetSchema.spent (budgets db') = [390]).
Proof.
  split; eexists _, _; (split; [vm_compute; reflexivity|]);
    split; vm_compute; reflexivity.
Qed.

End ExpenseMutations.

(** ** Budgets: convergence of the two paths *)

Module Convergence.
Import BudgetSchema.

Section WithCalendar.
Context {calendar : Calendar}.

(** C1, on the code.  User 1 creates a food budget of 1000 and records a
    lunch of 350: the stored [spent] is 350, which is what the ledger says.
    The lunch is then cancelled by [PUT /api/expenses/:id] with the body
    [{ status: 'cancelled' }]: the handler answers 200 and applies no delta,
    so the incrementally maintained [spent] is still 350, while
    [recalculateBudgetSpending] on the same state gives 0. *)
Theorem status_update_breaks_convergence :
  let db1 := snd (budgetController.createBudget 1 Examples.foodBudgetBody Examples.db0) in
  let db2 := snd (expenseController.createExpense 1 (Examples.lunchBody 350) db1) in
  let answer := expenseController.updateExpense 1 101 Examples.cancelBody db2 in
  let db3 := snd answer in
  (exists b2, Spec.storedBudget 100 db2 = Some b2
              /\ spent b2 == 350 /\ Spec.ledgerSpent b2 db2 == 350)
  /\ (exists e, fst answer = Ok (respond 200 e)
                /\ ExpenseSchema.status e = ExpenseSchema.cancelled)
  /\ (exists b3 b4 db4,
        Spec.storedBudget 100 db3 = Some b3
        /\ budgetController.recalculateBudgetSpending Budget.loaded b3 db3
           = (Ok b4, db4)
        /\ spent b3 == 350
        /\ Spec.ledgerSpent b3 db3 == 0
        /\ spent b4 == 0
        /\ ~ spent b4 == spent b3).
Proof.
  cbv zeta. split; [|split].
  - eexists. split; [vm_compute; reflexivity|].
    split; vm_compute; reflexivity.
  - eexists. split; [vm_compute; reflexivity|reflexivity].
  - eexists _, _, _. split; [vm_compute; reflexivity|].
    split; [vm_compute; reflexivity|].
    repeat split; try (vm_compute; reflexivity).
    vm_compute. discriminate.
Qed.

End WithCalendar.
End Convergence.

(** ** Budgets: convergence on sequences that keep the status *)

Module ConvergenceFacts.
Import ExpenseSchema.

Lemma Category_eqb_eq (a b : Category) : Category_eqb a b = true <-> a = b.
Proof. destruct a, b; cbn; split; congruence. Qed.

Lemma Category_eqb_refl (a : Category) : Category_eqb a a = true.
Proof. now apply Category_eqb_eq. Qed.


(** *** Sums over the ledger *)












(** *** Computations on a quiet database *)










(** *** The middleware of an expense *)




(** *** The budget under [updateBudgetSpending] *)






(** *** The lag of [spent] behind the ledger *)















(** *** The three handlers *)








Lemma ledgerSpent_expenses (b0 : BudgetSchema.t) (db db' : DB) :
  expenses db' = expenses db -> Spec.ledgerSpent b0 db' = Spec.ledgerSpent b0 db.
Proof. intros H. unfold Spec.ledgerSpent. now rewrite H. Qed.



(** *** Sequences of requests *)





(** What [recalculateBudgetSpending] assigns to [spent]. *)
Lemma recalculate_spent (origin : Budget.Origin) (b b' : BudgetSchema.t)
  (db db' : DB) :
  budgetController.recalculateBudgetSpending origin b db = (Ok b', db') ->
  BudgetSchema.spent b' == Spec.ledgerSpent b db.
Proof.
  unfold budgetController.recalculateBudgetSpending, bind.
  pose proof (BudgetFacts.aggregateTotal_inv b db) as Hagg.
  destruct (budgetController.aggregateTotal b db) as [[totalSpent|e] db1];
    [|discriminate].
  destruct Hagg as (Hsum & _). intros Hrun.
  match type of Hrun with
  | Budget.save ?ps ?b2 db1 = _ =>
      pose proof (BudgetFacts.budget_save_inv ps b2 db1) as Hs;
      rewrite Hrun in Hs; destruct Hs as (-> & _);
      destruct (BudgetFacts.budget_preSave_fields b2) as (_ & -> & _)
  end.
  destruct (Qlt_bool _ _); exact Hsum.
Qed.



End ConvergenceFacts.


(** ** Rejected requests *)

Module Rejections.
Import Behaviour.

Lemma sameDocuments_refl (db : DB) : sameDocuments db db.
Proof. repeat split. Qed.

Lemma sameDocuments_trans (db1 db2 db3 : DB) :
  sameDocuments db1 db2 -> sameDocuments db2 db3 -> sameDocuments db1 db3.
Proof.
  intros (a1 & a2 & a3 & a4) (b1 & b2 & b3 & b4).
  repeat split; congruence.
Qed.

Lemma readOnly_ret {A : Type} (a : A) : readOnly (ret a).
Proof. intros db. apply sameDocuments_refl. Qed.

Lemma readOnly_throw {A : Type} (e : Error) : readOnly (@throw A e).
Proof. intros db. apply sameDocuments_refl. Qed.

Lemma readOnly_new_Date : readOnly new_Date.
Proof. intros db. apply sameDocuments_refl. Qed.

Lemma readOnly_get : readOnly get.
Proof. intros db. apply sameDocuments_refl. Qed.

Lemma readOnly_roundTrip (c : Coll) : readOnly (roundTrip c).
Proof.
  intros db. destruct (roundTrip_data c db) as (a & b & d & e & _).
  repeat split; assumption.
Qed.

Lemma readOnly_bind {A B : Type} (c : M A) (k : A -> M B) :
  readOnly c -> (forall a, readOnly (k a)) -> readOnly (bind c k).
Proof.
  intros Hc Hk db. unfold bind. specialize (Hc db).
  destruct (c db) as [[a|e] db1]; cbn [snd] in *; [|assumption].
  eapply sameDocuments_trans; [exact Hc | apply Hk].
Qed.

Lemma noApiError_ret {A : Type} (a : A) : noApiError (ret a).
Proof. intros db code msg. discriminate. Qed.

Lemma noApiError_new_Date : noApiError new_Date.
Proof. intros db code msg. discriminate. Qed.

Lemma noApiError_get : noApiError get.
Proof. intros db code msg. discriminate. Qed.

Lemma noApiError_freshId : noApiError freshId.
Proof. intros db code msg. discriminate. Qed.

Lemma noApiError_modify (f : DB -> DB) : noApiError (modify f).
Proof. intros db code msg. discriminate. Qed.

Lemma noApiError_roundTrip (c : Coll) : noApiError (roundTrip c).
Proof.
  intros db code msg. destruct (roundTrip_result c db) as [H|H];
    rewrite H; discriminate.
Qed.

Lemma noApiError_bind {A B : Type} (c : M A) (k : A -> M B) :
  noApiError c -> (forall a, noApiError (k a)) -> noApiError (bind c k).
Proof.
  intros Hc Hk db code msg. unfold bind. specialize (Hc db code msg).
  destruct (c db) as [[a|e] db1]; cbn [fst] in *; [apply Hk|].
  intros E. apply Hc. congruence.
Qed.

Lemma noApiError_tryCatch {A : Type} (body : M A) (handler : Error -> M A) :
  (forall e, noApiError (handler e)) -> noApiError (tryCatch body handler).
Proof.
  intros Hh db code msg. unfold tryCatch.
  destruct (body db) as [[a|e] db1]; cbn [fst]; [discriminate | apply Hh].
Qed.

Lemma noApiError_forOf {A B : Type} (xs : list A) (body : A -> M B) :
  (forall x, noApiError (body x)) -> noApiError (forOf xs body).
Proof.
  intros Hb. induction xs as [|x rest IH]; cbn [forOf].
  - apply noApiError_ret.
  - apply noApiError_bind; [apply Hb|]. intros r.
    apply noApiError_bind; [apply IH|]. intros rs. apply noApiError_ret.
Qed.

Lemma rejectsCleanly_noApiError {A : Type} (c : M A) :
  noApiError c -> rejectsCleanly c.
Proof. intros H db code msg E. now apply H in E. Qed.

Lemma rejectsCleanly_throw {A : Type} (e : Error) : rejectsCleanly (@throw A e).
Proof. intros db code msg _. apply sameDocuments_refl. Qed.

Lemma rejectsCleanly_bind {A B : Type} (c : M A) (k : A -> M B) :
  readOnly c -> (forall a, rejectsCleanly (k a)) -> rejectsCleanly (bind c k).
Proof.
  intros Hc Hk db code msg. unfold bind. specialize (Hc db).
  destruct (c db) as [[a|e] db1]; cbn [fst snd] in *; [|intros _; assumption].
  intros E. eapply sameDocuments_trans; [exact Hc | now apply (Hk a db1 code msg)].
Qed.

(** The model operations throw validation errors, plain errors and
    connection errors only. *)

Ltac quiet_errors :=
  repeat first
    [ apply noApiError_ret
    | apply noApiError_new_Date
    | apply noApiError_get
    | apply noApiError_freshId
    | apply noApiError_modify
    | apply noApiError_roundTrip
    | apply noApiError_bind; [|intros ?]
    | apply noApiError_tryCatch; intros ?
    | apply noApiError_forOf; intros ?
    | (intros ? ? ?; discriminate)
    | match goal with
      | |- noApiError (if ?c then _ else _) => destruct c
      | |- noApiError (match ?x with Some _ => _ | None => _ end) => destruct x
      | |- noApiError (match ?x with [] => _ | _ :: _ => _ end) => destruct x
      end ].

Section WithCalendar.
Context {calendar : Calendar}.

Lemma noApiError_goal_save (paths : list Goal.Path) (g : GoalSchema.t) :
  noApiError (Goal.save paths g).
Proof.
  unfold Goal.save. apply noApiError_bind; [apply noApiError_new_Date|].
  intros now. destruct (Goal.validate now g paths); quiet_errors.
Qed.

Lemma noApiError_goal_create (f : Goal.CreateFields) : noApiError (Goal.create f).
Proof.
  unfold Goal.create. apply noApiError_bind; [apply noApiError_freshId|].
  intros id. apply noApiError_goal_save.
Qed.

Lemma noApiError_addContribution (g : GoalSchema.t) (amt : Q) (descr : string)
  (src : GoalSchema.Source) :
  noApiError (Goal.addContribution g amt descr src).
Proof.
  unfold Goal.addContribution. destruct (Qle_bool amt 0).
  - intros db code msg. discriminate.
  - apply noApiError_bind; [apply noApiError_new_Date|]. intros now.
    apply noApiError_goal_save.
Qed.

Lemma noApiError_processAutoSave : noApiError goalController.processAutoSave.
Proof.
  unfold goalController.processAutoSave, goalController.processAutoSaveGoal,
    Goal.findAutoSaveDue.
  quiet_errors.
Qed.

End WithCalendar.

Lemma noApiError_budget_save (paths : list Budget.Path) (b : BudgetSchema.t) :
  noApiError (Budget.save paths b).
Proof. unfold Budget.save. destruct (Budget.validate b paths); quiet_errors. Qed.

Lemma noApiError_updateSpent (b : BudgetSchema.t) (x y : Q) :
  noApiError (Budget.updateSpent b x y).
Proof.
  unfold Budget.updateSpent. apply noApiError_bind; [apply noApiError_new_Date|].
  intros now. apply noApiError_budget_save.
Qed.

Lemma noApiError_budget_deleteOne (b : BudgetSchema.t) :
  noApiError (Budget.deleteOne b).
Proof. unfold Budget.deleteOne. quiet_errors. Qed.

Lemma noApiError_recalculateBudgetSpending (origin : Budget.Origin)
  (b : BudgetSchema.t) :
  noApiError (budgetController.recalculateBudgetSpending origin b).
Proof.
  unfold budgetController.recalculateBudgetSpending,
    budgetController.aggregateTotal.
  apply noApiError_bind; [quiet_errors|]. intros totalSpent.
  apply noApiError_budget_save.
Qed.

Lemma noApiError_expense_save (paths : list Expense.Path) (e : ExpenseSchema.t) :
  noApiError (Expense.save paths e).
Proof. unfold Expense.save. destruct (Expense.validate e paths); quiet_errors. Qed.

Lemma noApiError_expense_create (userId : nat) (amt : Q) (descr : string)
  (cat : ExpenseSchema.Category) (when : Z) :
  noApiError (Expense.create userId amt descr cat when).
Proof.
  unfold Expense.create. apply noApiError_bind; [apply noApiError_freshId|].
  intros id. apply noApiError_expense_save.
Qed.

Lemma noApiError_expense_deleteOne (e : ExpenseSchema.t) :
  noApiError (Expense.deleteOne e).
Proof. unfold Expense.deleteOne. quiet_errors. Qed.

Lemma noApiError_incTotalExpenses (id : nat) (n : Z) :
  noApiError (User.findByIdAndUpdate_incTotalExpenses id n).
Proof. unfold User.findByIdAndUpdate_incTotalExpenses. quiet_errors. Qed.

Lemma noApiError_updateBudgetSpending (userId : nat)
  (cat : ExpenseSchema.Category) (amt : Q) :
  noApiError (expenseController.updateBudgetSpending userId cat amt).
Proof. unfold expenseController.updateBudgetSpending. quiet_errors. Qed.

Lemma readOnly_goal_findOne (q : GoalSchema.t -> bool) : readOnly (Goal.findOne q).
Proof.
  unfold Goal.findOne.
  apply readOnly_bind; [apply readOnly_roundTrip|]. intros _.
  apply readOnly_bind; [apply readOnly_get|]. intros db. apply readOnly_ret.
Qed.

Lemma readOnly_findById (id : nat) : readOnly (User.findById id).
Proof.
  unfold User.findById.
  apply readOnly_bind; [apply readOnly_roundTrip|]. intros _.
  apply readOnly_bind; [apply readOnly_get|]. intros db. apply readOnly_ret.
Qed.

Lemma readOnly_budget_findOne (q : BudgetSchema.t -> bool) :
  readOnly (Budget.findOne q).
Proof.
  unfold Budget.findOne.
  apply readOnly_bind; [apply readOnly_roundTrip|]. intros _.
  apply readOnly_bind; [apply readOnly_get|]. intros db. apply readOnly_ret.
Qed.

Lemma readOnly_expense_findOne (q : ExpenseSchema.t -> bool) :
  readOnly (Expense.findOne q).
Proof.
  unfold Expense.findOne.
  apply readOnly_bind; [apply readOnly_roundTrip|]. intros _.
  apply readOnly_bind; [apply readOnly_get|]. intros db. apply readOnly_ret.
Qed.

(** From its first write on, a handler throws no [ApiError]. *)
Ltac after_write :=
  repeat first
    [ apply noApiError_goal_save
    | apply noApiError_goal_create
    | apply noApiError_addContribution
    | apply noApiError_budget_save
    | apply noApiError_updateSpent
    | apply noApiError_budget_deleteOne
    | apply noApiError_recalculateBudgetSpending
    | apply noApiError_expense_save
    | apply noApiError_expense_create
    | apply noApiError_expense_deleteOne
    | apply noApiError_incTotalExpenses
    | apply noApiError_updateBudgetSpending
    | apply noApiError_ret
    | apply noApiError_new_Date
    | apply noApiError_freshId
    | apply noApiError_roundTrip
    | apply noApiError_bind; [|intros ?]
    | match goal with
      | |- noApiError (if ?c then _ else _) => destruct c
      | |- noApiError (match ?x with Some _ => _ | None => _ end) => destruct x
      end ].

(** Up to its first write, a handler reads; the errors it throws there leave
    the documents as they were. *)
Ltac before_write :=
  repeat first
    [ apply rejectsCleanly_throw
    | apply rejectsCleanly_bind;
      [ first [ apply readOnly_new_Date | apply readOnly_findById
              | apply readOnly_goal_findOne | apply readOnly_budget_findOne
              | apply readOnly_expense_findOne ]
      | intros ? ]
    | match goal with
      | |- rejectsCleanly (if ?c then _ else _) => destruct c
      | |- rejectsCleanly (match ?x with Some _ => _ | None => _ end) => destruct x
      end
    | (apply rejectsCleanly_noApiError; solve [after_write]) ].

Section WithCalendar.
Context {calendar : Calendar}.

Lemma createGoal_rejectsCleanly (userId : nat)
  (body : goalController.CreateGoalBody) :
  rejectsCleanly (goalController.createGoal userId body).
Proof. unfold goalController.createGoal. before_write. Qed.

Lemma updateGoal_rejectsCleanly (userId id : nat)
  (body : goalController.UpdateGoalBody) :
  rejectsCleanly (goalController.updateGoal userId id body).
Proof. unfold goalController.updateGoal. before_write. Qed.

Lemma deleteGoal_rejectsCleanly (userId id : nat) :
  rejectsCleanly (goalController.deleteGoal userId id).
Proof. unfold goalController.deleteGoal. before_write. Qed.

Lemma contributeToGoal_rejectsCleanly (userId id : nat)
  (body : goalController.ContributeBody) :
  rejectsCleanly (goalController.contributeToGoal userId id body).
Proof. unfold goalController.contributeToGoal. before_write. Qed.

Lemma createBudget_rejectsCleanly (userId : nat)
  (body : budgetController.CreateBudgetBody) :
  rejectsCleanly (budgetController.createBudget userId body).
Proof. unfold budgetController.createBudget. before_write. Qed.

End WithCalendar.

Lemma updateBudget_rejectsCleanly (userId id : nat)
  (body : budgetController.UpdateBudgetBody) :
  rejectsCleanly (budgetController.updateBudget userId id body).
Proof. unfold budgetController.updateBudget. before_write. Qed.

Lemma deleteBudget_rejectsCleanly (userId id : nat) :
  rejectsCleanly (budgetController.deleteBudget userId id).
Proof. unfold budgetController.deleteBudget. before_write. Qed.

Lemma recalculateBudget_rejectsCleanly (userId id : nat) :
  rejectsCleanly (budgetController.recalculateBudget userId id).
Proof. unfold budgetController.recalculateBudget. before_write. Qed.

Lemma duplicateBudget_rejectsCleanly (userId id : nat)
  (body : budgetRoutes.DuplicateBody) :
  rejectsCleanly (budgetRoutes.duplicateBudget userId id body).
Proof. unfold budgetRoutes.duplicateBudget, Budget.create. before_write. Qed.

Lemma createExpense_rejectsCleanly (userId : nat)
  (body : expenseController.CreateExpenseBody) :
  rejectsCleanly (expenseController.createExpense userId body).
Proof. unfold expenseController.createExpense. before_write. Qed.

Lemma updateExpense_rejectsCleanly (userId id : nat)
  (body : expenseController.UpdateExpenseBody) :
  rejectsCleanly (expenseController.updateExpense userId id body).
Proof. unfold expenseController.updateExpense. before_write. Qed.

Lemma deleteExpense_rejectsCleanly (userId id : nat) :
  rejectsCleanly (expenseController.deleteExpense userId id).
Proof. unfold expenseController.deleteExpense. before_write. Qed.

Lemma rejectsCleanly_dropped {A : Type} (c : M A) :
  rejectsCleanly c -> rejectsCleanly (_ <- c ;; ret tt).
Proof.
  intros Hc db code msg. unfold bind, ret. specialize (Hc db code msg).
  destruct (c db) as [[a|e] db1]; cbn [fst snd] in *; [discriminate|].
  intros E. apply Hc. congruence.
Qed.

Section WithCalendar.
Context {calendar : Calendar}.

(** X3.  When a handler of the goal routes (create, update, delete,
    contribute, auto-save sweep) throws an [ApiError] (the 400 and 404
    answers), it has written nothing: users, expenses, budgets and goals are
    as before the request. *)
Theorem goal_handlers_reject_cleanly (r : goalRoutes.Request) (db : DB)
  (code : Z) (msg : string) :
  fst (goalRoutes.handle r db) = Throw (ApiError code msg) ->
  sameDocuments db (snd (goalRoutes.handle r db)).
Proof.
  revert db code msg. change (rejectsCleanly (goalRoutes.handle r)).
  destruct r; cbn [goalRoutes.handle]; apply rejectsCleanly_dropped.
  - apply createGoal_rejectsCleanly.
  - apply updateGoal_rejectsCleanly.
  - apply deleteGoal_rejectsCleanly.
  - apply contributeToGoal_rejectsCleanly.
  - apply rejectsCleanly_noApiError, noApiError_processAutoSave.
Qed.

(** X4.  When a handler of the budget routes (create, update,
    delete, recalculate, duplicate) throws an [ApiError] (the 400, 404 and
    409 answers), it has written nothing. *)
Theorem budget_handlers_reject_cleanly (r : budgetRoutes.Request) (db : DB)
  (code : Z) (msg : string) :
  fst (budgetRoutes.handle r db) = Throw (ApiError code msg) ->
  sameDocuments db (snd (budgetRoutes.handle r db)).
Proof.
  revert db code msg. change (rejectsCleanly (budgetRoutes.handle r)).
  destruct r; cbn [budgetRoutes.handle]; apply rejectsCleanly_dropped.
  - apply createBudget_rejectsCleanly.
  - apply updateBudget_rejectsCleanly.
  - apply deleteBudget_rejectsCleanly.
  - apply recalculateBudget_rejectsCleanly.
  - apply duplicateBudget_rejectsCleanly.
Qed.

End WithCalendar.

(** X5.  When a handler of the expense routes (create, update,
    delete) throws an [ApiError] (the 400, 403 and 404 answers), it has
    written nothing. *)
Theorem expense_handlers_reject_cleanly (r : expenseRoutes.Request) (db : DB)
  (code : Z) (msg : string) :
  fst (expenseRoutes.handle r db) = Throw (ApiError code msg) ->
  sameDocuments db (snd (expenseRoutes.handle r db)).
Proof.
  revert db code msg. change (rejectsCleanly (expenseRoutes.handle r)).
  destruct r; cbn [expenseRoutes.handle]; apply rejectsCleanly_dropped.
  - apply createExpense_rejectsCleanly.
  - apply updateExpense_rejectsCleanly.
  - apply deleteExpense_rejectsCleanly.
Qed.

(** An update of the completed goal 7 is refused with 400. *)
Lemma goal_handlers_reject_cleanly_witness :
  sameDocuments Examples.dbGoals
    (snd (@goalRoutes.handle Examples.thirtyDayMonths
            (goalRoutes.PUT_goals_id 1 7
               {| goalController.ug_name := None;
                  goalController.ug_targetAmount := Some 5000;
                  goalController.ug_category := None;
                  goalController.ug_deadline := None;
                  goalController.ug_autoSave := None |})
            Examples.dbGoals)).
Proof.
  apply (@goal_handlers_reject_cleanly Examples.thirtyDayMonths _ _ 400
           "Cannot update completed goal").
  reflexivity.
Defined.

(** A second food budget over the same window is refused with 409. *)
Lemma budget_handlers_reject_cleanly_witness :
  sameDocuments Examples.dbBudget
    (snd (@budgetRoutes.handle Examples.thirtyDayMonths
            (budgetRoutes.POST_budgets 1 Examples.foodBudgetBody)
            Examples.dbBudget)).
Proof.
  apply (@budget_handlers_reject_cleanly Examples.thirtyDayMonths _ _ 409
           "Active budget already exists for this category in this period").
  reflexivity.
Defined.

(** The deletion of an expense that does not exist is refused with 404. *)
Lemma expense_handlers_reject_cleanly_witness :
  sameDocuments Examples.dbBudget
    (snd (expenseRoutes.handle (expenseRoutes.DELETE_expenses_id 1 77)
            Examples.dbBudget)).
Proof.
  apply (@expense_handlers_reject_cleanly _ _ 404 "Expense not found").
  reflexivity.
Defined.

(** The other errors give no such guarantee: [createGoal] with an initial
    amount above the target throws after the goal was stored. *)
Example createGoal_throws_after_its_write :
  let answer := @goalController.createGoal Examples.thirtyDayMonths 1
                  (Examples.newGoalBody 1500) Examples.db0 in
  fst answer
  = Throw (ValidationError "Path `amount` is less than minimum allowed value (0).")
  /\ List.length (goals (snd answer)) = 1%nat.
Proof. vm_compute. split; reflexivity. Qed.

End Rejections.

(** ** Goals: the handlers *)

Module GoalHandlers.
Import GoalSchema Behaviour.

Lemma goal_findOne_inv (q : t -> bool) (db : DB) :
  match Goal.findOne q db with
  | (Ok found, db1) =>
      found = find q (goals db) /\ goals db1 = goals db
      /\ clock db1 = clock db /\ nextId db1 = nextId db
  | (Throw _, db1) =>
      goals db1 = goals db /\ clock db1 = clock db /\ nextId db1 = nextId db
  end.
Proof.
  unfold Goal.findOne, bind, get, ret.
  pose proof (roundTrip_data Goals db) as (_ & _ & _ & Hg & Hn & Hc).
  destruct (roundTrip Goals db) as [[[]|e] db1]; cbn [snd] in *; auto.
  repeat split; auto. now rewrite Hg.
Qed.

Lemma unique_by_id (l : list t) (x y : t) :
  NoDup (map _id l) -> In x l -> In y l -> _id x = _id y -> x = y.
Proof.
  induction l as [|g0 rest IH]; intros Hnd Hx Hy E; [contradiction|].
  cbn [map] in Hnd. inversion Hnd as [|? ? Hnotin Hnd']; subst.
  destruct Hx as [->|Hx], Hy as [->|Hy]; auto.
  - exfalso. apply Hnotin. rewrite E. now apply in_map.
  - exfalso. apply Hnotin. rewrite <- E. now apply in_map.
Qed.

Section WithCalendar.
Context {calendar : Calendar}.

Lemma preSave_autoSave (now : Z) (g : t) :
  enabled (autoSave (Goal.preSave now g)) = enabled (autoSave g)
  /\ frequency (autoSave (Goal.preSave now g)) = frequency (autoSave g)
  /\ (forall next, nextContribution (autoSave g) = Some next ->
        nextContribution (autoSave (Goal.preSave now g)) = Some next).
Proof.
  unfold Goal.preSave.
  destruct (Qle_bool _ _ && negb _); cbn [autoSave set_completed];
    destruct (enabled (autoSave g)) eqn:En;
    destruct (nextContribution (autoSave g)) eqn:Nx; cbn; rewrite ?En, ?Nx;
    repeat split; intros; congruence.
Qed.

Lemma goal_findOne_quiet (q : t -> bool) (db : DB) :
  faults db Goals = [] -> Goal.findOne q db = (Ok (find q (goals db)), db).
Proof.
  intros Hf. unfold Goal.findOne, bind, get, ret.
  now rewrite (roundTrip_quiet _ _ Hf).
Qed.

(** X7.  [updateGoal] may lower the target to or below what is
    saved: the save then completes the goal, although nothing was
    contributed.  For a stored goal that is not completed and passes the
    validation of its schema (its deadline is still ahead), and a new target
    [t] with [0.01 <= t <= currentAmount], the answer is 200, the goal is
    stored completed with [completedAt] the present instant and target [t],
    and its [currentAmount] and log are unchanged. *)
Theorem updateGoal_below_saved_completes (userId id : nat) (target : Q) (g : t)
  (db : DB) :
  faults db Goals = [] ->
  find (fun g => Nat.eqb (_id g) id && Nat.eqb (user g) userId) (goals db) = Some g ->
  Spec.validGoal (clock db) g ->
  isCompleted g = false ->
  1 # 100 <= target ->
  target <= currentAmount g ->
  exists g' db',
    goalController.updateGoal userId id
      {| goalController.ug_name := None;
         goalController.ug_targetAmount := Some target;
         goalController.ug_category := None;
         goalController.ug_deadline := None;
         goalController.ug_autoSave := None |} db
    = (Ok (respond 200 g'), db')
    /\ isCompleted g' = true
    /\ completedAt g' = Some (clock db)
    /\ targetAmount g' = target
    /\ currentAmount g' = currentAmount g
    /\ contributions g' = contributions g
    /\ Spec.storedGoal id db' = Some g'.
Proof.
  intros Hf Hfound Hvalid Hopen Hmin Hle.
  unfold goalController.updateGoal, bind at 1.
  rewrite (goal_findOne_quiet _ db Hf), Hfound, Hopen.
  cbn [goalController.applyUpdates goalController.ug_name
       goalController.ug_targetAmount goalController.ug_category
       goalController.ug_deadline goalController.ug_autoSave].
  unfold bind at 1, new_Date.
  assert (Hv : Goal.validate (clock db) (set_targetAmount target g)
                 Goal.allPaths = None).
  { apply Validation.goal_validate_spec.
    destruct Hvalid as (H1 & H2 & _ & H4 & H5 & H6 & H7).
    repeat split; assumption. }
  unfold bind, ret. rewrite (GoalFacts.goal_save_quiet _ _ _ Hv Hf).
  set (g2 := set_targetAmount target g).
  pose proof (GoalFacts.goal_preSave_fields (clock db) g2) as (Hid & Hc & Ht & Hl & _).
  pose proof (GoalFacts.goal_preSave_completion (clock db) g2) as (_ & Hdone & _).
  destruct (Hdone Hopen Hle) as [Hd1 Hd2].
  eexists _, _. split; [reflexivity|].
  repeat (split; [assumption|]).
  unfold Spec.storedGoal. cbn [goals set_goals].
  apply find_some in Hfound. destruct Hfound as [_ Hq].
  apply andb_true_iff in Hq. destruct Hq as [Hq _]. apply Nat.eqb_eq in Hq.
  replace id with (_id (Goal.preSave (clock db) g2)) by (rewrite Hid; exact Hq).
  apply GoalFacts.goal_store_stored.
Qed.

Lemma goal_save_stores (paths : list Goal.Path) (g g' : t) (db db' : DB) :
  Goal.save paths g db = (Ok g', db') ->
  g' = Goal.preSave (clock db) g
  /\ goals db' = Goal.store g' (goals db)
  /\ clock db' = clock db.
Proof.
  intros H. pose proof (GoalFacts.goal_save_inv paths g db) as Hinv.
  rewrite H in Hinv. tauto.
Qed.

(** X8.  Goal deletion is soft.  After [deleteGoal] has answered,
    the goal is still stored, with [isActive] false and its amounts and log
    as before; [contributeToGoal] on it no longer answers (it throws), and
    [findAutoSaveDue] no longer returns it, whatever the clock and the
    faults. *)
Theorem deleteGoal_is_soft (userId id : nat) (db db1 : DB) (r : Response unit) :
  NoDup (map _id (goals db)) ->
  goalController.deleteGoal userId id db = (Ok r, db1) ->
  (exists g g',
     find (fun g => Nat.eqb (_id g) id && Nat.eqb (user g) userId) (goals db) = Some g
     /\ Spec.storedGoal id db1 = Some g'
     /\ isActive g' = false
     /\ currentAmount g' = currentAmount g
     /\ targetAmount g' = targetAmount g
     /\ contributions g' = contributions g)
  /\ (forall body db2,
        goals db2 = goals db1 ->
        exists e db3, goalController.contributeToGoal userId id body db2 = (Throw e, db3))
  /\ (forall db2 due db3,
        goals db2 = goals db1 ->
        Goal.findAutoSaveDue db2 = (Ok due, db3) ->
        ~ In id (map _id due)).
Proof.
  intros Hnd H. unfold goalController.deleteGoal in H.
  unfold bind at 1 in H.
  match type of H with
  | context [Goal.findOne ?q db] =>
      pose proof (goal_findOne_inv q db) as Hfind;
      destruct (Goal.findOne q db) as [[found|e] db0]; [|discriminate]
  end.
  destruct Hfind as (-> & Hgoals & _).
  match type of H with
  | context [find ?q (goals db)] => destruct (find q (goals db)) as [g|] eqn:Hfound
  end; [|discriminate].
  unfold bind, ret in H.
  destruct (Goal.save _ (set_isActive false g) db0) as [[g'|e] db1'] eqn:Hsave;
    [|discriminate].
  injection H as _ <-.
  apply goal_save_stores in Hsave. destruct Hsave as (Hg' & Hstore & _).
  pose proof (GoalFacts.goal_preSave_fields (clock db0) (set_isActive false g))
    as (Hid & Hc & Ht & Hl & _ & Ha).
  rewrite <- Hg' in Hid, Hc, Ht, Hl, Ha. cbn in Hid, Hc, Ht, Hl, Ha.
  apply find_some in Hfound as Hq. destruct Hq as [Hin Hq].
  apply andb_true_iff in Hq. destruct Hq as [Hq _]. apply Nat.eqb_eq in Hq.
  assert (Hstored : Spec.storedGoal id db1' = Some g').
  { unfold Spec.storedGoal. rewrite Hstore, Hgoals.
    assert (Eid : id = _id g') by congruence. rewrite Eid.
    apply GoalFacts.goal_store_stored. }
  assert (Hunique : forall x, In x (goals db1') -> _id x = id -> x = g').
  { intros x Hx Ex.
    assert (Hnd' : NoDup (map _id (goals db1'))).
    { rewrite Hstore, Hgoals, GoalCompletion.store_ids_present; [assumption|].
      rewrite Hid. now apply in_map. }
    apply (unique_by_id _ x g' Hnd' Hx); [|congruence].
    apply GoalCompletion.stored_in in Hstored. tauto. }
  split; [|split].
  - exists g, g'. repeat split; assumption.
  - intros body db2 Hsame.
    unfold goalController.contributeToGoal.
    destruct (goalController.ct_amount body) as [amt|];
      [|eexists _, _; reflexivity].
    destruct (Qeq_bool amt 0 || Qle_bool amt 0);
      [eexists _, _; reflexivity|].
    unfold bind at 1.
    match goal with
    | |- context [Goal.findOne ?q db2] =>
        pose proof (goal_findOne_inv q db2) as Hfind;
        destruct (Goal.findOne q db2) as [[found|e] db3];
          [|eexists _, _; reflexivity]
    end.
    destruct Hfind as (-> & _).
    match goal with
    | |- context [find ?q (goals db2)] =>
        destruct (find q (goals db2)) as [x|] eqn:Hx
    end; [|eexists _, _; reflexivity].
    exfalso. apply find_some in Hx. destruct Hx as [Hx Hqx].
    rewrite Hsame in Hx.
    apply andb_true_iff in Hqx. destruct Hqx as [Hqx Hact].
    apply andb_true_iff in Hqx. destruct Hqx as [Hqx _].
    apply Nat.eqb_eq in Hqx.
    rewrite (Hunique x Hx Hqx) in Hact. congruence.
  - intros db2 due db3 Hsame Hdue Hdin.
    unfold Goal.findAutoSaveDue, bind, new_Date, get, ret in Hdue.
    pose proof (roundTrip_data Goals db2) as (_ & _ & _ & Hg & _).
    destruct (roundTrip Goals db2) as [[[]|e] db4]; [|discriminate].
    cbn [snd] in Hg. injection Hdue as <- _.
    apply in_map_iff in Hdin. destruct Hdin as (x & Ex & Hx).
    apply filter_In in Hx. destruct Hx as [Hx Hqx].
    rewrite Hg, Hsame in Hx.
    apply andb_true_iff in Hqx. destruct Hqx as [_ Hact].
    rewrite (Hunique x Hx Ex) in Hact. congruence.
Qed.

Lemma store_NoDup (g : t) (l : list t) :
  NoDup (map _id l) -> NoDup (map _id (Goal.store g l)).
Proof.
  intros Hnd. destruct (in_dec Nat.eq_dec (_id g) (map _id l)) as [Hin|Hnot].
  - now rewrite GoalCompletion.store_ids_present.
  - rewrite GoalCompletion.store_ids_absent by assumption.
    rewrite map_app. cbn [map]. apply NoDup_app; [assumption | | ].
    + repeat constructor. intros [].
    + intros x Hx [<-|[]]. contradiction.
Qed.

(** What the [try] block of the sweep does for one goal: it touches the
    stored version of that goal only, and when it succeeds the goal is
    stored with its next contribution after the present instant. *)
Lemma contributeAutoSave_step (goal : t) (db db' : DB)
  (res : Result goalController.AutoSaveResult) :
  advancing calendar ->
  enabled (autoSave goal) = true ->
  goalController.contributeAutoSave goal db = (res, db') ->
  clock db' = clock db
  /\ (NoDup (map _id (goals db)) -> NoDup (map _id (goals db')))
  /\ (forall id, id <> _id goal ->
        Spec.storedGoal id db' = Spec.storedGoal id db)
  /\ (forall r, res = Ok r ->
        exists g next,
          Spec.storedGoal (_id goal) db' = Some g
          /\ nextContribution (autoSave g) = Some next
          /\ (clock db < next)%Z).
Proof.
  intros Hadv Hen Hrun.
  unfold goalController.contributeAutoSave, bind at 1 in Hrun.
  match type of Hrun with
  | context [Goal.addContribution ?a ?b ?c ?d db] =>
      pose proof (GoalFacts.addContribution_inv a b c d db) as Hinv;
      destruct (Goal.addContribution a b c d db) as [[goal'|e] db1]
  end.
  2: { destruct Hinv as (Hg & Hc & _). injection Hrun as <- <-.
       split; [assumption|]. split; [now rewrite Hg|].
       split; [intros id _; unfold Spec.storedGoal; now rewrite Hg|].
       intros r; discriminate. }
  destruct Hinv as (_ & Hg' & _ & _ & Hstore & Hclock & _).
  match type of Hg' with
  | goal' = Goal.preSave ?n ?g2 =>
      pose proof (GoalFacts.goal_preSave_fields n g2) as (Hid & _);
      pose proof (preSave_autoSave n g2) as (Hen' & Hfr' & _)
  end.
  rewrite <- Hg' in Hid, Hen', Hfr'. cbn in Hid, Hen', Hfr'.
  unfold bind at 1, new_Date in Hrun. unfold bind, ret in Hrun.
  set (g1 := set_nextContribution
               (Goal.calculateNextContribution (clock db1) goal') goal') in *.
  pose proof (GoalFacts.goal_save_inv Goal.allPaths g1 db1) as Hinv.
  destruct (Goal.save _ g1 db1) as [[g2|e] db2].
  2: { destruct Hinv as (Hg & Hc & _). injection Hrun as <- <-.
       split; [congruence|].
       split; [intros Hnd; rewrite Hg, Hstore; now apply store_NoDup|].
       split; [|intros r; discriminate].
       intros id Hne. unfold Spec.storedGoal. rewrite Hg, Hstore.
       apply GoalFacts.goal_store_other. congruence. }
  destruct Hinv as (Hg2 & _ & Hstore2 & Hclock2 & _).
  pose proof (GoalFacts.goal_preSave_fields (clock db1) g1) as (Hid2 & _).
  rewrite <- Hg2 in Hid2. cbn in Hid2.
  injection Hrun as <- <-.
  split; [congruence|].
  split; [intros Hnd; rewrite Hstore2, Hstore; now apply store_NoDup, store_NoDup|].
  split.
  - intros id Hne. unfold Spec.storedGoal. rewrite Hstore2, Hstore.
    rewrite GoalFacts.goal_store_other by congruence.
    apply GoalFacts.goal_store_other. congruence.
  - intros r _.
    assert (Hnext : exists next,
               Goal.calculateNextContribution (clock db1) goal' = Some next
               /\ (clock db < next)%Z).
    { unfold Goal.calculateNextContribution. rewrite Hen', Hen. cbn [negb].
      destruct (Hadv (clock db1)) as (H7 & H1 & H3). rewrite Hclock in *.
      destruct (frequency (autoSave goal')); eexists; split;
        try reflexivity; assumption. }
    destruct Hnext as (next & Hnext & Hlt).
    exists g2, next. split; [|split; [|assumption]].
    + unfold Spec.storedGoal. rewrite Hstore2.
      assert (Eid : _id goal = _id g2) by congruence. rewrite Eid.
      apply GoalFacts.goal_store_stored.
    + rewrite Hg2. apply preSave_autoSave. subst g1. cbn. now rewrite Hnext.
Qed.

Lemma sweep_loop (due : list t) (db db' : DB)
  (results : list goalController.AutoSaveResult) :
  advancing calendar ->
  NoDup (map _id due) ->
  Forall (fun g => enabled (autoSave g) = true) due ->
  forOf due goalController.processAutoSaveGoal db = (Ok results, db') ->
  clock db' = clock db
  /\ (NoDup (map _id (goals db)) -> NoDup (map _id (goals db')))
  /\ (forall id, ~ In id (map _id due) ->
        Spec.storedGoal id db' = Spec.storedGoal id db)
  /\ (forall r, In r results ->
        goalController.r_status r = goalController.success ->
        exists g next,
          Spec.storedGoal (goalController.goalId r) db' = Some g
          /\ nextContribution (autoSave g) = Some next
          /\ (clock db < next)%Z).
Proof.
  intros Hadv. revert db results.
  induction due as [|goal rest IH]; intros db results Hnd Hen Hrun.
  - cbn in Hrun. injection Hrun as <- <-.
    repeat split; auto. intros r [].
  - cbn [map] in Hnd. inversion Hnd as [|? ? Hnotin Hnd']; subst.
    inversion Hen as [|? ? Hen1 Hen']; subst.
    cbn [forOf] in Hrun. unfold bind at 1 in Hrun.
    unfold goalController.processAutoSaveGoal at 1, tryCatch in Hrun.
    destruct (goalController.contributeAutoSave goal db) as [[r1|e] db1] eqn:E;
      destruct (contributeAutoSave_step goal db Hadv Hen1 E)
        as (Hclock & Hnodup & Hother & Hsame);
      unfold ret at 1 in Hrun; unfold bind, ret in Hrun;
      destruct (forOf rest goalController.processAutoSaveGoal db1)
        as [[rs|e'] db2] eqn:Erest; try discriminate;
      injection Hrun as <- <-;
      destruct (IH db1 rs Hnd' Hen' Erest) as (Hc2 & Hn2 & Ho2 & Hs2).
    + split; [congruence|]. split; [auto|]. split.
      * intros id Hid. rewrite Ho2 by (intros H; apply Hid; now right).
        apply Hother. intros ->. apply Hid. now left.
      * intros r [<-|Hr] Hstatus.
        -- pose proof (AutoSaveSweep.contributeAutoSave_entry _ _ E) as ->.
           cbn [goalController.goalId].
           destruct (Hsame _ eq_refl) as (g & next & Hg & Hn & Hlt).
           exists g, next. rewrite Ho2 by assumption. auto.
        -- destruct (Hs2 r Hr Hstatus) as (g & next & Hg & Hn & Hlt).
           exists g, next. rewrite <- Hclock. auto.
    + split; [congruence|]. split; [auto|]. split.
      * intros id Hid. rewrite Ho2 by (intros H; apply Hid; now right).
        apply Hother. intros ->. apply Hid. now left.
      * intros r [<-|Hr] Hstatus; [discriminate|].
        destruct (Hs2 r Hr Hstatus) as (g & next & Hg & Hn & Hlt).
        exists g, next. rewrite <- Hclock. auto.
Qed.

(** X9.  On a calendar that moves forward, the sweep reschedules
    what it serves: every goal with a [success] entry is stored with its
    next contribution after the instant of the sweep, so a second sweep at
    the same instant does not find it due. *)
Theorem processAutoSave_reschedules (db db' : DB)
  (results : list goalController.AutoSaveResult) :
  advancing calendar ->
  NoDup (map _id (goals db)) ->
  goalController.processAutoSave db = (Ok (respond 200 results), db') ->
  forall r,
    In r results ->
    goalController.r_status r = goalController.success ->
    (exists g next,
       Spec.storedGoal (goalController.goalId r) db' = Some g
       /\ nextContribution (autoSave g) = Some next
       /\ (clock db < next)%Z)
    /\ (forall db2 due db3,
          goals db2 = goals db' ->
          clock db2 = clock db ->
          Goal.findAutoSaveDue db2 = (Ok due, db3) ->
          ~ In (goalController.goalId r) (map _id due)).
Proof.
  intros Hadv Hnd Hrun r Hr Hstatus.
  unfold goalController.processAutoSave, bind at 1 in Hrun.
  unfold Goal.findAutoSaveDue at 1, bind, new_Date, get, ret in Hrun.
  pose proof (roundTrip_data Goals db) as (_ & _ & _ & Hg & _ & Hc).
  destruct (roundTrip Goals db) as [[[]|e] db1]; [|discriminate].
  cbn [snd] in Hg, Hc.
  match type of Hrun with
  | context [forOf ?due _ db1] =>
      destruct (forOf due goalController.processAutoSaveGoal db1)
        as [[rs|e] db2] eqn:Eloop; [|discriminate];
      assert (Hloop := @sweep_loop due db1 db2 rs Hadv)
  end.
  injection Hrun as <- <-.
  destruct Hloop as (Hclock & Hnodup & _ & Hserved).
  - apply GoalCompletion.NoDup_map_filter. now rewrite Hg.
  - apply Forall_forall. intros g Hin. apply filter_In in Hin.
    destruct Hin as [_ Hq].
    repeat (apply andb_true_iff in Hq; destruct Hq as [Hq ?]). assumption.
  - exact Eloop.
  - destruct (Hserved r Hr Hstatus) as (g & next & Hstored & Hnext & Hlt).
    rewrite Hc in Hlt.
    split; [exists g, next; auto|].
    intros db3 due db4 Hsame Hnow Hdue Hin.
    unfold Goal.findAutoSaveDue, bind, new_Date, get, ret in Hdue.
    pose proof (roundTrip_data Goals db3) as (_ & _ & _ & Hg3 & _ & Hc3).
    destruct (roundTrip Goals db3) as [[[]|e] db5]; [|discriminate].
    cbn [snd] in Hg3, Hc3. injection Hdue as <- _.
    apply in_map_iff in Hin. destruct Hin as (x & Ex & Hx).
    apply filter_In in Hx. destruct Hx as [Hx Hqx].
    rewrite Hg3, Hsame in Hx.
    assert (x = g).
    { apply GoalCompletion.stored_in in Hstored. destruct Hstored as [Hgin Hgid].
      apply (unique_by_id (goals db2)); auto; [|congruence].
      apply Hnodup. now rewrite Hg. }
    subst x. rewrite Hnext in Hqx.
    repeat (apply andb_true_iff in Hqx; destruct Hqx as [Hqx ?]).
    match goal with H : (next <=? _)%Z = true |- _ => apply Z.leb_le in H end.
    lia.
Qed.

End WithCalendar.

Lemma thirtyDayMonths_advancing : advancing Examples.thirtyDayMonths.
Proof. intros t. cbn. lia. Qed.

(** The target of the goal 7, which holds 700, is lowered to 500. *)
Lemma updateGoal_below_saved_completes_witness :
  exists g' db',
    @goalController.updateGoal Examples.thirtyDayMonths 1 7
      {| goalController.ug_name := None;
         goalController.ug_targetAmount := Some 500;
         goalController.ug_category := None;
         goalController.ug_deadline := None;
         goalController.ug_autoSave := None |}
      (set_goals [Examples.savings 7 700 Examples.noAutoSave] Examples.db0)
    = (Ok (respond 200 g'), db')
    /\ isCompleted g' = true
    /\ completedAt g' = Some 1000%Z
    /\ targetAmount g' = 500
    /\ currentAmount g' = 700
    /\ contributions g'
       = contributions (Examples.savings 7 700 Examples.noAutoSave)
    /\ Spec.storedGoal 7 db' = Some g'.
Proof.
  apply (@updateGoal_below_saved_completes Examples.thirtyDayMonths 1 7 500
           (Examples.savings 7 700 Examples.noAutoSave)
           (set_goals [Examples.savings 7 700 Examples.noAutoSave] Examples.db0)).
  - reflexivity.
  - reflexivity.
  - apply Validation.goal_validate_spec. reflexivity.
  - reflexivity.
  - discriminate.
  - discriminate.
Defined.

(** The goal 9 is deleted. *)
Lemma deleteGoal_is_soft_witness :
  exists g',
    Spec.storedGoal 9
      (snd (@goalController.deleteGoal Examples.thirtyDayMonths 1 9 Examples.dbGoals))
    = Some g'
    /\ isActive g' = false
    /\ currentAmount g' = 100.
Proof.
  destruct (@deleteGoal_is_soft Examples.thirtyDayMonths 1 9 Examples.dbGoals
              (snd (@goalController.deleteGoal Examples.thirtyDayMonths 1 9
                      Examples.dbGoals))
              (respond 200 tt))
    as ((g & g' & Hg & Hst & Hact & Hc & _) & _).
  - cbn. repeat constructor; cbn; intuition discriminate.
  - reflexivity.
  - vm_compute in Hg. injection Hg as <-. exists g'. auto.
Defined.

(** The sweep of the example: the goal 9 was served. *)
Lemma processAutoSave_reschedules_witness :
  exists g next,
    Spec.storedGoal 9
      (snd (@goalController.processAutoSave Examples.thirtyDayMonths Examples.dbGoals))
    = Some g
    /\ nextContribution (autoSave g) = Some next
    /\ (1000 < next)%Z.
Proof.
  refine (proj1 (@processAutoSave_reschedules Examples.thirtyDayMonths
                   Examples.dbGoals
                   (snd (@goalController.processAutoSave Examples.thirtyDayMonths
                           Examples.dbGoals))
                   [ {| goalController.goalId := 8;
                        goalController.goalName := "Laptop";
                        goalController.r_amount := 0;
                        goalController.r_status := goalController.failed;
                        goalController.r_error :=
                          Some "Contribution amount must be positive" |};
                     {| goalController.goalId := 9;
                        goalController.goalName := "Laptop";
                        goalController.r_amount := 50;
                        goalController.r_status := goalController.success;
                        goalController.r_error := None |} ]
                   thirtyDayMonths_advancing _ _
                   {| goalController.goalId := 9;
                      goalController.goalName := "Laptop";
                      goalController.r_amount := 50;
                      goalController.r_status := goalController.success;
                      goalController.r_error := None |} _ _)).
  - cbn. repeat constructor; cbn; intuition discriminate.
  - reflexivity.
  - right. left. reflexivity.
  - reflexivity.
Defined.

End GoalHandlers.

(** ** Budgets: the virtuals, the summary and the alerts *)

Module BudgetReports.
Import BudgetSchema.

Lemma percentageUsed_with_limit (b : t) :
  0 < amount b ->
  Budget.percentageUsed b = JSNum.Fin (Qmin 100 (spent b / amount b * 100)).
Proof.
  intros Ha. unfold Budget.percentageUsed, JSNum.div.
  destruct (Qeq_bool (amount b) 0) eqn:E; [|reflexivity].
  apply Qeq_bool_iff in E. lra.
Qed.

(** A percentage up to 100 is reached when that share of the limit is
    spent. *)
Lemma reached_iff (b : t) (p : Q) :
  0 < amount b -> p <= 100 ->
  (JSNum.geb (Budget.percentageUsed b) p = true
   <-> p * amount b <= spent b * 100).
Proof.
  intros Ha Hp. rewrite (percentageUsed_with_limit b Ha). cbn [JSNum.geb].
  rewrite Qle_bool_iff, Q.min_glb_iff.
  assert (Hx : spent b / amount b * 100 * amount b == spent b * 100)
    by (field; lra).
  rewrite <- Hx. rewrite (Qmult_le_r _ _ _ Ha). tauto.
Qed.






Lemma ceilDays_positive (ms : Z) : (0 < ceilDays ms <-> 0 < ms)%Z.
Proof. unfold ceilDays. Z.div_mod_to_equations. lia. Qed.

Lemma daysRemaining_positive (now : Z) (b : t) :
  (0 < BudgetPeriod.daysRemaining now b <-> now < endDate b)%Z.
Proof.
  unfold BudgetPeriod.daysRemaining.
  pose proof (ceilDays_positive (endDate b - now)). lia.
Qed.

(** X12.  What [getBudgetAlerts] reports.  Every alert concerns a
    budget of the user that is active, has its alerts enabled and holds the
    present instant in its window.  A threshold alert is raised for a
    threshold of that budget that is triggered and that the present
    [percentageUsed] still reaches, so a trigger that the spending has
    fallen below again is not reported; its severity is ['critical'] exactly
    from 100 percent.  A projection alert is raised only before the end of
    the window, when the projected spending exceeds the limit. *)
Theorem getBudgetAlerts_reports (userId : nat) (db db' : DB)
  (resp : Response (list budgetReports.Alert)) :
  budgetReports.getBudgetAlerts userId db = (Ok resp, db') ->
  statusCode resp = 200%Z
  /\ forall a, In a (data resp) ->
       exists b,
         In b (budgets db)
         /\ user b = userId /\ isActive b = true /\ alertsEnabled b = Some true
         /\ (startDate b <= clock db <= endDate b)%Z
         /\ match a with
            | budgetReports.thresholdAlert id _ _ th pct _ _ _ at_ sev =>
                id = _id b
                /\ pct = Budget.percentageUsed b
                /\ JSNum.geb pct th = true
                /\ (exists t, In t (thresholds b) /\ percentage t = th
                              /\ triggered t = true /\ triggeredAt t = at_)
                /\ (sev = budgetReports.critical <-> JSNum.geb pct 100 = true)
            | budgetReports.projectionAlert id _ _ projected _ days _ =>
                id = _id b
                /\ projected = BudgetPeriod.getProjectedSpending (clock db) b
                /\ amount b < projected
                /\ days = BudgetPeriod.daysRemaining (clock db) b
                /\ (clock db < endDate b)%Z
            end.
Proof.
  unfold budgetReports.getBudgetAlerts, bind, new_Date, get, ret.
  pose proof (roundTrip_data Budgets db) as (_ & _ & Hb & _ & _ & _).
  destruct (roundTrip Budgets db) as [[[]|e] db1]; [|discriminate].
  cbn [snd] in Hb. intros H. injection H as <- <-.
  cbn [statusCode data]. split; [reflexivity|].
  intros a Ha. apply in_flat_map in Ha. destruct Ha as (b & Hin & Ha).
  apply filter_In in Hin. destruct Hin as [Hin Hq]. rewrite Hb in Hin.
  unfold BudgetPeriod.activeFor in Hq.
  repeat (apply andb_true_iff in Hq; destruct Hq as [Hq ?]).
  apply Nat.eqb_eq in Hq.
  repeat match goal with
         | H : (_ <=? _)%Z = true |- _ => apply Z.leb_le in H
         end.
  assert (Hen : alertsEnabled b = Some true)
    by (destruct (alertsEnabled b) as [[]|]; congruence).
  exists b. repeat (split; [first [assumption | lia]|]).
  apply in_app_or in Ha. destruct Ha as [Ha|Ha].
  - unfold budgetReports.thresholdAlerts in Ha.
    apply in_flat_map in Ha. destruct Ha as (t & Ht & Ha).
    destruct (JSNum.geb (Budget.percentageUsed b) (percentage t)) eqn:Ereach;
      [|destruct Ha].
    destruct (triggered t) eqn:Etr; [|destruct Ha].
    destruct Ha as [<-|[]].
    split; [reflexivity|]. split; [reflexivity|]. split; [assumption|].
    split; [exists t; auto|].
    destruct (JSNum.geb (Budget.percentageUsed b) 100);
      [tauto|].
    destruct (JSNum.geb (Budget.percentageUsed b) 90);
      split; intros; discriminate.
  - unfold budgetReports.projectionAlerts in Ha.
    destruct (Qlt_bool (amount b) _) eqn:Eover; [|destruct Ha].
    destruct (0 <? _)%Z eqn:Edays; [|destruct Ha].
    destruct Ha as [<-|[]].
    apply Qlt_bool_iff in Eover. apply Z.ltb_lt in Edays.
    apply daysRemaining_positive in Edays. auto.
Qed.

(** The food budget at 95 percent with its three thresholds triggered: the
    thresholds 50 and 90 are reported, the threshold 100 is not. *)
Lemma getBudgetAlerts_reports_witness :
  exists resp,
    fst (budgetReports.getBudgetAlerts 1
           (set_budgets [Examples.foodBudget 950 true true true] Examples.db0))
    = Ok resp
    /\ statusCode resp = 200%Z
    /\ List.length (data resp) = 2%nat.
Proof.
  eexists. split; [vm_compute; reflexivity|].
  split; [|reflexivity].
  eapply (@getBudgetAlerts_reports 1
            (set_budgets [Examples.foodBudget 950 true true true] Examples.db0)
            (set_budgets [Examples.foodBudget 950 true true true] Examples.db0)).
  vm_compute. reflexivity.
Defined.

Lemma not_below_is_reached (b : t) (p : Q) :
  0 < amount b ->
  JSNum.ltb (Budget.percentageUsed b) p = false ->
  JSNum.geb (Budget.percentageUsed b) p = true.
Proof.
  intros Ha. rewrite (percentageUsed_with_limit b Ha). cbn [JSNum.ltb JSNum.geb].
  rewrite Qlt_bool_false_iff. apply Qle_bool_iff.
Qed.

(** X13.  After [recalculateBudgetSpending] no trigger is stale:
    for a budget with a positive limit and thresholds up to 100 percent,
    every threshold of the recalculated budget that is triggered is reached
    by its [percentageUsed], and is therefore among the threshold alerts. *)
Theorem recalculated_triggers_are_reported (origin : Budget.Origin)
  (budget b' : t) (db db' : DB) :
  0 < amount budget ->
  Forall (fun th => percentage th <= 100) (thresholds budget) ->
  budgetController.recalculateBudgetSpending origin budget db = (Ok b', db') ->
  forall th,
    In th (thresholds b') -> triggered th = true ->
    JSNum.geb (Budget.percentageUsed b') (percentage th) = true
    /\ exists id nm cat pct amt sp rem sev,
         In (budgetReports.thresholdAlert id nm cat (percentage th) pct amt sp rem
               (triggeredAt th) sev)
            (budgetReports.thresholdAlerts b').
Proof.
  intros Ha Hmax Hrun th Hin Htr.
  assert (Hreached : JSNum.geb (Budget.percentageUsed b') (percentage th) = true).
  { unfold budgetController.recalculateBudgetSpending, bind in Hrun.
    destruct (budgetController.aggregateTotal budget db) as [[totalSpent|e] db1];
      [|discriminate].
    match type of Hrun with
    | Budget.save ?ps ?b2 db1 = _ =>
        pose proof (BudgetFacts.budget_save_inv ps b2 db1) as Hs;
        rewrite Hrun in Hs; destruct Hs as (-> & _);
        rewrite BudgetFacts.percentageUsed_preSave;
        destruct (BudgetFacts.budget_preSave_thresholds b2) as [[_ Hths]|[_ Hnone]];
        [rewrite Hths in Hin
        |destruct (Hnone th Hin) as [Hfalse _]; congruence]
    end.
    set (b1 := set_spent _ budget) in *.
    assert (Ha1 : 0 < amount b1) by exact Ha.
    destruct (Qlt_bool (spent b1) (amount b1)) eqn:Hbelow.
    - apply Qlt_bool_iff in Hbelow.
      cbn [thresholds set_thresholds] in Hin.
      apply in_map_iff in Hin. destruct Hin as (th0 & <- & Hin0).
      assert (Hle : 0 <= amount b1) by lra.
      destruct (@BudgetFacts.resetThreshold_cases b1 th0 Hle Hbelow)
        as (Hreset & _ & Hp).
      rewrite Hp.
      change (Budget.percentageUsed (set_thresholds _ b1))
        with (Budget.percentageUsed b1).
      apply not_below_is_reached; [assumption|].
      destruct (JSNum.ltb (Budget.percentageUsed b1) (percentage th0)) eqn:E;
        [|reflexivity].
      destruct (Hreset E) as [Hfalse _]. congruence.
    - apply Qlt_bool_false_iff in Hbelow.
      apply reached_iff; [assumption | |].
      + rewrite Forall_forall in Hmax. now apply Hmax.
      + rewrite Forall_forall in Hmax. specialize (Hmax th Hin).
        assert (percentage th * amount b1 <= 100 * amount b1)
          by (apply Qmult_le_compat_r; lra).
        lra. }
  split; [assumption|].
  eexists _, _, _, _, _, _, _, _.
  unfold budgetReports.thresholdAlerts. apply in_flat_map.
  exists th. split; [assumption|]. rewrite Hreached, Htr. left. reflexivity.
Qed.

(** A ledger of 950 against the limit of 1000: after the recalculation the
    threshold 90 is triggered still, and reached. *)
Lemma recalculated_triggers_are_reported_witness :
  JSNum.geb
    (Budget.percentageUsed
       (match fst (budgetController.recalculateBudgetSpending Budget.loaded
                     (Examples.foodBudget 100 true true false)
                     (set_expenses [Examples.lunch 31 950] Examples.dbBudget)) with
        | Ok b' => b'
        | Throw _ => Examples.foodBudget 100 true true false
        end))
    90 = true.
Proof.
  refine (proj1 (@recalculated_triggers_are_reported Budget.loaded
                   (Examples.foodBudget 100 true true false) _
                   (set_expenses [Examples.lunch 31 950] Examples.dbBudget) _
                   eq_refl _ eq_refl (Examples.threshold 90 true) _ eq_refl)).
  - repeat constructor; discriminate.
  - vm_compute. right. left. reflexivity.
Defined.

Lemma remaining_sum (l : list t) :
  Qsum (map amount l) - Qsum (map spent l) <= Qsum (map Budget.remaining l)
  /\ (filter (fun b => Qlt_bool (amount b) (spent b)) l = [] ->
      Qsum (map amount l) - Qsum (map spent l) == Qsum (map Budget.remaining l)).
Proof.
  induction l as [|b l [IH1 IH2]]; cbn [map filter].
  - rewrite !Qsum_nil. split; [lra | intros _; lra].
  - rewrite !Qsum_cons. unfold Budget.remaining at 1 3.
    pose proof (Q.le_max_l 0 (amount b - spent b)).
    pose proof (Q.le_max_r 0 (amount b - spent b)).
    split; [lra|].
    destruct (Qlt_bool (amount b) (spent b)) eqn:E; [discriminate|].
    intros Hnone. specialize (IH2 Hnone).
    apply Qlt_bool_false_iff in E.
    rewrite (Q.max_r 0 (amount b - spent b)) by lra. lra.
Qed.

Lemma filter_shorter {A : Type} (f : A -> bool) (l : list A) :
  (List.length (filter f l) <= List.length l)%nat.
Proof.
  induction l as [|x l IH]; cbn [filter List.length]; [lia|].
  destruct (f x); cbn [List.length]; lia.
Qed.

(** X14.  What [getBudgetSummary] answers: the count, the limits and
    the spending of the budgets of the user that are active and hold the
    present instant in their window (all 0 when there is none).
    [totalRemaining] is the difference of the totals: it is at most the sum
    of the [remaining] of the budgets, which never goes below 0 for a single
    budget, and equals it when no budget is over its limit. *)
Theorem getBudgetSummary_totals (userId : nat) (db db' : DB)
  (resp : Response BudgetPeriod.Summary) :
  budgetReports.getBudgetSummary userId db = (Ok resp, db') ->
  let current := filter (BudgetPeriod.activeFor userId (clock db)) (budgets db) in
  statusCode resp = 200%Z
  /\ BudgetPeriod.budgetCount (data resp) = List.length current
  /\ BudgetPeriod.overBudgetCount (data resp)
     = List.length (filter (fun b => Budget.isOverBudget b) current)
  /\ (BudgetPeriod.overBudgetCount (data resp)
      <= BudgetPeriod.budgetCount (data resp))%nat
  /\ BudgetPeriod.totalBudget (data resp) == Qsum (map amount current)
  /\ BudgetPeriod.totalSpent (data resp) == Qsum (map spent current)
  /\ BudgetPeriod.totalRemaining (data resp)
     == BudgetPeriod.totalBudget (data resp) - BudgetPeriod.totalSpent (data resp)
  /\ BudgetPeriod.totalRemaining (data resp)
     <= Qsum (map Budget.remaining current)
  /\ (BudgetPeriod.overBudgetCount (data resp) = 0%nat ->
      BudgetPeriod.totalRemaining (data resp)
      == Qsum (map Budget.remaining current)).
Proof.
  unfold budgetReports.getBudgetSummary, BudgetPeriod.getBudgetSummary,
    bind, new_Date, get, ret.
  pose proof (roundTrip_data Budgets db) as (_ & _ & Hb & _ & _ & _).
  destruct (roundTrip Budgets db) as [[[]|e] db1]; [|discriminate].
  cbn [snd] in Hb. rewrite Hb.
  set (current := filter (BudgetPeriod.activeFor userId (clock db)) (budgets db)).
  destruct (remaining_sum current) as [Hle Heq].
  pose proof (filter_shorter (fun b => Budget.isOverBudget b) current) as Hcount.
  unfold Budget.isOverBudget in *.
  destruct current as [|b0 rest] eqn:Ecur.
  - intros H. injection H as <- <-. cbn [data statusCode BudgetPeriod.budgetCount
      BudgetPeriod.overBudgetCount BudgetPeriod.totalBudget
      BudgetPeriod.totalSpent BudgetPeriod.totalRemaining map filter List.length].
    rewrite !Qsum_nil. repeat split; try reflexivity; try lra.
  - rewrite <- Ecur in *. clear Ecur.
    destruct (Qeq_bool (Qsum (map amount current)) 0); [discriminate|].
    intros H. injection H as <- <-. cbn [data statusCode BudgetPeriod.budgetCount
      BudgetPeriod.overBudgetCount BudgetPeriod.totalBudget
      BudgetPeriod.totalSpent BudgetPeriod.totalRemaining].
    repeat split; try reflexivity; try assumption.
    intros Hnone. apply Heq. now apply length_zero_iff_nil.
Qed.

(** Two budgets of the user, one of them over its limit. *)
Lemma getBudgetSummary_totals_witness :
  exists resp,
    fst (budgetReports.getBudgetSummary 1
           (set_budgets
              [Examples.foodBudget 1200 true true true;
               set_spent 100 (Examples.foodBudget 0 false false false)]
              Examples.db0))
    = Ok resp
    /\ BudgetPeriod.budgetCount (data resp) = 2%nat
    /\ BudgetPeriod.overBudgetCount (data resp) = 1%nat.
Proof.
  eexists. split; [vm_compute; reflexivity|].
  destruct (@getBudgetSummary_totals 1
              (set_budgets
                 [Examples.foodBudget 1200 true true true;
                  set_spent 100 (Examples.foodBudget 0 false false false)]
                 Examples.db0) _ _ eq_refl)
    as (_ & Hcount & Hover & _).
  split; [exact Hcount | exact Hover].
Defined.

End BudgetReports.

(** ** Budgets: the window of a new budget *)

Module BudgetWindows.
Import BudgetSchema.

Lemma budget_findOne_inv (q : t -> bool) (db : DB) :
  match Budget.findOne q db with
  | (Ok found, db1) =>
      found = find q (budgets db) /\ budgets db1 = budgets db
      /\ expenses db1 = expenses db /\ clock db1 = clock db
  | (Throw _, db1) =>
      budgets db1 = budgets db /\ expenses db1 = expenses db
      /\ clock db1 = clock db
  end.
Proof.
  unfold Budget.findOne, bind, get, ret.
  pose proof (roundTrip_data Budgets db) as (_ & He & Hb & _ & _ & Hc).
  destruct (roundTrip Budgets db) as [[[]|e] db1]; cbn [snd] in *; auto.
  repeat split; auto. now rewrite Hb.
Qed.

Lemma budget_Category_eqb_refl (c : Category) : Category_eqb c c = true.
Proof. destruct c as [c|]; [apply ConvergenceFacts.Category_eqb_refl | reflexivity]. Qed.

(** The window [[start, stop]] is free of the active budgets of the user
    in the category. *)
Lemma free_window (userId : nat) (cat : Category) (start stop : Z)
  (l : list t) :
  find (fun b => Nat.eqb (user b) userId && Category_eqb (category b) cat
                 && isActive b && (startDate b <=? stop)%Z
                 && (start <=? endDate b)%Z) l = None ->
  forall b0, In b0 l -> user b0 = userId -> category b0 = cat ->
             isActive b0 = true ->
             (endDate b0 < start \/ stop < startDate b0)%Z.
Proof.
  intros Hnone b0 Hin Hu Hc Ha.
  pose proof (find_none _ _ Hnone b0 Hin) as Hq. cbn beta in Hq.
  rewrite Hu, Hc, Ha, Nat.eqb_refl, budget_Category_eqb_refl in Hq.
  cbn [andb] in Hq. apply andb_false_iff in Hq.
  destruct Hq as [Hq|Hq]; apply Z.leb_gt in Hq; lia.
Qed.

Lemma recalculate_fields (origin : Budget.Origin) (b b' : t) (db db' : DB) :
  budgetController.recalculateBudgetSpending origin b db = (Ok b', db') ->
  _id b' = _id b /\ user b' = user b /\ category b' = category b
  /\ startDate b' = startDate b /\ endDate b' = endDate b
  /\ isActive b' = isActive b /\ amount b' = amount b.
Proof.
  unfold budgetController.recalculateBudgetSpending, bind.
  destruct (budgetController.aggregateTotal b db) as [[totalSpent|e] db1];
    [|discriminate].
  intros Hrun.
  match type of Hrun with
  | Budget.save ?ps ?b2 db1 = _ =>
      pose proof (BudgetFacts.budget_save_inv ps b2 db1) as Hs;
      rewrite Hrun in Hs; destruct Hs as (-> & _);
      destruct (BudgetFacts.budget_preSave_fields b2)
        as (-> & _ & -> & -> & -> & -> & -> & ->)
  end.
  destruct (Qlt_bool _ _); repeat split.
Qed.

Section WithCalendar.
Context {calendar : Calendar}.

(** X15.  A budget created with both dates given takes a free
    window and starts at what the ledger says: when [createBudget] answers,
    the new budget has the given window, no budget of the user in the same
    category that was stored and active overlaps that window, and [spent] is
    the sum of the completed expenses of the user that match the category and
    lie in the window. *)
Theorem createBudget_takes_a_free_window (userId : nat)
  (body : budgetController.CreateBudgetBody) (db db' : DB) (resp : Response t)
  (start stop : Z) :
  budgetController.cb_startDate body = Some start ->
  budgetController.cb_endDate body = Some stop ->
  budgetController.createBudget userId body db = (Ok resp, db') ->
  statusCode resp = 201%Z
  /\ user (data resp) = userId
  /\ isActive (data resp) = true
  /\ startDate (data resp) = start
  /\ endDate (data resp) = stop
  /\ spent (data resp) == Spec.ledgerSpent (data resp) db
  /\ forall b0,
       In b0 (budgets db) -> user b0 = userId ->
       category b0 = category (data resp) -> isActive b0 = true ->
       (endDate b0 < start \/ stop < startDate b0)%Z.
Proof.
  intros Hstart Hstop. unfold budgetController.createBudget.
  rewrite Hstart, Hstop. cbn [budgetController.orElse].
  destruct (budgetController.cb_category body) as [cat|]; [|discriminate].
  destruct (budgetController.cb_amount body) as [amt|]; [|discriminate].
  destruct (isBlank _ || Qeq_bool amt 0); [discriminate|].
  unfold bind at 1, new_Date. unfold bind at 1.
  match goal with
  | |- context [Budget.findOne ?q db] =>
      pose proof (budget_findOne_inv q db) as Hfind;
      destruct (Budget.findOne q db) as [[found|e] db1]; [|discriminate]
  end.
  destruct Hfind as (-> & Hb1 & He1 & _).
  match goal with
  | |- context [find ?q (budgets db)] =>
      destruct (find q (budgets db)) eqn:Hfree; [discriminate|]
  end.
  unfold bind at 1, freshId. unfold bind at 1, Budget.create.
  match goal with
  | |- context [Budget.save ?ps ?b2 ?d] =>
      pose proof (BudgetFacts.budget_save_inv ps b2 d) as Hs;
      destruct (Budget.save ps b2 d) as [[b3|e] db3]; [|discriminate]
  end.
  destruct Hs as (Hb3 & _ & _ & He3 & _).
  cbn [expenses set_nextId] in He3.
  match type of Hb3 with
  | b3 = Budget.preSave ?b2 =>
      destruct (BudgetFacts.budget_preSave_fields b2)
        as (_ & _ & _ & Hu & Hc & Hs & He & Ha)
  end.
  rewrite <- Hb3 in Hu, Hc, Hs, He, Ha. cbn in Hu, Hc, Hs, He, Ha.
  unfold bind, ret.
  destruct (budgetController.recalculateBudgetSpending Budget.created b3 db3)
    as [[b4|e] db4] eqn:Hrecalc; [|discriminate].
  intros H. injection H as <- <-. cbn [data statusCode].
  destruct (recalculate_fields _ _ _ Hrecalc) as (_ & Hu4 & Hc4 & Hs4 & He4 & Ha4 & _).
  split; [reflexivity|]. split; [congruence|]. split; [congruence|].
  split; [congruence|]. split; [congruence|]. split.
  - rewrite (ConvergenceFacts.recalculate_spent _ _ _ Hrecalc).
    unfold Spec.ledgerSpent, Spec.countsToward.
    rewrite He3, He1, Hu4, Hc4, Hs4, He4. reflexivity.
  - intros b0 Hin Hu0 Hc0 Ha0.
    apply (@free_window userId cat start stop (budgets db) Hfree b0 Hin Hu0);
      [congruence | assumption].
Qed.

End WithCalendar.

(** X16.  A duplicated budget takes a free window, but it is not
    reconciled with the ledger and it inherits the triggers: when
    [duplicateBudget] answers, the new budget has the given window and the
    category and limit of the source, no stored active budget of the
    user in that category (the source included) overlaps the window, [spent]
    is 0 whatever expenses the window holds, and the thresholds of the
    source, if it has any, are copied with their [triggered] flags. *)
Theorem duplicateBudget_starts_unreconciled (userId id : nat)
  (body : budgetRoutes.DuplicateBody) (db db' : DB) (resp : Response t) :
  budgetRoutes.duplicateBudget userId id body db = (Ok resp, db') ->
  exists sourceBudget start stop,
    find (fun b => Nat.eqb (_id b) id && Nat.eqb (user b) userId) (budgets db)
    = Some sourceBudget
    /\ budgetRoutes.dup_startDate body = Some start
    /\ budgetRoutes.dup_endDate body = Some stop
    /\ statusCode resp = 201%Z
    /\ user (data resp) = userId
    /\ isActive (data resp) = true
    /\ category (data resp) = category sourceBudget
    /\ amount (data resp) = amount sourceBudget
    /\ startDate (data resp) = start
    /\ endDate (data resp) = stop
    /\ spent (data resp) = 0
    /\ (thresholds sourceBudget <> [] ->
        thresholds (data resp) = thresholds sourceBudget)
    /\ (forall b0,
          In b0 (budgets db) -> user b0 = userId ->
          category b0 = category sourceBudget -> isActive b0 = true ->
          (endDate b0 < start \/ stop < startDate b0)%Z)
    /\ Spec.storedBudget (_id (data resp)) db' = Some (data resp).
Proof.
  unfold budgetRoutes.duplicateBudget. unfold bind at 1.
  match goal with
  | |- context [Budget.findOne ?q db] =>
      pose proof (budget_findOne_inv q db) as Hfind;
      destruct (Budget.findOne q db) as [[found|e] db1]; [|discriminate]
  end.
  destruct Hfind as (-> & Hb1 & _).
  match goal with
  | |- context [find ?q (budgets db)] =>
      destruct (find q (budgets db)) as [sourceBudget|] eqn:Hsource;
        [|discriminate]
  end.
  destruct (budgetRoutes.dup_startDate body) as [start|]; [|discriminate].
  destruct (budgetRoutes.dup_endDate body) as [stop|]; [|discriminate].
  unfold bind at 1.
  match goal with
  | |- context [Budget.findOne ?q db1] =>
      pose proof (budget_findOne_inv q db1) as Hfind;
      destruct (Budget.findOne q db1) as [[found|e] db2]; [|discriminate]
  end.
  destruct Hfind as (-> & Hb2 & _).
  match goal with
  | |- context [find ?q (budgets db1)] =>
      destruct (find q (budgets db1)) eqn:Hfree; [discriminate|]
  end.
  unfold bind at 1, freshId. unfold bind, ret, Budget.create.
  match goal with
  | |- context [Budget.save ?ps ?b2 ?d] =>
      pose proof (BudgetFacts.budget_save_inv ps b2 d) as Hs;
      destruct (Budget.save ps b2 d) as [[b3|e] db3]; [|discriminate]
  end.
  destruct Hs as (Hb3 & _ & Hstore & _).
  match type of Hb3 with
  | b3 = Budget.preSave ?b2 =>
      destruct (BudgetFacts.budget_preSave_fields b2)
        as (_ & Hsp & Ham & Hu & Hc & Hs & He & Ha);
      destruct (BudgetFacts.budget_preSave_thresholds b2) as [[_ Hths]|[Hths _]]
  end;
    rewrite <- Hb3 in *; cbn in Hsp, Ham, Hu, Hc, Hs, He, Ha, Hths;
    intros H; injection H as <- <-; cbn [data statusCode];
    exists sourceBudget, start, stop;
    repeat (split; [first [reflexivity | assumption]|]);
    (split; [first [intros _; exact Hths | intros Hne; contradiction]|]);
    (split; [rewrite Hb1 in Hfree; now apply (@free_window userId _ start stop)|]);
    unfold Spec.storedBudget; rewrite Hstore;
    apply BudgetFacts.budget_store_stored.
Qed.

(** The food budget, whose thresholds 50 and 90 are triggered, is duplicated
    into the window that follows. *)
Lemma duplicateBudget_starts_unreconciled_witness :
  exists resp db',
    budgetRoutes.duplicateBudget 1 20
      {| budgetRoutes.dup_startDate := Some 100001%Z;
         budgetRoutes.dup_endDate := Some 200000%Z |} Examples.dbBudget
    = (Ok resp, db')
    /\ spent (data resp) = 0
    /\ thresholds (data resp)
       = thresholds (Examples.foodBudget 350 true true false).
Proof.
  eexists _, _. split; [vm_compute; reflexivity|].
  destruct (@duplicateBudget_starts_unreconciled 1 20
              {| budgetRoutes.dup_startDate := Some 100001%Z;
                 budgetRoutes.dup_endDate := Some 200000%Z |}
              Examples.dbBudget _ _ eq_refl)
    as (src & start & stop & Hsrc & _ & _ & _ & _ & _ & _ & _ & _ & _ & Hsp
        & Hths & _).
  vm_compute in Hsrc. injection Hsrc as <-.
  split; [exact Hsp | apply Hths; discriminate].
Defined.

(** A travel budget next to the food budget. *)
Lemma createBudget_takes_a_free_window_witness :
  exists resp db',
    @budgetController.createBudget Examples.thirtyDayMonths 1
      {| budgetController.cb_name := "Travel";
         budgetController.cb_category := Some (Cat ExpenseSchema.travel);
         budgetController.cb_amount := Some 500;
         budgetController.cb_period := None;
         budgetController.cb_startDate := Some 0%Z;
         budgetController.cb_endDate := Some 100000%Z;
         budgetController.cb_alerts := None |} Examples.dbBudget
    = (Ok resp, db')
    /\ startDate (data resp) = 0%Z
    /\ endDate (data resp) = 100000%Z.
Proof.
  eexists _, _. split; [vm_compute; reflexivity|].
  destruct (@createBudget_takes_a_free_window Examples.thirtyDayMonths 1
              {| budgetController.cb_name := "Travel";
                 budgetController.cb_category := Some (Cat ExpenseSchema.travel);
                 budgetController.cb_amount := Some 500;
                 budgetController.cb_period := None;
                 budgetController.cb_startDate := Some 0%Z;
                 budgetController.cb_endDate := Some 100000%Z;
                 budgetController.cb_alerts := None |}
              Examples.dbBudget _ _ 0%Z 100000%Z eq_refl eq_refl eq_refl)
    as (_ & _ & _ & Hs & He & _).
  split; [exact Hs | exact He].
Defined.

(** Without an end date in the body, [createBudget] checks the window that
    ends now and stores the window that ends with the period: the new food
    budget overlaps the food budget that starts later. *)
Example createBudget_default_window_overlaps :
  let later := set_budgets
                 [ {| _id := 20; user := 1; name := "Food";
                      category := Cat ExpenseSchema.food; amount := 1000;
                      startDate := 5000; endDate := 100000; spent := 0;
                      alertsEnabled := Some true; thresholds := [];
                      defaultThresholds := [50; 75; 90; 100];
                      isActive := true; autoRenew := true |} ] Examples.db0 in
  let answer := @budgetController.createBudget Examples.thirtyDayMonths 1
                  {| budgetController.cb_name := "Food again";
                     budgetController.cb_category := Some (Cat ExpenseSchema.food);
                     budgetController.cb_amount := Some 500;
                     budgetController.cb_period := None;
                     budgetController.cb_startDate := None;
                     budgetController.cb_endDate := None;
                     budgetController.cb_alerts := None |} later in
  map (fun b => (startDate b, endDate b)) (budgets (snd answer))
  = [ (5000, 100000); (1000, 2592001000) ]%Z.
Proof. vm_compute. reflexivity. Qed.

End BudgetWindows.

(** ** Expenses: pagination *)

Module Pagination.
Import ExpenseSchema expenseQueries.

Lemma insertSorted_length {A : Type} (le : A -> A -> bool) (x : A) (l : list A) :
  List.length (insertSorted le x l) = S (List.length l).
Proof.
  induction l as [|y rest IH]; cbn [insertSorted List.length]; [reflexivity|].
  destruct (le x y); cbn [List.length]; [reflexivity|]. now rewrite IH.
Qed.

Lemma sorted_length {A : Type} (le : A -> A -> bool) (l : list A) :
  List.length (sorted le l) = List.length l.
Proof.
  induction l as [|x l IH]; cbn [sorted fold_right List.length]; [reflexivity|].
  fold (sorted le l). now rewrite insertSorted_length, IH.
Qed.

Lemma firstn_add {A : Type} (a b : nat) (l : list A) :
  firstn (a + b) l = firstn a l ++ firstn b (skipn a l).
Proof.
  revert l. induction a as [|a IH]; intros l; [reflexivity|].
  destruct l as [|x l]; cbn [Nat.add firstn skipn app].
  - now rewrite firstn_nil.
  - now rewrite IH.
Qed.

(** Consecutive windows of [n] documents tile the list. *)
Lemma windows_tile {A : Type} (n k : nat) (l : list A) :
  List.concat (map (fun p => firstn n (skipn ((p - 1) * n) l)) (seq 1 k))
  = firstn (k * n) l.
Proof.
  induction k as [|k IH]; [reflexivity|].
  rewrite seq_S, map_app, concat_app, IH. cbn [map List.concat Nat.add].
  rewrite app_nil_r. replace (S k - 1)%nat with k by lia.
  replace (S k * n)%nat with (k * n + n)%nat by lia.
  now rewrite firstn_add.
Qed.

(** What [getExpenses] answers when no round trip fails, for a page from 1
    and a limit from 1. *)
Lemma getExpenses_quiet (userId : nat) (q : Query) (db : DB) :
  Spec.quiet db ->
  (1 <= q_page q)%Z -> (1 <= q_limit q)%Z ->
  exists pages,
    getExpenses userId q db
    = (Ok (respond 200
             {| expenses :=
                  firstn (Z.to_nat (Z.min 100 (q_limit q)))
                    (skipn (Z.to_nat ((q_page q - 1) * q_limit q))
                       (allFound userId q db));
                pagination :=
                  {| currentPage := q_page q;
                     totalPages := pages;
                     totalExpenses := List.length (allFound userId q db);
                     hasNext := (q_page q * q_limit q
                                 <? Z.of_nat (List.length (allFound userId q db)))%Z;
                     hasPrev := (1 <? q_page q)%Z |} |}), db).
Proof.
  intros Hq Hp Hl. unfold getExpenses, queryHelpers.getQueryOptions.
  cbn [queryHelpers.skip queryHelpers.limit queryHelpers.sortKey
       queryHelpers.sortDirection option_map].
  unfold bind, get, ret.
  rewrite !(roundTrip_quiet _ _ (Hq _)).
  unfold allFound. rewrite sorted_length.
  eexists. f_equal. f_equal. f_equal.
  unfold cursorLimit, cursorSkip.
  assert (E : (Z.min 100 (q_limit q) =? 0)%Z = false) by (apply Z.eqb_neq; lia).
  rewrite E. rewrite Z.max_r by nia.
  replace (Z.abs_nat (Z.min 100 (q_limit q)))
    with (Z.to_nat (Z.min 100 (q_limit q))) by lia.
  reflexivity.
Qed.

(** X17.  With a limit from 1 to 100 and no failing round trip, the
    pages of [getExpenses] tile the result: the pages 1 to [k], one after
    the other, are the first [k * limit] documents of the query in its
    order; every page reports the number of all documents of the query, and
    [hasNext] is true exactly when the next page holds a document. *)
Theorem getExpenses_pages_tile (userId : nat) (q : Query) (db : DB) (k : nat) :
  Spec.quiet db ->
  (1 <= q_limit q <= 100)%Z ->
  List.concat (map (fun p => expensesOf (getExpenses userId (withPage (Z.of_nat p) q) db))
            (seq 1 k))
  = firstn (k * Z.to_nat (q_limit q)) (allFound userId q db)
  /\ forall p : nat,
       (1 <= p)%nat ->
       exists response,
         getExpenses userId (withPage (Z.of_nat p) q) db = (Ok response, db)
         /\ totalExpenses (pagination (data response))
            = List.length (allFound userId q db)
         /\ (hasNext (pagination (data response)) = true
             <-> expensesOf (getExpenses userId (withPage (Z.of_nat (S p)) q) db)
                 <> []).
Proof.
  intros Hq Hl.
  assert (Hpage : forall p : nat, (1 <= p)%nat ->
            expensesOf (getExpenses userId (withPage (Z.of_nat p) q) db)
            = firstn (Z.to_nat (q_limit q))
                (skipn ((p - 1) * Z.to_nat (q_limit q)) (allFound userId q db))).
  { intros p Hp.
    destruct (@getExpenses_quiet userId (withPage (Z.of_nat p) q) db Hq)
      as (pages & Hrun); cbn [q_page q_limit withPage]; try lia.
    unfold expensesOf. rewrite Hrun. cbn [fst data expenses q_page q_limit withPage].
    rewrite Z.min_r by lia.
    replace (Z.to_nat ((Z.of_nat p - 1) * q_limit q))
      with ((p - 1) * Z.to_nat (q_limit q))%nat by nia.
    reflexivity. }
  split.
  - rewrite <- windows_tile. f_equal. apply map_ext_in.
    intros p Hin. apply in_seq in Hin. apply Hpage. lia.
  - intros p Hp.
    destruct (@getExpenses_quiet userId (withPage (Z.of_nat p) q) db Hq)
      as (pages & Hrun); cbn [q_page q_limit withPage]; try lia.
    eexists. split; [exact Hrun|].
    cbn [data pagination totalExpenses hasNext q_page q_limit withPage].
    split; [reflexivity|].
    rewrite Hpage by lia. replace (S p - 1)%nat with p by lia.
    change (allFound userId (withPage (Z.of_nat p) q) db)
      with (allFound userId q db).
    set (l := allFound userId q db).
    rewrite Z.ltb_lt. split.
    + intros Hlt Hnil.
      assert (Hlen : List.length
                (firstn (Z.to_nat (q_limit q))
                   (skipn (p * Z.to_nat (q_limit q)) l)) = 0%nat)
        by now rewrite Hnil.
      rewrite length_firstn, length_skipn in Hlen. nia.
    + intros Hne. destruct (Z_lt_le_dec (Z.of_nat p * q_limit q)
                              (Z.of_nat (List.length l))) as [|Hge]; [assumption|].
      exfalso. apply Hne. rewrite skipn_all2 by nia. apply firstn_nil.
Qed.

(** Three lunches, two to a page. *)
Lemma getExpenses_pages_tile_witness :
  let q := {| q_page := 1; q_limit := 2; q_category := None;
              q_startDate := None; q_endDate := None;
              q_sortBy := by_amount; q_sortOrder := "asc" |} in
  let db := set_expenses [Examples.lunch 31 30; Examples.lunch 32 10;
                          Examples.lunch 33 20] Examples.db0 in
  List.concat (map (fun p => expensesOf (getExpenses 1 (withPage (Z.of_nat p) q) db))
                 (seq 1 2))
  = firstn (2 * Z.to_nat (q_limit q)) (allFound 1 q db).
Proof.
  intros q db. apply (@getExpenses_pages_tile 1 q db 2).
  - intros c. reflexivity.
  - cbn. lia.
Defined.

(** Above 100 the limit of a page is cut to 100, while the pages are still
    counted and skipped by the limit asked for: with a limit of 150 and 200
    documents, page 1 holds the documents 1 to 100 and announces a next
    page, page 2 holds the documents 151 to 200 and announces none, and
    the documents 101 to 150 are on no page. *)
Example getExpenses_skips_beyond_the_cap :
  let q := {| q_page := 1; q_limit := 150; q_category := None;
              q_startDate := None; q_endDate := None;
              q_sortBy := by_date; q_sortOrder := "asc" |} in
  let db := set_expenses
              (map (fun n => ExpenseSchema.set_date (Z.of_nat n) (Examples.lunch n 1))
                 (seq 1 200)) Examples.db0 in
  let page1 := getExpenses 1 (withPage 1 q) db in
  let page2 := getExpenses 1 (withPage 2 q) db in
  map _id (expensesOf page1) = seq 1 100
  /\ map _id (expensesOf page2) = seq 151 50
  /\ match fst page1, fst page2 with
     | Ok r1, Ok r2 =>
         hasNext (pagination (data r1)) = true
         /\ hasNext (pagination (data r2)) = false
         /\ totalExpenses (pagination (data r1)) = 200%nat
     | _, _ => False
     end.
Proof. vm_compute. repeat split. Qed.

End Pagination.

(** ** Income: the status of a source and the roll-up *)

Module IncomeRollup.
Import Income.

(** The sources that the roll-up counts, by their [status]. *)
Lemma matchActive_status (userId : nat) (now : Z) (i : t) :
  matchActive userId now i
  = Nat.eqb (user i) userId
    && match IncomeVirtuals.status now i with
       | IncomeVirtuals.active | IncomeVirtuals.future => true
       | IncomeVirtuals.inactive | IncomeVirtuals.ended => false
       end.
Proof.
  unfold matchActive, IncomeVirtuals.status.
  destruct (Nat.eqb (user i) userId), (isActive i); cbn [andb negb];
    try reflexivity.
  destruct (endDate i) as [e|].
  - rewrite Z.leb_antisym. destruct (e <? now)%Z; cbn [negb];
      [reflexivity | now destruct (now <? startDate i)%Z].
  - now destruct (now <? startDate i)%Z.
Qed.

Lemma Qsum_scaled {A : Type} (f : A -> Q) (k : Q) (l : list A) :
  Qsum (map (fun a => f a / k) l) == Qsum (map f l) / k.
Proof.
  induction l as [|a l IH]; cbn [map].
  - rewrite !Qsum_nil. unfold Qdiv. lra.
  - rewrite !Qsum_cons, IH. unfold Qdiv. lra.
Qed.

(** X18.  The roll-up of [getTotalAnnualIncome] and the [status] of a
    source.  The roll-up counts exactly the sources of the user whose
    [status] is ['active'] or ['future']: a source that has not started yet
    counts in full.  Its totals agree with one another: [totalMonthly] is a
    twelfth of [totalAnnual], the values of the breakdown sum to
    [totalAnnual], and [sourceCount] is the length of the breakdown. *)
Theorem rollup_by_status (coll : list t) (now : Z) (userId : nat) :
  let counted :=
    filter (fun i =>
              Nat.eqb (user i) userId
              && match IncomeVirtuals.status now i with
                 | IncomeVirtuals.active | IncomeVirtuals.future => true
                 | IncomeVirtuals.inactive | IncomeVirtuals.ended => false
                 end) coll in
  let summary := incomeController.getIncomeSummary coll now userId in
  sourceCount summary = List.length counted
  /\ map b_source (breakdown summary) = map source counted
  /\ totalAnnual summary == Qsum (map annualAmount counted)
  /\ totalMonthly summary == totalAnnual summary / 12
  /\ Qsum (map b_annualAmount (breakdown summary)) == totalAnnual summary.
Proof.
  cbv zeta. unfold incomeController.getIncomeSummary, getTotalAnnualIncome.
  rewrite (filter_ext _ _ (matchActive_status userId now)).
  set (counted := filter _ coll).
  assert (Hactive : forall i, In i counted -> isActive i = true).
  { intros i Hin. apply filter_In in Hin. destruct Hin as [_ Hq].
    apply andb_true_iff in Hq. destruct Hq as [_ Hq].
    unfold IncomeVirtuals.status in Hq. now destruct (isActive i). }
  assert (Hannual : Qsum (map switchAnnualAmount counted)
                    == Qsum (map annualAmount counted)).
  { apply Qsum_map_ext. intros i Hin. unfold annualAmount.
    rewrite (Hactive i Hin). cbn [negb].
    rewrite IncomeFacts.multipliers_spec.
    apply IncomeFacts.switchAnnualAmount_spec. }
  destruct counted as [|i0 rest] eqn:E.
  - cbn. repeat split; reflexivity.
  - rewrite <- E in *. clear E.
    cbn [incomeController.totalIncome sourceCount breakdown totalAnnual
         totalMonthly].
    rewrite !map_map. cbn [b_source b_annualAmount].
    repeat split; try reflexivity; try assumption.
    apply Qsum_scaled.
Qed.

(** A source that starts in the future is counted. *)
Example future_source_is_counted :
  totalAnnual
    (incomeController.getIncomeSummary
       [ {| _id := 3; user := 1; source := "Next job"; type := Salary;
            amount := 1000; frequency := Monthly; startDate := 900000;
            endDate := None; isActive := true; isRecurring := true |} ] 100 1)
  == 12000.
Proof. reflexivity. Qed.

End IncomeRollup.

(** ** Expenses: the counter of the free tier *)

Module Quota.
Import ExpenseSchema Behaviour.





(** *** The operations on a database without faults *)












(** *** The counter *)









Example free_tier_cap_is_reached :
  expensesHeld 1
    (expenseRoutes.serveAll
       [ {| expenseRoutes.arrivesAt := 2000; expenseRoutes.meets := fun _ => [];
            expenseRoutes.request :=
              expenseRoutes.POST_expenses 1 (Examples.lunchBody 40) |};
         {| expenseRoutes.arrivesAt := 3000; expenseRoutes.meets := fun _ => [];
            expenseRoutes.request :=
              expenseRoutes.POST_expenses 1 (Examples.lunchBody 50) |};
         {| expenseRoutes.arrivesAt := 4000; expenseRoutes.meets := fun _ => [];
            expenseRoutes.request :=
              expenseRoutes.POST_expenses 1 (Examples.lunchBody 60) |} ]
       (set_users
          [ {| UserSchema._id := 1; UserSchema.premiumSubscription := false;
               UserSchema.subscriptionExpiry := None;
               UserSchema.totalExpenses := 0; UserSchema.monthlyLimit := 2 |} ]
          Examples.db0))
  = 2%nat.
Proof. vm_compute. reflexivity. Qed.

(** An update whose body has the key [user]: user 1 hands the lunch 31 to
    user 2.  The handler answers, user 1 holds no expense any more, user 2
    holds one, and the counters are as they were. *)
Example update_with_user_key_moves_the_expense :
  let handOver := {| expenseController.ue_user := Some 2%nat;
                     expenseController.ue_amount := None;
                     expenseController.ue_description := None;
                     expenseController.ue_category := None;
                     expenseController.ue_date := None;
                     expenseController.ue_status := None |} in
  let db' := expenseRoutes.serveAll
               [ {| expenseRoutes.arrivesAt := 2000;
                    expenseRoutes.meets := fun _ => [];
                    expenseRoutes.request :=
                      expenseRoutes.PUT_expenses_id 1 31 handOver |} ]
               Examples.dbBudget in
  expensesHeld 1 Examples.dbBudget = 1%nat
  /\ expensesHeld 2 Examples.dbBudget = 0%nat
  /\ expensesHeld 1 db' = 0%nat
  /\ expensesHeld 2 db' = 1%nat
  /\ users db' = users Examples.dbBudget.
Proof. vm_compute. repeat split; reflexivity. Qed.


End Quota.

(** ** Goal insights *)

Module GoalInsights.
Import GoalSchema.










End GoalInsights.

(** ** The contribution history *)

Module ContributionHistory.

(** A contribution of 100 to a goal with 700 of 1000 saved. *)
Lemma addContribution_keeps_clampInvariant_witness :
  Spec.clampInvariant
    (match
       fst (@Goal.addContribution Examples.thirtyDayMonths
              (Examples.savings 7 700 Examples.noAutoSave) 100
              "Manual contribution" GoalSchema.manual Examples.db0)
     with
     | Ok g' => g'
     | Throw _ => Examples.savings 7 700 Examples.noAutoSave
     end).
Proof.
  refine (@GoalFacts.addContribution_keeps_clampInvariant
            Examples.thirtyDayMonths
            (Examples.savings 7 700 Examples.noAutoSave) 100
            "Manual contribution" GoalSchema.manual Examples.db0 _ _ _ _).
  - split; [|split]; vm_compute; [discriminate | discriminate | reflexivity].
  - vm_compute. reflexivity.
Defined.

End ContributionHistory.

(** ** The status of a goal *)

Module GoalStatus.
Import GoalSchema.





(** X23.  The monthly savings needed are never negative and never more
    than the remaining amount, and they are the whole remaining amount when
    at most 30 days are left. *)
Theorem monthlySavingsNeeded_bounds (now : Z) (g : t) :
  0 <= GoalVirtuals.monthlySavingsNeeded now g
  /\ GoalVirtuals.monthlySavingsNeeded now g <= Goal.remainingAmount g
  /\ ((GoalVirtuals.daysRemaining now g <= 30)%Z ->
      GoalVirtuals.monthlySavingsNeeded now g == Goal.remainingAmount g).
Proof.
  unfold GoalVirtuals.monthlySavingsNeeded. cbn zeta.
  set (r := Goal.remainingAmount g).
  set (m := Qmax 1 (inject_Z (GoalVirtuals.daysRemaining now g) / (3044 # 100))).
  assert (Hr : 0 <= r) by (subst r; unfold Goal.remainingAmount; apply Q.le_max_l).
  assert (Hm : 1 <= m) by (subst m; apply Q.le_max_l).
  assert (Hinv : 0 < / m) by (apply Qinv_lt_0_compat; lra).
  assert (Hinv1 : / m <= 1).
  { apply Qle_shift_inv_r; lra. }
  unfold Qdiv. split; [|split].
  - apply Qmult_le_0_compat; lra.
  - setoid_replace r with (r * 1) at 2 by ring.
    apply Qmult_le_compat_nonneg; lra.
  - intros Hd.
    assert (Hq : inject_Z (GoalVirtuals.daysRemaining now g) / (3044 # 100) <= 1).
    { apply Qle_shift_div_r; [reflexivity|].
      assert (H30 : inject_Z (GoalVirtuals.daysRemaining now g) <= inject_Z 30)
        by (rewrite <- Zle_Qle; exact Hd).
      assert (E30 : inject_Z 30 == 30) by reflexivity.
      lra. }
    assert (Em : m == 1) by (subst m; apply Q.max_l; exact Hq).
    rewrite Em. field.
Qed.

End GoalStatus.
